(** * Plan store REST API: conditional requests over a key-value store

    A shallow embedding of [index.js] (the Express application) and
    [schema.js] (the JSON schema of a plan): the entity-tag generator, the
    schema validator, the five request handlers and the bearer-token
    middleware, followed by the properties of the conditional-request
    protocol.  Three earlier revisions of [index.js] are embedded beside
    the current one, with the Base64 tags two of them use.

    Modelling conventions
    - a JavaScript string is a byte string ([string]), read as its UTF-8
      encoding (what [crypto] hashes and what Redis stores);
    - a JSON number is an integer ([Z]); fractions and exponents are outside
      the model;
    - a JavaScript object is an association list in property-enumeration
      order;
    - Redis is a finite map from keys to byte strings; [get], [set] and
      [del] do not fail, so the [catch] branch of a handler is reached only
      when [JSON.parse] throws;
    - a handler is a function from the request and the store to the
      response and the store; the identity provider is a parameter of the
      middleware, and the properties of the handlers are those of the
      requests the middleware lets through;
    - the response of a handler is what it hands to Express: the status,
      the [ETag] it has set with [res.set], if any, and the value it gives
      to [res.json] (none for [res.end]).  [res_send] is what Express sends
      for it: [res.json] adds a weak [ETag] of the body when the handler has
      set none, and answers 304 to a GET that is fresh.  The routes
      [app_get], [app_post], ... are the handlers followed by [res_send];
    - a request carries the headers the handlers read ([Authorization],
      [If-Match], [If-None-Match]) and neither [If-Modified-Since] nor
      [Cache-Control]; a request to [app.get] has the method GET;
    - the text of [{ errors: validatePlan.errors }] is a parameter of
      [res_send]. *)

From Stdlib Require Import ZArith List Ascii String Bool Lia.
From stdpp Require Import gmap strings.
Import ListNotations.

Local Open Scope string_scope.
Local Open Scope Z_scope.

#[local] Arguments String.append !_ _ : simpl nomatch.

(** ** SHA-1 (the digest behind [crypto.createHash('sha1')]) *)

Module SHA1.

Definition mask32 : Z := 4294967295.

Definition add32 (x y : Z) : Z := Z.land (x + y) mask32.

Definition rotl32 (n x : Z) : Z :=
  Z.land (Z.lor (Z.shiftl x n) (Z.shiftr x (32 - n))) mask32.

Definition not32 (x : Z) : Z := Z.lxor x mask32.

Definition byte_of (c : ascii) : Z := Z.of_N (N_of_ascii c).

Fixpoint bytes_of (s : string) : list Z :=
  match s with
  | EmptyString => []
  | String c r => byte_of c :: bytes_of r
  end.

(** Big-endian bytes of [x], [n] of them. *)
Fixpoint be_bytes (n : nat) (x : Z) : list Z :=
  match n with
  | O => []
  | S k => Z.land (Z.shiftr x (8 * Z.of_nat k)) 255 :: be_bytes k x
  end.

(** Message padding: a 1 bit, zeros up to 56 mod 64, the bit length on
    64 bits. *)
Definition pad (msg : list Z) : list Z :=
  let l := Z.of_nat (List.length msg) in
  let zeros := Z.to_nat ((55 - l) mod 64) in
  msg ++ 128 :: List.repeat 0 zeros ++ be_bytes 8 (8 * l).

Fixpoint words_of (fuel : nat) (bs : list Z) : list Z :=
  match fuel, bs with
  | S f, b0 :: b1 :: b2 :: b3 :: r =>
      (Z.shiftl b0 24 + Z.shiftl b1 16 + Z.shiftl b2 8 + b3) :: words_of f r
  | _, _ => []
  end.

(** The message schedule, most recent word first: from the reversed 16
    words of a block to the reversed 80 words. *)
Fixpoint schedule (n : nat) (rw : list Z) : list Z :=
  match n with
  | O => rw
  | S k =>
      let w := rotl32 1 (Z.lxor (Z.lxor (nth 2 rw 0) (nth 7 rw 0))
                                (Z.lxor (nth 13 rw 0) (nth 15 rw 0))) in
      schedule k (w :: rw)
  end.

Record state := St { ha : Z; hb : Z; hc : Z; hd : Z; he : Z }.

Definition init : state :=
  St 0x67452301 0xEFCDAB89 0x98BADCFE 0x10325476 0xC3D2E1F0.

Definition round_f (i : Z) (b c d : Z) : Z :=
  if i <? 20 then Z.lor (Z.land b c) (Z.land (not32 b) d)
  else if i <? 40 then Z.lxor (Z.lxor b c) d
  else if i <? 60 then Z.lor (Z.lor (Z.land b c) (Z.land b d)) (Z.land c d)
  else Z.lxor (Z.lxor b c) d.

Definition round_k (i : Z) : Z :=
  if i <? 20 then 0x5A827999
  else if i <? 40 then 0x6ED9EBA1
  else if i <? 60 then 0x8F1BBCDC
  else 0xCA62C1D6.

Definition round (s : state) (i : Z) (w : Z) : state :=
  let temp :=
    add32 (add32 (add32 (add32 (rotl32 5 (ha s)) (round_f i (hb s) (hc s) (hd s)))
                        (he s)) (round_k i)) w in
  St temp (ha s) (rotl32 30 (hb s)) (hc s) (hd s).

Fixpoint rounds (s : state) (i : Z) (ws : list Z) : state :=
  match ws with
  | [] => s
  | w :: r => rounds (round s i w) (i + 1) r
  end.

Definition compress (h : state) (block : list Z) : state :=
  let ws := List.rev (schedule 64 (List.rev block)) in
  let s := rounds h 0 ws in
  St (add32 (ha h) (ha s)) (add32 (hb h) (hb s)) (add32 (hc h) (hc s))
     (add32 (hd h) (hd s)) (add32 (he h) (he s)).

Fixpoint blocks (fuel : nat) (h : state) (ws : list Z) : state :=
  match fuel with
  | O => h
  | S f =>
      match ws with
      | [] => h
      | _ => blocks f (compress h (firstn 16 ws)) (skipn 16 ws)
      end
  end.

Definition digest (msg : list Z) : state :=
  let bs := pad msg in
  let ws := words_of (List.length bs) bs in
  blocks (List.length ws) init ws.

Definition hex_digit (d : Z) : ascii :=
  if d <? 10 then ascii_of_N (Z.to_N (48 + d)) else ascii_of_N (Z.to_N (87 + d)).

(** [n] lowercase hexadecimal digits of [x], most significant first. *)
Fixpoint hex_of (n : nat) (x : Z) (acc : string) : string :=
  match n with
  | O => acc
  | S k => hex_of k (Z.shiftr x 4) (String (hex_digit (Z.land x 15)) acc)
  end.

Definition hex (s : state) : string :=
  hex_of 8 (ha s) (hex_of 8 (hb s) (hex_of 8 (hc s) (hex_of 8 (hd s) (hex_of 8 (he s) EmptyString)))).

Definition sha1_hex (data : string) : string := hex (digest (bytes_of data)).

End SHA1.

(** [function generateETag(data) { return crypto.createHash('sha1').update(data).digest('hex'); }] *)
Definition generateETag (data : string) : string := SHA1.sha1_hex data.

(** ** Characters and decimal numerals *)

Definition dquote : ascii := Eval cbv in ascii_of_N 34.
Definition backslash : ascii := Eval cbv in ascii_of_N 92.

Definition code (c : ascii) : N := N_of_ascii c.

Definition is_digit (c : ascii) : bool := ((48 <=? code c) && (code c <=? 57))%N.

Definition digit_val (c : ascii) : N := (code c - 48)%N.

Definition digit_char (d : N) : ascii := ascii_of_N (48 + d).

(** Decimal digits of [n] in front of [acc]; [fuel] bounds the number of
    digits. *)
Fixpoint N_digits (fuel : nat) (n : N) (acc : string) : string :=
  match fuel with
  | O => acc
  | S f =>
      let acc' := String (digit_char (n mod 10)) acc in
      if (n / 10 =? 0)%N then acc' else N_digits f (n / 10) acc'
  end.

Definition string_of_N (n : N) : string := N_digits (S (N.to_nat (N.log2 n))) n EmptyString.

(** [String(n)] for an integer [n]. *)
Definition string_of_Z (z : Z) : string :=
  match z with
  | Z0 => "0"
  | Zpos p => string_of_N (Npos p)
  | Zneg p => String "-" (string_of_N (Npos p))
  end.

(** Reads the longest run of digits in front of [s], most significant
    first, on top of [acc]. *)
Fixpoint read_digits (s : string) (acc : N) : N * string :=
  match s with
  | String c r => if is_digit c then read_digits r (10 * acc + digit_val c)%N else (acc, s)
  | EmptyString => (acc, s)
  end.

Fixpoint all_digits (s : string) : bool :=
  match s with
  | EmptyString => true
  | String c r => is_digit c && all_digits r
  end.

(** An array index in the sense of ECMAScript: the canonical decimal
    numeral of an integer below 2^32 - 1. *)
Definition array_index (k : string) : option N :=
  match k with
  | EmptyString => None
  | String c r =>
      if all_digits k && (negb (Ascii.eqb c "0") || String.eqb r EmptyString) then
        let n := fst (read_digits k 0%N) in
        if (n <? 4294967295)%N then Some n else None
      else None
  end.

(** ** JSON values *)

Unset Elimination Schemes.
Inductive json : Type :=
| JNull
| JBool (b : bool)
| JNum (n : Z)
| JStr (s : string)
| JArr (items : list json)
| JObj (props : list (string * json)).
Set Elimination Schemes.

(** *** Objects: property access and definition *)

Fixpoint get_prop (props : list (string * json)) (k : string) : option json :=
  match props with
  | [] => None
  | (k', v) :: r => if String.eqb k k' then Some v else get_prop r k
  end.

Definition has_prop (props : list (string * json)) (k : string) : bool :=
  match get_prop props k with Some _ => true | None => false end.

Fixpoint replace_prop (props : list (string * json)) (k : string) (v : json)
  : list (string * json) :=
  match props with
  | [] => []
  | (k', v') :: r =>
      if String.eqb k k' then (k', v) :: r else (k', v') :: replace_prop r k v
  end.

(** A new array-index key goes before the first key that is not a smaller
    array index. *)
Fixpoint insert_index (props : list (string * json)) (i : N) (k : string) (v : json)
  : list (string * json) :=
  match props with
  | [] => [(k, v)]
  | (k', v') :: r =>
      match array_index k' with
      | Some j => if (j <? i)%N then (k', v') :: insert_index r i k v else (k, v) :: props
      | None => (k, v) :: props
      end
  end.

(** [CreateDataProperty(obj, k, v)] on an ordinary object: an existing
    property keeps its place; a new array index is placed among the array
    indices, which come first in ascending order; any other new key is
    appended. *)
Definition set_prop (props : list (string * json)) (k : string) (v : json)
  : list (string * json) :=
  if has_prop props k then replace_prop props k v
  else match array_index k with
       | Some i => insert_index props i k v
       | None => props ++ [(k, v)]
       end.

Definition set_props (props : list (string * json)) (kvs : list (string * json))
  : list (string * json) :=
  fold_left (fun acc kv => set_prop acc (fst kv) (snd kv)) kvs props.

Fixpoint indexed {A : Type} (i : N) (l : list A) : list (string * A) :=
  match l with
  | [] => []
  | x :: r => (string_of_N i, x) :: indexed (N.succ i) r
  end.

Fixpoint chars (s : string) : list json :=
  match s with
  | EmptyString => []
  | String c r => JStr (String c EmptyString) :: chars r
  end.

(** The own enumerable properties a spread copies: those of an object, the
    elements of an array under their indices, the characters of a string
    under theirs, none for [null], booleans and numbers. *)
Definition own_props (j : json) : list (string * json) :=
  match j with
  | JObj props => props
  | JArr items => indexed 0%N items
  | JStr s => indexed 0%N (chars s)
  | _ => []
  end.

(** [{ ...a, ...b }] *)
Definition spread (a b : json) : json :=
  JObj (set_props (set_props [] (own_props a)) (own_props b)).

(** ** [JSON.stringify] *)

(** Two lowercase hexadecimal digits of a byte. *)
Definition hex2 (n : N) : string :=
  String (SHA1.hex_digit (Z.of_N (n / 16))) (String (SHA1.hex_digit (Z.of_N (n mod 16))) EmptyString).

(** [QuoteJSONString], one character: the quote and the backslash are
    escaped, control characters have a short escape or [\u00xx]. *)
Definition quote_char (c : ascii) : string :=
  if Ascii.eqb c dquote then String backslash (String dquote EmptyString)
  else if Ascii.eqb c backslash then String backslash (String backslash EmptyString)
  else if (code c =? 8)%N then String backslash "b"
  else if (code c =? 9)%N then String backslash "t"
  else if (code c =? 10)%N then String backslash "n"
  else if (code c =? 12)%N then String backslash "f"
  else if (code c =? 13)%N then String backslash "r"
  else if (code c <? 32)%N then String backslash (String "u" (String "0" (String "0" (hex2 (code c)))))
  else String c EmptyString.

Fixpoint quote_chars (s : string) : string :=
  match s with
  | EmptyString => EmptyString
  | String c r => quote_char c ++ quote_chars r
  end.

Definition quote (s : string) : string :=
  String dquote (quote_chars s ++ String dquote EmptyString).

Fixpoint join_comma (l : list string) : string :=
  match l with
  | [] => EmptyString
  | [x] => x
  | x :: r => x ++ String "," (join_comma r)
  end.

Fixpoint JSON_stringify (j : json) : string :=
  match j with
  | JNull => "null"
  | JBool true => "true"
  | JBool false => "false"
  | JNum n => string_of_Z n
  | JStr s => quote s
  | JArr items => String "[" (join_comma (map JSON_stringify items) ++ "]")
  | JObj props =>
      String "{" (join_comma (map (fun kv => quote (fst kv) ++ String ":" (JSON_stringify (snd kv))) props) ++ "}")
  end.

(** ** [JSON.parse] *)

Definition is_ws (c : ascii) : bool :=
  ((code c =? 32) || (code c =? 9) || (code c =? 10) || (code c =? 13))%N.

Fixpoint skip_ws (s : string) : string :=
  match s with
  | String c r => if is_ws c then skip_ws r else s
  | EmptyString => s
  end.

Definition hex_val (c : ascii) : option N :=
  let n := code c in
  if ((48 <=? n) && (n <=? 57))%N then Some (n - 48)%N
  else if ((97 <=? n) && (n <=? 102))%N then Some (n - 87)%N
  else if ((65 <=? n) && (n <=? 70))%N then Some (n - 55)%N
  else None.

Definition hex4 (a b c d : ascii) : option N :=
  match hex_val a, hex_val b, hex_val c, hex_val d with
  | Some x, Some y, Some z, Some w => Some (((x * 16 + y) * 16 + z) * 16 + w)%N
  | _, _, _, _ => None
  end.

Definition byte (n : N) : ascii := ascii_of_N n.

(** The UTF-8 encoding of a code point. *)
Definition utf8 (cp : N) : string :=
  (if cp <? 128 then String (byte cp) EmptyString
   else if cp <? 2048 then
     String (byte (192 + cp / 64)) (String (byte (128 + cp mod 64)) EmptyString)
   else if cp <? 65536 then
     String (byte (224 + cp / 4096))
       (String (byte (128 + (cp / 64) mod 64)) (String (byte (128 + cp mod 64)) EmptyString))
   else
     String (byte (240 + cp / 262144))
       (String (byte (128 + (cp / 4096) mod 64))
          (String (byte (128 + (cp / 64) mod 64)) (String (byte (128 + cp mod 64)) EmptyString))))%N.

Definition is_high_surrogate (u : N) : bool := ((55296 <=? u) && (u <? 56320))%N.
Definition is_low_surrogate (u : N) : bool := ((56320 <=? u) && (u <? 57344))%N.

(** U+FFFD, what a lone surrogate becomes once the string is encoded. *)
Definition replacement : string := utf8 65533.

Definition prepend {A : Type} (p : string) (o : option (string * A)) : option (string * A) :=
  match o with
  | Some (s, rest) => Some (p ++ s, rest)
  | None => None
  end.

Definition simple_escape (e : ascii) : option ascii :=
  if Ascii.eqb e dquote then Some dquote
  else if Ascii.eqb e backslash then Some backslash
  else if Ascii.eqb e "/" then Some "/"%char
  else if Ascii.eqb e "b" then Some (byte 8)
  else if Ascii.eqb e "f" then Some (byte 12)
  else if Ascii.eqb e "n" then Some (byte 10)
  else if Ascii.eqb e "r" then Some (byte 13)
  else if Ascii.eqb e "t" then Some (byte 9)
  else None.

(** The characters of a string literal after its opening quote, up to the
    closing quote: the decoded string and what follows the literal. *)
Fixpoint parse_chars (s : string) : option (string * string) :=
  match s with
  | EmptyString => None
  | String c r =>
      if Ascii.eqb c dquote then Some (EmptyString, r)
      else if Ascii.eqb c backslash then
        match r with
        | EmptyString => None
        | String e r1 =>
            if Ascii.eqb e "u" then
              match r1 with
              | String h1 (String h2 (String h3 (String h4 r2))) =>
                  match hex4 h1 h2 h3 h4 with
                  | None => None
                  | Some hi =>
                      if is_high_surrogate hi then
                        match r2 with
                        | String b (String u (String l1 (String l2 (String l3 (String l4 r3))))) =>
                            match (if Ascii.eqb b backslash && Ascii.eqb u "u"
                                   then hex4 l1 l2 l3 l4 else None) with
                            | Some lo =>
                                if is_low_surrogate lo then
                                  prepend (utf8 (65536 + (hi - 55296) * 1024 + (lo - 56320))%N)
                                          (parse_chars r3)
                                else prepend replacement (parse_chars r2)
                            | None => prepend replacement (parse_chars r2)
                            end
                        | _ => prepend replacement (parse_chars r2)
                        end
                      else if is_low_surrogate hi then prepend replacement (parse_chars r2)
                      else prepend (utf8 hi) (parse_chars r2)
                  end
              | _ => None
              end
            else
              match simple_escape e with
              | Some x => prepend (String x EmptyString) (parse_chars r1)
              | None => None
              end
        end
      else if (code c <? 32)%N then None
      else prepend (String c EmptyString) (parse_chars r)
  end.

Definition frac_or_exp (c : ascii) : bool :=
  Ascii.eqb c "." || Ascii.eqb c "e" || Ascii.eqb c "E".

(** A number: an optional minus sign and an integer part without a leading
    zero.  A fraction or an exponent is outside the model ([None]). *)
Definition parse_number (s : string) : option (Z * string) :=
  let '(neg, s1) :=
    match s with
    | String c r => if Ascii.eqb c "-" then (true, r) else (false, s)
    | EmptyString => (false, s)
    end in
  match s1 with
  | EmptyString => None
  | String c r =>
      if is_digit c then
        let '(n, rest) := if Ascii.eqb c "0" then (0%N, r) else read_digits s1 0%N in
        let z := if neg then Z.opp (Z.of_N n) else Z.of_N n in
        match rest with
        | EmptyString => Some (z, rest)
        | String d _ => if frac_or_exp d then None else Some (z, rest)
        end
      else None
  end.

Fixpoint strip_prefix (p s : string) : option string :=
  match p with
  | EmptyString => Some s
  | String c p' =>
      match s with
      | String d s' => if Ascii.eqb c d then strip_prefix p' s' else None
      | EmptyString => None
      end
  end.

(** The elements of an array after its opening bracket (the array is not
    empty), up to the closing bracket.  [pv] parses one value. *)
Fixpoint parse_elements (pv : string -> option (json * string)) (n : nat) (s : string)
  : option (list json * string) :=
  match n with
  | O => None
  | S n' =>
      match pv s with
      | None => None
      | Some (v, r) =>
          match skip_ws r with
          | EmptyString => None
          | String c r' =>
              if Ascii.eqb c "," then
                match parse_elements pv n' r' with
                | Some (vs, r'') => Some (v :: vs, r'')
                | None => None
                end
              else if Ascii.eqb c "]" then Some ([v], r')
              else None
          end
      end
  end.

(** The members of an object after its opening brace (the object is not
    empty), up to the closing brace, in source order. *)
Fixpoint parse_members (pv : string -> option (json * string)) (n : nat) (s : string)
  : option (list (string * json) * string) :=
  match n with
  | O => None
  | S n' =>
      match skip_ws s with
      | EmptyString => None
      | String q r0 =>
          if Ascii.eqb q dquote then
            match parse_chars r0 with
            | None => None
            | Some (k, r1) =>
                match skip_ws r1 with
                | EmptyString => None
                | String c r2 =>
                    if Ascii.eqb c ":" then
                      match pv r2 with
                      | None => None
                      | Some (v, r3) =>
                          match skip_ws r3 with
                          | EmptyString => None
                          | String d r4 =>
                              if Ascii.eqb d "," then
                                match parse_members pv n' r4 with
                                | Some (kvs, r5) => Some ((k, v) :: kvs, r5)
                                | None => None
                                end
                              else if Ascii.eqb d "}" then Some ([(k, v)], r4)
                              else None
                          end
                      end
                    else None
                end
            end
          else None
      end
  end.

(** One JSON value in front of [s].  The members of an object are defined
    on it one after the other, so a repeated key keeps its first place and
    its last value. *)
Fixpoint parse_value (fuel : nat) (s : string) : option (json * string) :=
  match fuel with
  | O => None
  | S f =>
      match skip_ws s with
      | EmptyString => None
      | String c r =>
          if Ascii.eqb c "{" then
            match skip_ws r with
            | EmptyString => None
            | String d r' =>
                if Ascii.eqb d "}" then Some (JObj [], r')
                else match parse_members (parse_value f) f r with
                     | Some (kvs, r'') => Some (JObj (set_props [] kvs), r'')
                     | None => None
                     end
            end
          else if Ascii.eqb c "[" then
            match skip_ws r with
            | EmptyString => None
            | String d r' =>
                if Ascii.eqb d "]" then Some (JArr [], r')
                else match parse_elements (parse_value f) f r with
                     | Some (vs, r'') => Some (JArr vs, r'')
                     | None => None
                     end
            end
          else if Ascii.eqb c dquote then
            match parse_chars r with
            | Some (str, r') => Some (JStr str, r')
            | None => None
            end
          else if Ascii.eqb c "t" then
            match strip_prefix "rue" r with Some r' => Some (JBool true, r') | None => None end
          else if Ascii.eqb c "f" then
            match strip_prefix "alse" r with Some r' => Some (JBool false, r') | None => None end
          else if Ascii.eqb c "n" then
            match strip_prefix "ull" r with Some r' => Some (JNull, r') | None => None end
          else
            match parse_number (String c r) with
            | Some (z, r') => Some (JNum z, r')
            | None => None
            end
      end
  end.

(** [JSON.parse(text)]; [None] stands for the [SyntaxError] it throws. *)
Definition JSON_parse (text : string) : option json :=
  match parse_value (String.length text) text with
  | Some (v, r) =>
      match skip_ws r with
      | EmptyString => Some v
      | String _ _ => None
      end
  | None => None
  end.

(** ** The plan schema ([schema.js]) and its validator ([ajv.compile]) *)

Unset Elimination Schemes.
Inductive schema : Type :=
| SString
| SNumber
| SArray (items : schema)
| SObject (properties : list (string * schema)) (required : list string)
          (additionalProperties : bool).
Set Elimination Schemes.

(** The keywords the plan schema uses: [type], [properties], [required],
    [additionalProperties] and [items]. *)
Fixpoint validate (sch : schema) (data : json) {struct sch} : bool :=
  match sch, data with
  | SString, JStr _ => true
  | SNumber, JNum _ => true
  | SArray items, JArr l => forallb (validate items) l
  | SObject properties required additional, JObj props =>
      forallb (has_prop props) required
      && forallb (fun kv =>
                    (fix check (ps : list (string * schema)) : bool :=
                       match ps with
                       | [] => additional
                       | (k, s) :: r =>
                           if String.eqb (fst kv) k then validate s (snd kv) else check r
                       end) properties) props
  | _, _ => false
  end.

Definition costSharesSchema : schema :=
  SObject [("deductible", SNumber); ("_org", SString); ("copay", SNumber);
           ("objectId", SString); ("objectType", SString)]
          ["deductible"; "_org"; "copay"; "objectId"; "objectType"] false.

Definition linkedServiceSchema : schema :=
  SObject [("_org", SString); ("objectId", SString); ("objectType", SString);
           ("name", SString)]
          ["_org"; "objectId"; "objectType"; "name"] false.

Definition planSchema : schema :=
  SObject
    [("planCostShares", costSharesSchema);
     ("linkedPlanServices",
      SArray (SObject [("linkedService", linkedServiceSchema);
                       ("planserviceCostShares", costSharesSchema);
                       ("_org", SString); ("objectId", SString); ("objectType", SString)]
                      ["linkedService"; "planserviceCostShares"; "_org"; "objectId";
                       "objectType"] false));
     ("_org", SString); ("objectId", SString); ("objectType", SString);
     ("planType", SString); ("creationDate", SString)]
    ["planCostShares"; "linkedPlanServices"; "_org"; "objectId"; "objectType";
     "planType"; "creationDate"] false.

(** [const validatePlan = ajv.compile(planSchema);] *)
Definition validatePlan (data : json) : bool := validate planSchema data.

(** ** Requests, responses and the store *)

Record request : Type := Request {
  authorization : option string;   (* req.headers.authorization *)
  if_match : option string;        (* req.headers['if-match'] *)
  if_none_match : option string;   (* req.headers['if-none-match'] *)
  objectId : string;               (* req.params.objectId *)
  body : json                      (* req.body *)
}.

Inductive payload : Type :=
| NoBody                            (* res.end() *)
| Json (j : json)                   (* res.json(j) *)
| ValidationErrors.                 (* res.json({ errors: validatePlan.errors }) *)

Record response : Type := Response {
  status : Z;
  ETag : option string;            (* res.set('ETag', ...), when the handler calls it *)
  sent : payload
}.

(** Redis: string keys, string values. *)
Abbreviation store := (gmap string string).

Definition redis_get (st : store) (k : string) : option string := st !! k.

Definition redis_set (st : store) (k v : string) : store := <[k := v]> st.

(** [DEL] answers with the number of keys it removed. *)
Definition redis_del (st : store) (k : string) : Z * store :=
  (match st !! k with Some _ => 1 | None => 0 end, delete k st).

(** [h === tag] for a header that may be absent ([undefined]). *)
Definition header_is (h : option string) (tag : string) : bool :=
  match h with
  | Some v => String.eqb v tag
  | None => false
  end.

(** Truthiness of a header: present and not empty. *)
Definition header_given (h : option string) : bool :=
  match h with
  | Some v => negb (String.eqb v EmptyString)
  | None => false
  end.

Definition message (m : string) : payload := Json (JObj [("message", JStr m)]).
Definition error (m : string) : payload := Json (JObj [("error", JStr m)]).
Definition message_data (m : string) (data : json) : payload :=
  Json (JObj [("message", JStr m); ("data", data)]).

Definition member (j : json) (k : string) : option json :=
  match j with
  | JObj props => get_prop props k
  | _ => None
  end.

(** [data.planCostShares.objectId], when it is there and is a string. *)
Definition plan_key (data : json) : option string :=
  match member data "planCostShares" with
  | Some shares =>
      match member shares "objectId" with
      | Some (JStr id) => Some id
      | _ => None
      end
  | None => None
  end.

(** ** The handlers ([index.js]) *)

(** Each handler is the callback of a route: its answer is the status and
    the [ETag] it sets and the value it hands to [res.json], or nothing
    when it ends with [res.end].  What the client receives for that answer
    is [res_send] of it, defined with the routes [app_get], [app_post],
    ... below. *)

(** [app.post('/api/v1/plans', ...)].  [None]: reading
    [data.planCostShares.objectId] failed, outside the [try], and no
    response is sent; validated data never gets there. *)
Definition post_handler (req : request) (st : store) : option (response * store) :=
  let data := body req in
  if negb (validatePlan data) then Some (Response 400 None ValidationErrors, st)
  else
    match plan_key data with
    | None => None
    | Some objectId =>
        let created :=
          let st' := redis_set st objectId (JSON_stringify data) in
          let etag := generateETag (JSON_stringify data) in
          Some (Response 201 (Some etag) (message_data "Plan created" data), st') in
        match redis_get st objectId with
        | None => created
        | Some existingPlan =>
            if String.eqb existingPlan EmptyString then created
            else
              match JSON_parse existingPlan with
              | Some existing =>
                  Some (Response 409 None
                          (message_data "Conflict: Plan already exists" existing), st)
              | None =>
                  Some (Response 500 None
                          (error "Internal Server Error: Could not store plan"), st)
              end
        end
    end.

(** [app.put('/api/v1/plans/:objectId', ...)] *)
Definition put_handler (req : request) (st : store) : response * store :=
  let newData := body req in
  if negb (validatePlan newData) then (Response 400 None ValidationErrors, st)
  else
    let not_found := (Response 404 None (message "Not Found: Plan does not exist"), st) in
    match redis_get st (objectId req) with
    | None => not_found
    | Some existingPlan =>
        if String.eqb existingPlan EmptyString then not_found
        else
          let currentETag := generateETag existingPlan in
          if negb (header_is (if_match req) currentETag) then
            (Response 412 None (error "Precondition Failed: ETag does not match"), st)
          else
            let st' := redis_set st (objectId req) (JSON_stringify newData) in
            let etag := generateETag (JSON_stringify newData) in
            (Response 200 (Some etag) (message_data "Plan replaced" newData), st')
    end.

(** [app.get('/api/v1/plans/:objectId', ...)].  The [ETag] header is set
    before [JSON.parse] runs, so it stays on the 500 answer. *)
Definition get_handler (req : request) (st : store) : response * store :=
  let not_found := (Response 404 None (message "Not Found: Plan not found"), st) in
  match redis_get st (objectId req) with
  | None => not_found
  | Some plan =>
      if String.eqb plan EmptyString then not_found
      else
        let etag := generateETag plan in
        if header_is (if_none_match req) etag then (Response 304 None NoBody, st)
        else
          match JSON_parse plan with
          | Some doc => (Response 200 (Some etag) (Json doc), st)
          | None =>
              (Response 500 (Some etag)
                 (error "Internal Server Error: Could not retrieve plan"), st)
          end
  end.

(** [app.patch('/api/v1/plans/:objectId', ...)] *)
Definition patch_handler (req : request) (st : store) : response * store :=
  let updates := body req in
  let not_found := (Response 404 None (message "Not Found: Plan does not exist"), st) in
  match redis_get st (objectId req) with
  | None => not_found
  | Some plan =>
      if String.eqb plan EmptyString then not_found
      else
        let currentETag := generateETag plan in
        if negb (header_is (if_match req) currentETag) then
          (Response 412 None (error "Precondition Failed: ETag does not match"), st)
        else
          match JSON_parse plan with
          | None =>
              (Response 500 None (error "Internal Server Error: Could not update plan"), st)
          | Some planData =>
              let updatedPlan := spread planData updates in
              if negb (validatePlan updatedPlan) then (Response 400 None ValidationErrors, st)
              else
                let st' := redis_set st (objectId req) (JSON_stringify updatedPlan) in
                let etag := generateETag (JSON_stringify updatedPlan) in
                (Response 200 (Some etag) (message_data "Plan updated" updatedPlan), st')
          end
  end.

(** [app.delete('/api/v1/plans/:objectId', ...)].  The precondition is read
    from [If-None-Match]. *)
Definition delete_handler (req : request) (st : store) : response * store :=
  let not_found := Response 404 None (message "Not Found: Plan not found") in
  match redis_get st (objectId req) with
  | None => (not_found, st)
  | Some plan =>
      if String.eqb plan EmptyString then (not_found, st)
      else
        let etag := generateETag plan in
        if header_given (if_none_match req) && negb (header_is (if_none_match req) etag) then
          (Response 412 None (error "Precondition Failed: ETag does not match"), st)
        else
          let '(deleted, st') := redis_del st (objectId req) in
          if deleted =? 0 then (not_found, st')
          else (Response 204 None NoBody, st')
  end.

(** ** The bearer-token middleware ([verifyToken]) *)

Section Middleware.

(** [oauthClient.verifyIdToken]: the identity provider's verdict on a token,
    [None] when the ticket is issued, the error's message when the call
    throws. *)
Variable verifyIdToken : string -> option string.

Definition starts_with (p s : string) : bool :=
  match strip_prefix p s with Some _ => true | None => false end.

Fixpoint until_space (s : string) : string :=
  match s with
  | EmptyString => EmptyString
  | String c r => if Ascii.eqb c " " then EmptyString else String c (until_space r)
  end.

Fixpoint after_space (s : string) : string :=
  match s with
  | EmptyString => EmptyString
  | String c r => if Ascii.eqb c " " then r else after_space r
  end.

(** [authHeader.split(' ')[1]], for a header with a space in it. *)
Definition token_of (authHeader : string) : string := until_space (after_space authHeader).

(** [Some r]: the middleware answers [r] itself; [None]: it calls [next()]. *)
Definition verifyToken (req : request) : option response :=
  let unauthorized :=
    Some (Response 401 None
            (error "Unauthorized: Missing or invalid Authorization header")) in
  match authorization req with
  | None => unauthorized
  | Some authHeader =>
      if String.eqb authHeader EmptyString || negb (starts_with "Bearer " authHeader)
      then unauthorized
      else
        match verifyIdToken (token_of authHeader) with
        | None => None
        | Some msg => Some (Response 403 None (error ("Forbidden: " ++ msg)))
        end
  end.

(** [app.METHOD(path, verifyToken, handler)] *)
Definition route (handler : request -> store -> response * store)
           (req : request) (st : store) : response * store :=
  match verifyToken req with
  | Some refusal => (refusal, st)
  | None => handler req st
  end.

Definition post_route (req : request) (st : store) : option (response * store) :=
  match verifyToken req with
  | Some refusal => Some (refusal, st)
  | None => post_handler req st
  end.

End Middleware.

(** ** Base64 (the encoding behind [digest('base64')] and
       [Buffer.from(s).toString('base64')]) *)

Module Base64.

Definition alphabet : string :=
  "ABCDEFGHIJKLMNOPQRSTUVWXYZabcdefghijklmnopqrstuvwxyz0123456789+/".

Definition padding : ascii := "=".

(** The character of a six-bit group. *)
Definition digit (i : N) : ascii :=
  match String.get (N.to_nat i) alphabet with
  | Some c => c
  | None => padding
  end.

(** Three bytes give four characters; one or two bytes at the end give two
    or three characters and the padding. *)
Fixpoint encode (s : string) : string :=
  match s with
  | EmptyString => EmptyString
  | String a EmptyString =>
      String (digit (code a / 4))
        (String (digit (code a mod 4 * 16)) (String padding (String padding EmptyString)))
  | String a (String b EmptyString) =>
      String (digit (code a / 4))
        (String (digit (code a mod 4 * 16 + code b / 16))
           (String (digit (code b mod 16 * 4)) (String padding EmptyString)))
  | String a (String b (String c r)) =>
      String (digit (code a / 4))
        (String (digit (code a mod 4 * 16 + code b / 16))
           (String (digit (code b mod 16 * 4 + code c / 64))
              (String (digit (code c mod 64)) (encode r))))
  end%N.

(** The place of a character in the alphabet. *)
Fixpoint index_in (c : ascii) (s : string) : N :=
  match s with
  | EmptyString => 0
  | String d r => if Ascii.eqb c d then 0 else N.succ (index_in c r)
  end%N.

End Base64.

(** [`"${s}"`] *)
Definition in_quotes (s : string) : string := String dquote (s ++ String dquote EmptyString).

(** ** Express: [res.json], [res.send] and [req.fresh] *)

(** A handler ends in [res.json(value)] or in [res.end()].  [res.end]
    sends the status and the headers the handler has set.  [res.json]
    serializes the value and hands the text to [res.send], which adds a
    weak [ETag] of the text when the handler has set no [ETag], and turns
    the answer to a GET into a 304 without body when the request is
    fresh. *)

Inductive method : Type := GET | POST | PUT | PATCH | DELETE.

(** [len.toString(16)]: [fuel] bounds the number of digits. *)
Fixpoint hex_digits (fuel : nat) (n : N) (acc : string) : string :=
  match fuel with
  | O => acc
  | S f =>
      let acc' := String (SHA1.hex_digit (Z.of_N (n mod 16))) acc in
      if (n / 16 =? 0)%N then acc' else hex_digits f (n / 16) acc'
  end.

Definition hex_of_N (n : N) : string := hex_digits (S (N.to_nat (N.log2 n))) n EmptyString.

Definition string_of_bytes (bs : list Z) : string :=
  fold_right (fun b s => String (ascii_of_N (Z.to_N b)) s) EmptyString bs.

(** The twenty bytes of a digest. *)
Definition digest_bytes (s : SHA1.state) : list Z :=
  (SHA1.be_bytes 4 (SHA1.ha s) ++ SHA1.be_bytes 4 (SHA1.hb s) ++ SHA1.be_bytes 4 (SHA1.hc s)
   ++ SHA1.be_bytes 4 (SHA1.hd s) ++ SHA1.be_bytes 4 (SHA1.he s))%list.

(** [crypto.createHash('sha1').update(entity, 'utf8').digest('base64')] *)
Definition sha1_base64 (entity : string) : string :=
  Base64.encode (string_of_bytes (digest_bytes (SHA1.digest (SHA1.bytes_of entity)))).

(** [entitytag] of the [etag] package:
    ['"' + len.toString(16) + '-' + hash.substring(0, 27) + '"']. *)
Definition entitytag (entity : string) : string :=
  in_quotes (hex_of_N (N.of_nat (String.length entity)) ++ "-"
             ++ String.substring 0 27 (sha1_base64 entity)).

(** The application's default [etag fn]: the weak tag of the body. *)
Definition weak_etag (entity : string) : string := "W/" ++ entitytag entity.

(** [parseTokenList] of the [fresh] package: the entries between commas,
    without the spaces around them.  [tok] is the entry read so far,
    [spaces] the spaces read after it. *)
Fixpoint token_list (s tok spaces : string) : list string :=
  match s with
  | EmptyString => [tok]
  | String c r =>
      if Ascii.eqb c " " then
        if String.eqb tok EmptyString then token_list r EmptyString EmptyString
        else token_list r tok (spaces ++ " ")
      else if Ascii.eqb c "," then tok :: token_list r EmptyString EmptyString
      else token_list r (tok ++ spaces ++ String c EmptyString) EmptyString
  end.

Definition parseTokenList (s : string) : list string := token_list s EmptyString EmptyString.

(** [match === etag || match === 'W/' + etag || 'W/' + match === etag] *)
Definition etag_matches (etag m : string) : bool :=
  String.eqb m etag || String.eqb m ("W/" ++ etag) || String.eqb ("W/" ++ m) etag.

(** [fresh(req.headers, { etag })] for a request without [If-Modified-Since]
    and [Cache-Control], and an answer without [Last-Modified]. *)
Definition fresh (noneMatch etag : option string) : bool :=
  match noneMatch with
  | None => false
  | Some nm =>
      if String.eqb nm EmptyString then false
      else if String.eqb nm "*" then true
      else
        match etag with
        | None => false
        | Some e =>
            if String.eqb e EmptyString then false
            else existsb (etag_matches e) (parseTokenList nm)
        end
  end.

(** [req.fresh]: GET only, and a status 2xx or 304. *)
Definition req_fresh (m : method) (req : request) (statusCode : Z) (etag : option string)
  : bool :=
  match m with
  | GET =>
      (((200 <=? statusCode) && (statusCode <? 300)) || (statusCode =? 304))
      && fresh (if_none_match req) etag
  | _ => false
  end.

(** The text [res.json] hands to [res.send]; [errors] is the text of
    [{ errors: validatePlan.errors }]. *)
Definition body_text (errors : string) (p : payload) : string :=
  match p with
  | NoBody => EmptyString
  | Json j => JSON_stringify j
  | ValidationErrors => errors
  end.

(** What the client receives for the answer [r] of a handler. *)
Definition res_send (errors : string) (m : method) (req : request) (r : response)
  : response :=
  match sent r with
  | NoBody => r
  | chunk =>
      let etag :=
        if header_given (ETag r) then ETag r
        else Some (weak_etag (body_text errors chunk)) in
      let statusCode := if req_fresh m req (status r) etag then 304 else status r in
      if (statusCode =? 204) || (statusCode =? 304) then Response statusCode etag NoBody
      else Response statusCode etag chunk
  end.

(** The routes of the application, past the middleware. *)
Definition app_post (errors : string) (req : request) (st : store)
  : option (response * store) :=
  match post_handler req st with
  | Some (r, st') => Some (res_send errors POST req r, st')
  | None => None
  end.

Definition app_put (errors : string) (req : request) (st : store) : response * store :=
  (res_send errors PUT req (fst (put_handler req st)), snd (put_handler req st)).

Definition app_get (errors : string) (req : request) (st : store) : response * store :=
  (res_send errors GET req (fst (get_handler req st)), snd (get_handler req st)).

Definition app_patch (errors : string) (req : request) (st : store) : response * store :=
  (res_send errors PATCH req (fst (patch_handler req st)), snd (patch_handler req st)).

Definition app_delete (errors : string) (req : request) (st : store) : response * store :=
  (res_send errors DELETE req (fst (delete_handler req st)), snd (delete_handler req st)).

(** * Earlier revisions of [index.js] *)

(** ** The first Redis revision ([part_000]): the handlers set no tag on
       writes, a Base64 tag on reads *)

Module Part000.

(** [app.post]: as in the current revision, without the call of
    [res.set('ETag', ...)]. *)
Definition post_handler (req : request) (st : store) : option (response * store) :=
  let data := body req in
  if negb (validatePlan data) then Some (Response 400 None ValidationErrors, st)
  else
    match plan_key data with
    | None => None
    | Some objectId =>
        let created :=
          let st' := redis_set st objectId (JSON_stringify data) in
          Some (Response 201 None (message_data "Plan created" data), st') in
        match redis_get st objectId with
        | None => created
        | Some existingPlan =>
            if String.eqb existingPlan EmptyString then created
            else
              match JSON_parse existingPlan with
              | Some existing =>
                  Some (Response 409 None
                          (message_data "Conflict: Plan already exists" existing), st)
              | None =>
                  Some (Response 500 None
                          (error "Internal Server Error: Could not store plan"), st)
              end
        end
    end.

(** [const etag = `"${Buffer.from(plan).toString('base64')}"`;] *)
Definition etag_of (plan : string) : string := in_quotes (Base64.encode plan).

(** [app.get] *)
Definition get_handler (req : request) (st : store) : response * store :=
  let not_found := (Response 404 None (message "Not Found: Plan not found"), st) in
  match redis_get st (objectId req) with
  | None => not_found
  | Some plan =>
      if String.eqb plan EmptyString then not_found
      else
        let etag := etag_of plan in
        if header_is (if_none_match req) etag then (Response 304 None NoBody, st)
        else
          match JSON_parse plan with
          | Some doc => (Response 200 (Some etag) (Json doc), st)
          | None =>
              (Response 500 (Some etag)
                 (error "Internal Server Error: Could not retrieve plan"), st)
          end
  end.

(** [app.patch]: no precondition is read. *)
Definition patch_handler (req : request) (st : store) : response * store :=
  let updates := body req in
  let not_found := (Response 404 None (message "Not Found: Plan does not exist"), st) in
  match redis_get st (objectId req) with
  | None => not_found
  | Some plan =>
      if String.eqb plan EmptyString then not_found
      else
        match JSON_parse plan with
        | None =>
            (Response 500 None (error "Internal Server Error: Could not update plan"), st)
        | Some planData =>
            let updatedPlan := spread planData updates in
            if negb (validatePlan updatedPlan) then (Response 400 None ValidationErrors, st)
            else
              let st' := redis_set st (objectId req) (JSON_stringify updatedPlan) in
              (Response 200 None (message_data "Plan updated" updatedPlan), st')
        end
  end.

(** [app.delete]: the answer follows the count [DEL] returns. *)
Definition delete_handler (req : request) (st : store) : response * store :=
  let '(deleted, st') := redis_del st (objectId req) in
  if deleted =? 0 then (Response 404 None (message "Not Found: Plan not found"), st')
  else (Response 204 None NoBody, st').

(** The routes of POST and GET as Express serves them. *)
Definition app_post (errors : string) (req : request) (st : store)
  : option (response * store) :=
  match post_handler req st with
  | Some (r, st') => Some (res_send errors POST req r, st')
  | None => None
  end.

Definition app_get (errors : string) (req : request) (st : store) : response * store :=
  (res_send errors GET req (fst (get_handler req st)), snd (get_handler req st)).

End Part000.

(** ** The revision of 31 October 2024 ([.history/index_20241031154908.js]):
       the tag is the Base64 text of the document and is stored in it *)

Module Rev20241031.

(** [function generateETag(data) { return `"${Buffer.from(JSON.stringify(data)).toString('base64')}"`; }] *)
Definition generateETag (data : json) : string :=
  in_quotes (Base64.encode (JSON_stringify data)).

(** [{ ...data, etag }] *)
Definition with_etag (data : json) (etag : string) : json :=
  JObj (set_prop (set_props [] (own_props data)) "etag" (JStr etag)).

(** [res.json({ message, data, etag })] *)
Definition message_data_etag (m : string) (data : json) (etag : string) : payload :=
  Json (JObj [("message", JStr m); ("data", data); ("etag", JStr etag)]).

(** [app.post] *)
Definition post_handler (req : request) (st : store) : option (response * store) :=
  let data := body req in
  if negb (validatePlan data) then Some (Response 400 None ValidationErrors, st)
  else
    match plan_key data with
    | None => None
    | Some objectId =>
        let created :=
          let etag := generateETag data in
          let st' := redis_set st objectId (JSON_stringify (with_etag data etag)) in
          Some (Response 201 (Some etag) (message_data_etag "Plan created" data etag), st') in
        match redis_get st objectId with
        | None => created
        | Some existingPlan =>
            if String.eqb existingPlan EmptyString then created
            else
              match JSON_parse existingPlan with
              | Some existing =>
                  Some (Response 409 None
                          (message_data "Conflict: Plan already exists" existing), st)
              | None =>
                  Some (Response 500 None
                          (error "Internal Server Error: Could not store plan"), st)
              end
        end
    end.

(** [app.put]: no precondition is read. *)
Definition put_handler (req : request) (st : store) : response * store :=
  let data := body req in
  if negb (validatePlan data) then (Response 400 None ValidationErrors, st)
  else
    let etag := generateETag data in
    let not_found := (Response 404 None (message "Not Found: Plan does not exist"), st) in
    match redis_get st (objectId req) with
    | None => not_found
    | Some existingPlan =>
        if String.eqb existingPlan EmptyString then not_found
        else
          let st' := redis_set st (objectId req) (JSON_stringify (with_etag data etag)) in
          (Response 200 (Some etag) (message_data_etag "Plan replaced" data etag), st')
    end.

(** [app.patch]: no precondition is read; the stored document, with its
    [etag] member, is merged and validated. *)
Definition patch_handler (req : request) (st : store) : response * store :=
  let updates := body req in
  let not_found := (Response 404 None (message "Not Found: Plan does not exist"), st) in
  match redis_get st (objectId req) with
  | None => not_found
  | Some plan =>
      if String.eqb plan EmptyString then not_found
      else
        match JSON_parse plan with
        | None =>
            (Response 500 None (error "Internal Server Error: Could not update plan"), st)
        | Some parsedPlan =>
            let updatedPlan := spread parsedPlan updates in
            if negb (validatePlan updatedPlan) then (Response 400 None ValidationErrors, st)
            else
              let etag := generateETag updatedPlan in
              let st' :=
                redis_set st (objectId req) (JSON_stringify (with_etag updatedPlan etag)) in
              (Response 200 (Some etag) (message_data_etag "Plan updated" updatedPlan etag),
               st')
        end
  end.

(** [req.headers['if-match'] !== etag] for the member [parsedPlan.etag],
    which may be absent or not a string. *)
Definition header_differs (h : option string) (etag : option json) : bool :=
  match etag with
  | Some (JStr s) => negb (header_is h s)
  | _ => true
  end.

(** [app.delete]: the precondition is read from [If-Match] and compared
    with the [etag] member of the stored document; reading that member of
    [null] throws. *)
Definition delete_handler (req : request) (st : store) : response * store :=
  let not_found := Response 404 None (message "Not Found: Plan not found") in
  let failed := (Response 500 None (error "Internal Server Error: Could not delete plan"), st) in
  match redis_get st (objectId req) with
  | None => (not_found, st)
  | Some plan =>
      if String.eqb plan EmptyString then (not_found, st)
      else
        match JSON_parse plan with
        | None => failed
        | Some JNull => failed
        | Some parsedPlan =>
            let etag := member parsedPlan "etag" in
            if header_given (if_match req) && header_differs (if_match req) etag then
              (Response 412 None (message "Precondition Failed: ETag does not match"), st)
            else
              let '(deleted, st') := redis_del st (objectId req) in
              if deleted =? 0 then (not_found, st')
              else (Response 204 None NoBody, st')
        end
  end.

End Rev20241031.

(** ** The revision of 2 November 2024 ([.history/index_20241102110332.js]):
       [app.put] and [app.patch] are those of the current revision *)

Module Rev20241102.

(** [data.objectId], when it is there and is a string. *)
Definition plan_key (data : json) : option string :=
  match member data "objectId" with
  | Some (JStr id) => Some id
  | _ => None
  end.

(** [app.post]: the key is the top-level [objectId]; a conflict is answered
    with the tag of the existing record, which is set before [JSON.parse]
    runs.  [None]: [data.objectId] is not a string, which the schema
    excludes. *)
Definition post_handler (req : request) (st : store) : option (response * store) :=
  let data := body req in
  if negb (validatePlan data) then Some (Response 400 None ValidationErrors, st)
  else
    match plan_key data with
    | None => None
    | Some objectId =>
        let created :=
          let st' := redis_set st objectId (JSON_stringify data) in
          let newETag := generateETag (JSON_stringify data) in
          Some (Response 201 (Some newETag) (message_data "Plan created" data), st') in
        match redis_get st objectId with
        | None => created
        | Some existingPlan =>
            if String.eqb existingPlan EmptyString then created
            else
              let existingETag := generateETag existingPlan in
              match JSON_parse existingPlan with
              | Some existing =>
                  Some (Response 409 (Some existingETag)
                          (message_data "Conflict: Plan already exists" existing), st)
              | None =>
                  Some (Response 500 (Some existingETag)
                          (error "Internal Server Error: Could not store plan"), st)
              end
        end
    end.

(** [app.get]: the [ETag] header is set before the comparison, so the 304
    answer carries it. *)
Definition get_handler (req : request) (st : store) : response * store :=
  let not_found := (Response 404 None (message "Not Found: Plan not found"), st) in
  match redis_get st (objectId req) with
  | None => not_found
  | Some plan =>
      if String.eqb plan EmptyString then not_found
      else
        let etag := generateETag plan in
        if header_is (if_none_match req) etag then (Response 304 (Some etag) NoBody, st)
        else
          match JSON_parse plan with
          | Some doc => (Response 200 (Some etag) (Json doc), st)
          | None =>
              (Response 500 (Some etag)
                 (error "Internal Server Error: Could not retrieve plan"), st)
          end
  end.

(** [app.delete]: no precondition is read. *)
Definition delete_handler (req : request) (st : store) : response * store :=
  let not_found := Response 404 None (message "Not Found: Plan not found") in
  match redis_get st (objectId req) with
  | None => (not_found, st)
  | Some plan =>
      if String.eqb plan EmptyString then (not_found, st)
      else
        let '(deleted, st') := redis_del st (objectId req) in
        if deleted =? 0 then (not_found, st')
        else (Response 204 None NoBody, st')
  end.

End Rev20241102.

(** * Vocabulary of the properties *)

(** ** Stored records *)

(** The record the handlers see under [k]: a value that is there and is not
    the empty string (the handlers test [!plan]). *)
Definition record (st : store) (k : string) : option string :=
  match redis_get st k with
  | Some plan => if String.eqb plan EmptyString then None else Some plan
  | None => None
  end.

(** The same request with another [If-Match] header. *)
Definition with_if_match (h : option string) (req : request) : request :=
  Request (authorization req) h (if_none_match req) (objectId req) (body req).

(** Every value of the store is a serialized document. *)
Definition serialized (st : store) : Prop :=
  forall k plan, redis_get st k = Some plan -> exists d, plan = JSON_stringify d.

(** ** JavaScript values *)

(** [k1] may come before [k2] among the properties of an object: array
    indices first, in ascending order, then the other keys, all distinct. *)
Definition key_before (k1 k2 : string) : bool :=
  match array_index k1, array_index k2 with
  | Some i, Some j => (i <? j)%N
  | Some _, None => true
  | None, Some _ => false
  | None, None => negb (String.eqb k1 k2)
  end.

Fixpoint keys_ok (ks : list string) : bool :=
  match ks with
  | [] => true
  | k :: r => forallb (key_before k) r && keys_ok r
  end.

(** The terms that stand for JavaScript values: the properties of every
    object are in enumeration order, without a repeated key. *)
Fixpoint js_wf (j : json) : bool :=
  match j with
  | JArr items => forallb js_wf items
  | JObj props => keys_ok (map fst props) && forallb (fun kv => js_wf (snd kv)) props
  | _ => true
  end.

(** [JSON.parse] after [JSON.stringify] on any term of the model: the same
    value with the properties of every object put in enumeration order. *)
Fixpoint normalize (j : json) : json :=
  match j with
  | JArr items => JArr (map normalize items)
  | JObj props => JObj (set_props [] (map (fun kv => (fst kv, normalize (snd kv))) props))
  | _ => j
  end.

(** The top-level keys of a value are pairwise distinct. *)
Definition distinct_keys (j : json) : Prop := List.NoDup (map fst (own_props j)).

(** The values of the properties are JavaScript values. *)
Definition values_wf (props : list (string * json)) : Prop :=
  Forall (fun kv => js_wf (snd kv) = true) props.

(** ** Numerals *)

(** The number an all-digit string denotes. *)
Definition numeral_value (s : string) : N := fst (read_digits s 0%N).

Definition pow10 (s : string) : N := (10 ^ N.of_nat (String.length s))%N.

(** A canonical numeral: digits only, no leading zero. *)
Definition canonical (s : string) : Prop :=
  all_digits s = true /\
  exists c r, s = String c r /\ (Ascii.eqb c "0" = false \/ r = EmptyString).

(** ** Digests as numbers *)

(** The digest as a number below 2^160. *)
Definition state_code (s : SHA1.state) : N :=
  Z.to_N (SHA1.ha s + 4294967296 * (SHA1.hb s + 4294967296 * (SHA1.hc s
          + 4294967296 * (SHA1.hd s + 4294967296 * SHA1.he s)))).

Definition word32 (x : Z) : Prop := 0 <= x < 4294967296.

Definition state_ok (s : SHA1.state) : Prop :=
  word32 (SHA1.ha s) /\ word32 (SHA1.hb s) /\ word32 (SHA1.hc s) /\
  word32 (SHA1.hd s) /\ word32 (SHA1.he s).

(** ** Measures and delimiters of the parser proofs *)

Fixpoint size (j : json) : nat :=
  match j with
  | JArr items => S (list_sum (map size items))
  | JObj props => S (list_sum (map (fun kv => size (snd kv)) props))
  | _ => 1
  end.

(** Induction on a value, with the hypothesis on every element and on
    every property value. *)
Fixpoint json_ind (P : json -> Prop)
         (Hnull : P JNull) (Hbool : forall b, P (JBool b)) (Hnum : forall n, P (JNum n))
         (Hstr : forall s, P (JStr s))
         (Harr : forall items, Forall P items -> P (JArr items))
         (Hobj : forall props, Forall (fun kv => P (snd kv)) props -> P (JObj props))
         (j : json) : P j :=
  match j with
  | JNull => Hnull
  | JBool b => Hbool b
  | JNum n => Hnum n
  | JStr s => Hstr s
  | JArr items =>
      Harr items
        ((fix go (l : list json) : Forall P l :=
            match l with
            | [] => List.Forall_nil P
            | x :: r => @List.Forall_cons _ _ x r (json_ind P Hnull Hbool Hnum Hstr Harr Hobj x) (go r)
            end) items)
  | JObj props =>
      Hobj props
        ((fix go (l : list (string * json)) : Forall (fun kv => P (snd kv)) l :=
            match l with
            | [] => List.Forall_nil _
            | kv :: r =>
                @List.Forall_cons _ _ kv r (json_ind P Hnull Hbool Hnum Hstr Harr Hobj (snd kv)) (go r)
            end) props)
  end.

(** What may follow a number for it to be read back whole. *)
Definition number_end (rest : string) : bool :=
  match rest with
  | EmptyString => true
  | String c _ => negb (is_digit c) && negb (frac_or_exp c)
  end.

Definition number_start (c : ascii) : bool := is_digit c || Ascii.eqb c "-".

(** What follows a value inside an array or an object, or at the end. *)
Definition value_end (rest : string) : bool :=
  match rest with
  | EmptyString => true
  | String c _ => Ascii.eqb c "," || Ascii.eqb c "]" || Ascii.eqb c "}"
  end.

(** At fuel [f], [d] is read back from its text, whatever follows. *)
Definition reads_back (f : nat) (d : json) : Prop :=
  forall rest, value_end rest = true ->
               parse_value f (JSON_stringify d ++ rest)%string = Some (normalize d, rest).

(** The text of one property. *)
Definition member_text (kv : string * json) : string :=
  (quote (fst kv) ++ String ":" (JSON_stringify (snd kv)))%string.

Definition normalize_member (kv : string * json) : string * json :=
  (fst kv, normalize (snd kv)).

(** ** Sample data *)

Definition sample_shares (id : string) : json :=
  JObj [("deductible", JNum 2000); ("_org", JStr "example.com"); ("copay", JNum 23);
        ("objectId", JStr id); ("objectType", JStr "membercostshare")].

Definition sample_plan (key planType : string) : json :=
  JObj [("planCostShares", sample_shares key);
        ("linkedPlanServices",
         JArr [JObj [("linkedService",
                      JObj [("_org", JStr "example.com"); ("objectId", JStr "1234520xvc30asdf-502");
                            ("objectType", JStr "service"); ("name", JStr "Yearly physical")]);
                     ("planserviceCostShares", sample_shares "1234512xvc1314asdfs-503");
                     ("_org", JStr "example.com"); ("objectId", JStr "27283xvx9asdff-504");
                     ("objectType", JStr "planservice")]]);
        ("_org", JStr "example.com"); ("objectId", JStr "12xvxc345ssdsds-508");
        ("objectType", JStr "plan"); ("planType", JStr planType);
        ("creationDate", JStr "12-12-2017")].

(** The plans that differ in their [planType] only, numbered. *)
Definition numbered_plan (i : N) : json := sample_plan "k1" (string_of_N i).

Definition plan_v1 : json := sample_plan "k1" "inNetwork".

Definition plan_v2 : json := sample_plan "k1" "outOfNetwork".

Definition tag_v1 : string := generateETag (JSON_stringify plan_v1).

(** The store after [plan_v1] has been created. *)
Definition sample_store : store := redis_set ∅ "k1" (JSON_stringify plan_v1).

Definition post_v1 : request := Request None None None EmptyString plan_v1.

Definition post_v2 : request := Request None None None EmptyString plan_v2.

Definition put_v2 : request := Request None (Some tag_v1) None "k1" plan_v2.

Definition put_no_header (data : json) : request := Request None None None "k1" data.

Definition patch_type : request :=
  Request None (Some tag_v1) None "k1" (JObj [("planType", JStr "outOfNetwork")]).

Definition patch_bad_type : request :=
  Request None (Some tag_v1) None "k1" (JObj [("planType", JNum 5)]).

Definition get_fresh : request := Request None None None "k1" JNull.

Definition get_cached : request := Request None None (Some tag_v1) "k1" JNull.

Definition delete_plain : request := Request None None None "k1" JNull.

Definition nested_before : json :=
  JObj [("a", JObj [("x", JNum 1); ("y", JNum 2)]); ("b", JNum 3)].

Definition nested_update : json := JObj [("a", JObj [("x", JNum 5)])].

(** ** Requests served one after the other *)

(** One request served by a handler, past the middleware.  The bodies are
    JavaScript values, as [bodyParser.json()] hands them over. *)
Inductive step : store -> store -> Prop :=
| step_post (req : request) (st : store) (r : response) (st' : store) :
    js_wf (body req) = true -> post_handler req st = Some (r, st') -> step st st'
| step_put (req : request) (st : store) :
    js_wf (body req) = true -> step st (snd (put_handler req st))
| step_patch (req : request) (st : store) :
    js_wf (body req) = true -> step st (snd (patch_handler req st))
| step_get (req : request) (st : store) : step st (snd (get_handler req st))
| step_delete (req : request) (st : store) : step st (snd (delete_handler req st)).

(** The stores the service gets to from an empty database. *)
Inductive reachable : store -> Prop :=
| reachable_empty : reachable ∅
| reachable_step (st st' : store) : reachable st -> step st st' -> reachable st'.

(** A stored value that is the serialization of a plan the schema accepts. *)
Definition valid_record (plan : string) : Prop :=
  exists d, js_wf d = true /\ validatePlan d = true /\ plan = JSON_stringify d.

Definition well_stored (st : store) : Prop :=
  forall k plan, redis_get st k = Some plan -> valid_record plan.

(** The answers of the routes on the record under [k]: [r] and [st'] are
    what one of them sends and leaves on [st]. *)
Inductive answers (errors : string) (st : store) (k : string) (r : response) (st' : store)
  : Prop :=
| answers_post (req : request) :
    app_post errors req st = Some (r, st') -> plan_key (body req) = Some k ->
    answers errors st k r st'
| answers_put (req : request) :
    app_put errors req st = (r, st') -> objectId req = k -> answers errors st k r st'
| answers_patch (req : request) :
    app_patch errors req st = (r, st') -> objectId req = k -> answers errors st k r st'
| answers_get (req : request) :
    app_get errors req st = (r, st') -> objectId req = k -> answers errors st k r st'
| answers_delete (req : request) :
    app_delete errors req st = (r, st') -> objectId req = k -> answers errors st k r st'.

(** ** Tokens and tags *)

Fixpoint no_space (s : string) : bool :=
  match s with
  | EmptyString => true
  | String c r => negb (Ascii.eqb c " ") && no_space r
  end.

(** A lowercase hexadecimal digit. *)
Definition is_hex (c : ascii) : bool :=
  (((48 <=? code c) && (code c <=? 57)) || ((97 <=? code c) && (code c <=? 102)))%N.

Fixpoint all_hex (s : string) : bool :=
  match s with
  | EmptyString => true
  | String c r => is_hex c && all_hex r
  end.

(** Forty lowercase hexadecimal digits. *)
Definition hex40 (s : string) : bool := (String.length s =? 40)%nat && all_hex s.

(** ** The top level of a plan *)

Definition plan_keys : list string :=
  ["planCostShares"; "linkedPlanServices"; "_org"; "objectId"; "objectType"; "planType";
   "creationDate"].

(** The schema a [properties] list gives for a key. *)
Fixpoint property_schema (ps : list (string * schema)) (k : string) : option schema :=
  match ps with
  | [] => None
  | (k', s) :: r => if String.eqb k k' then Some s else property_schema r k
  end.

(** A PUT on [k1] of a plan whose own key is [k2]. *)
Definition put_other_key : request :=
  Request None (Some tag_v1) None "k1" (sample_plan "k2" "inNetwork").

(** ** Sample data of the earlier revisions *)

(** The tag the revision of 31 October gives [plan_v1], and its store after
    [plan_v1] has been created. *)
Definition tag_1031 : string := Rev20241031.generateETag plan_v1.

Definition store_1031 : store :=
  redis_set ∅ "k1" (JSON_stringify (Rev20241031.with_etag plan_v1 tag_1031)).

Definition created_1031 : response :=
  Response 201 (Some tag_1031) (Rev20241031.message_data_etag "Plan created" plan_v1 tag_1031).

Definition delete_1031 : request := Request None (Some tag_1031) None "k1" JNull.

(** * Properties of the embedding *)

(** ** Numerals and strings *)

Lemma append_assoc (a b c : string) : ((a ++ b) ++ c = a ++ (b ++ c))%string.
Proof. induction a as [|x a IH]; simpl; [reflexivity | rewrite IH; reflexivity]. Qed.

Lemma append_empty_r (a : string) : (a ++ EmptyString)%string = a.
Proof. induction a as [|x a IH]; simpl; [reflexivity | rewrite IH; reflexivity]. Qed.

Lemma append_cons (c : ascii) (a b : string) :
  (String c a ++ b)%string = String c (a ++ b).
Proof. reflexivity. Qed.

Lemma length_append (a b : string) :
  String.length (a ++ b)%string = (String.length a + String.length b)%nat.
Proof. induction a as [|c a IH]; simpl; [reflexivity | rewrite IH; reflexivity]. Qed.

Lemma code_digit_char (d : N) : (d < 10)%N -> code (digit_char d) = (48 + d)%N.
Proof. intros H. unfold code, digit_char. apply N_ascii_embedding. lia. Qed.

Lemma is_digit_digit_char (d : N) : (d < 10)%N -> is_digit (digit_char d) = true.
Proof.
  intros H. unfold is_digit. rewrite (code_digit_char d H).
  apply andb_true_intro. split; apply N.leb_le; lia.
Qed.

Lemma digit_val_digit_char (d : N) : (d < 10)%N -> digit_val (digit_char d) = d.
Proof. intros H. unfold digit_val. rewrite (code_digit_char d H). lia. Qed.

Lemma N_digits_append (fuel : nat) (n : N) (acc rest : string) :
  (N_digits fuel n acc ++ rest)%string = N_digits fuel n (acc ++ rest)%string.
Proof.
  revert n acc. induction fuel as [|f IH]; intros n acc; simpl; [reflexivity|].
  destruct (n / 10 =? 0)%N; [reflexivity|]. rewrite IH. reflexivity.
Qed.

Lemma mod10_lt (n : N) : (n mod 10 < 10)%N.
Proof. apply N.mod_lt. discriminate. Qed.

Lemma read_digits_N_digits (f : nat) (n : N) (acc : string) :
  (n < 2 ^ N.of_nat (S f))%N ->
  read_digits (N_digits (S f) n acc) 0%N = read_digits acc n.
Proof.
  revert n acc. induction f as [|f IH]; intros n acc Hn.
  - assert (Hq : (n / 10 = 0)%N) by (apply N.div_small; simpl in Hn; lia).
    simpl. rewrite Hq. simpl.
    rewrite (is_digit_digit_char _ (mod10_lt n)), (digit_val_digit_char _ (mod10_lt n)).
    rewrite N.mod_small by (simpl in Hn; lia). reflexivity.
  - change (N_digits (S (S f)) n acc)
      with (if (n / 10 =? 0)%N then String (digit_char (n mod 10)) acc
            else N_digits (S f) (n / 10) (String (digit_char (n mod 10)) acc)).
    destruct (N.eqb_spec (n / 10) 0) as [Hq|Hq].
    + simpl.
      rewrite (is_digit_digit_char _ (mod10_lt n)), (digit_val_digit_char _ (mod10_lt n)).
      assert (Hs : (n < 10)%N) by (apply N.div_small_iff in Hq; [exact Hq | discriminate]).
      rewrite N.mod_small by exact Hs. reflexivity.
    + rewrite IH.
      * simpl.
        rewrite (is_digit_digit_char _ (mod10_lt n)), (digit_val_digit_char _ (mod10_lt n)).
        f_equal. pose proof (N.div_mod n 10). lia.
      * assert (H2 : (2 ^ N.of_nat (S (S f)) = 2 * 2 ^ N.of_nat (S f))%N).
        { rewrite <- N.pow_succ_r'; f_equal; lia. }
        rewrite H2 in Hn.
        apply N.Div0.div_lt_upper_bound. lia.
Qed.

Lemma log2_fuel (n : N) : (n < 2 ^ N.of_nat (S (N.to_nat (N.log2 n))))%N.
Proof.
  replace (N.of_nat (S (N.to_nat (N.log2 n)))) with (N.succ (N.log2 n)) by lia.
  destruct n as [|p]; [reflexivity|]. apply N.log2_spec. reflexivity.
Qed.

Lemma read_string_of_N (n : N) (rest : string) :
  read_digits (string_of_N n ++ rest)%string 0%N = read_digits rest n.
Proof.
  unfold string_of_N. rewrite N_digits_append. apply read_digits_N_digits, log2_fuel.
Qed.

Lemma string_of_N_inj (n m : N) : string_of_N n = string_of_N m -> n = m.
Proof.
  intros H. pose proof (read_string_of_N n EmptyString) as Hn.
  rewrite H, read_string_of_N in Hn. simpl in Hn. congruence.
Qed.

(** A numeral starts with a digit, and with a digit other than 0 when the
    number is not 0. *)
Lemma N_digits_head (f : nat) (n : N) (acc : string) :
  (n < 2 ^ N.of_nat (S f))%N ->
  exists c r, N_digits (S f) n acc = String c r /\ is_digit c = true /\
              (n <> 0%N -> Ascii.eqb c "0" = false).
Proof.
  revert n acc. induction f as [|f IH]; intros n acc Hn.
  - assert (Hs : (n < 10)%N) by (simpl in Hn; lia).
    simpl. rewrite (N.div_small n 10 Hs). simpl.
    exists (digit_char (n mod 10)), acc. split; [reflexivity|].
    split; [apply is_digit_digit_char, mod10_lt|].
    intros Hnz. apply Ascii.eqb_neq. intros E.
    apply (f_equal code) in E. rewrite code_digit_char in E by apply mod10_lt.
    rewrite N.mod_small in E by exact Hs. change (code "0") with 48%N in E. lia.
  - change (N_digits (S (S f)) n acc)
      with (if (n / 10 =? 0)%N then String (digit_char (n mod 10)) acc
            else N_digits (S f) (n / 10) (String (digit_char (n mod 10)) acc)).
    destruct (N.eqb_spec (n / 10) 0) as [Hq|Hq].
    + assert (Hs : (n < 10)%N) by (apply N.div_small_iff in Hq; [exact Hq | discriminate]).
      exists (digit_char (n mod 10)), acc. split; [reflexivity|].
      split; [apply is_digit_digit_char, mod10_lt|].
      intros Hnz. apply Ascii.eqb_neq. intros E.
      apply (f_equal code) in E. rewrite code_digit_char in E by apply mod10_lt.
      rewrite N.mod_small in E by exact Hs. change (code "0") with 48%N in E. lia.
    + destruct (IH (n / 10)%N (String (digit_char (n mod 10)) acc)) as (c & r & E & Hd & Hz).
      * assert (H2 : (2 ^ N.of_nat (S (S f)) = 2 * 2 ^ N.of_nat (S f))%N).
        { rewrite <- N.pow_succ_r'; f_equal; lia. }
        rewrite H2 in Hn. apply N.Div0.div_lt_upper_bound. lia.
      * exists c, r. split; [exact E|]. split; [exact Hd|]. intros _. apply Hz, Hq.
Qed.

Lemma string_of_N_head (n : N) :
  exists c r, string_of_N n = String c r /\ is_digit c = true /\
              (n <> 0%N -> Ascii.eqb c "0" = false).
Proof. unfold string_of_N. apply N_digits_head, log2_fuel. Qed.

Lemma N_digits_acc (fuel : nat) (n : N) (acc : string) :
  acc <> EmptyString -> N_digits fuel n acc <> EmptyString.
Proof.
  revert n acc. induction fuel as [|f IH]; intros n acc Hacc; simpl; [exact Hacc|].
  destruct (n / 10 =? 0)%N; [discriminate|]. apply IH. discriminate.
Qed.

Lemma string_of_N_nonempty (n : N) : string_of_N n <> EmptyString.
Proof.
  unfold string_of_N. simpl. destruct (n / 10 =? 0)%N; [discriminate|].
  apply N_digits_acc. discriminate.
Qed.

Lemma read_digits_stop (rest : string) (n : N) :
  number_end rest = true -> read_digits rest n = (n, rest).
Proof.
  destruct rest as [|c r]; [reflexivity|]. simpl. intros H.
  apply andb_prop in H as [H _]. apply negb_true_iff in H. rewrite H. reflexivity.
Qed.

Lemma number_end_check (A : Type) (rest : string) (x : A) :
  number_end rest = true ->
  match rest with
  | EmptyString => Some x
  | String d _ => if frac_or_exp d then None else Some x
  end = Some x.
Proof.
  destruct rest as [|c r]; [reflexivity|]. simpl. intros H.
  apply andb_prop in H as [_ H]. apply negb_true_iff in H. rewrite H. reflexivity.
Qed.

Lemma is_digit_not_minus (c : ascii) : is_digit c = true -> Ascii.eqb c "-" = false.
Proof.
  intros H. apply Ascii.eqb_neq. intros ->. discriminate H.
Qed.

Lemma parse_number_N (p : positive) (rest : string) (neg : bool) :
  number_end rest = true ->
  match (string_of_N (Npos p) ++ rest)%string with
  | EmptyString => None
  | String c r =>
      if is_digit c then
        let '(n, rest') :=
          if Ascii.eqb c "0" then (0%N, r)
          else read_digits (string_of_N (Npos p) ++ rest)%string 0%N in
        let z := if neg then Z.opp (Z.of_N n) else Z.of_N n in
        match rest' with
        | EmptyString => Some (z, rest')
        | String d _ => if frac_or_exp d then None else Some (z, rest')
        end
      else None
  end = Some (if neg then Zneg p else Zpos p, rest).
Proof.
  intros Hend. rewrite read_string_of_N, (read_digits_stop _ _ Hend).
  destruct (string_of_N_head (Npos p)) as (c & r & E & Hd & Hz).
  rewrite E. simpl. rewrite Hd, Hz by discriminate.
  rewrite (number_end_check _ rest _ Hend). destruct neg; reflexivity.
Qed.

Lemma parse_number_string_of_Z (z : Z) (rest : string) :
  number_end rest = true ->
  parse_number (string_of_Z z ++ rest)%string = Some (z, rest).
Proof.
  intros Hend. destruct z as [|p|p].
  - simpl. unfold parse_number. simpl.
    rewrite (number_end_check _ rest _ Hend). reflexivity.
  - unfold string_of_Z, parse_number.
    pose proof (parse_number_N p rest false Hend) as H.
    destruct (string_of_N_head (Npos p)) as (c & r & E & Hd & _).
    rewrite E in *. simpl in *. rewrite (is_digit_not_minus c Hd). exact H.
  - unfold string_of_Z, parse_number. simpl.
    exact (parse_number_N p rest true Hend).
Qed.

Lemma parse_quote_char (c : ascii) (r : string) :
  parse_chars (quote_char c ++ r)%string = prepend (String c EmptyString) (parse_chars r).
Proof.
  destruct c as [[] [] [] [] [] [] [] []]; reflexivity.
Qed.

Lemma parse_quote_chars (s rest : string) :
  parse_chars (quote_chars s ++ String dquote rest)%string = Some (s, rest).
Proof.
  induction s as [|c s IH]; [reflexivity|].
  simpl quote_chars. rewrite append_assoc, parse_quote_char, IH. reflexivity.
Qed.

(** *** Array indices are canonical numerals *)

Lemma pow10_cons (c : ascii) (s : string) : pow10 (String c s) = (10 * pow10 s)%N.
Proof.
  unfold pow10. cbn [String.length]. rewrite Nat2N.inj_succ, N.pow_succ_r'. reflexivity.
Qed.

Lemma pow10_pos (s : string) : (0 < pow10 s)%N.
Proof. unfold pow10. apply N.neq_0_lt_0, N.pow_nonzero. discriminate. Qed.

Lemma read_all_digits (s : string) :
  all_digits s = true ->
  forall acc, read_digits s acc = ((acc * pow10 s + numeral_value s)%N, EmptyString).
Proof.
  unfold numeral_value. induction s as [|c r IH]; intros Hd acc.
  - simpl. f_equal. unfold pow10. simpl. lia.
  - simpl in Hd. apply andb_prop in Hd as [Hc Hr].
    cbn [read_digits]. rewrite Hc, (IH Hr (10 * acc + digit_val c)%N), (IH Hr (10 * 0 + digit_val c)%N).
    cbn [fst]. rewrite pow10_cons. f_equal. lia.
Qed.

Lemma numeral_value_cons (c : ascii) (r : string) :
  all_digits (String c r) = true ->
  numeral_value (String c r) = (digit_val c * pow10 r + numeral_value r)%N.
Proof.
  intros Hd. pose proof Hd as Hd'. simpl in Hd'. apply andb_prop in Hd' as [Hc Hr].
  unfold numeral_value at 1. cbn [read_digits]. rewrite Hc, (read_all_digits r Hr).
  cbn [fst]. rewrite N.mul_0_r, N.add_0_l. reflexivity.
Qed.

Lemma numeral_value_bound (s : string) :
  all_digits s = true -> (numeral_value s < pow10 s)%N.
Proof.
  induction s as [|c r IH]; intros Hd.
  - unfold numeral_value, pow10. simpl. lia.
  - rewrite (numeral_value_cons c r Hd), pow10_cons.
    simpl in Hd. apply andb_prop in Hd as [Hc Hr]. specialize (IH Hr).
    assert (digit_val c <= 9)%N.
    { unfold is_digit in Hc. apply andb_prop in Hc as [H1 H2].
      apply N.leb_le in H1, H2. unfold digit_val. lia. }
    nia.
Qed.

Lemma digit_val_inj (c d : ascii) :
  is_digit c = true -> is_digit d = true -> digit_val c = digit_val d -> c = d.
Proof.
  unfold is_digit, digit_val, code. intros Hc Hd E.
  apply andb_prop in Hc as [H1 H2]. apply andb_prop in Hd as [H3 H4].
  apply N.leb_le in H1, H2, H3, H4.
  rewrite <- (ascii_N_embedding c), <- (ascii_N_embedding d). f_equal. lia.
Qed.

Lemma numeral_value_inj_same_length (s : string) :
  forall t, all_digits s = true -> all_digits t = true ->
            String.length s = String.length t ->
            numeral_value s = numeral_value t -> s = t.
Proof.
  induction s as [|c r IH]; intros [|d t] Hs Ht Hlen E; try discriminate; [reflexivity|].
  rewrite (numeral_value_cons c r Hs), (numeral_value_cons d t Ht) in E.
  simpl in Hs, Ht. apply andb_prop in Hs as [Hc Hr]. apply andb_prop in Ht as [Hd Htl].
  injection Hlen as Hlen.
  assert (Hp : pow10 r = pow10 t) by (unfold pow10; rewrite Hlen; reflexivity).
  pose proof (numeral_value_bound r Hr) as B1. pose proof (numeral_value_bound t Htl) as B2.
  rewrite Hp in *.
  assert (Hdv : digit_val c = digit_val d) by nia.
  assert (Hv : numeral_value r = numeral_value t) by nia.
  rewrite (digit_val_inj c d Hc Hd Hdv), (IH t Hr Htl Hlen Hv). reflexivity.
Qed.

Lemma pow10_mono (s t : string) :
  (String.length s <= String.length t)%nat -> (pow10 s <= pow10 t)%N.
Proof. intros H. unfold pow10. apply N.pow_le_mono_r; [discriminate | lia]. Qed.

Lemma numeral_value_lower (d : ascii) (t : string) :
  all_digits (String d t) = true -> Ascii.eqb d "0" = false ->
  (pow10 t <= numeral_value (String d t))%N.
Proof.
  intros Hd Hz. rewrite (numeral_value_cons d t Hd).
  simpl in Hd. apply andb_prop in Hd as [Hc _].
  assert (1 <= digit_val d)%N.
  { destruct (N.eq_dec (digit_val d) 0%N) as [E|E]; [|lia].
    exfalso. apply Ascii.eqb_neq in Hz. apply Hz.
    apply (digit_val_inj d "0" Hc eq_refl). rewrite E. reflexivity. }
  nia.
Qed.

Lemma array_index_canonical (k : string) (i : N) :
  array_index k = Some i -> canonical k /\ numeral_value k = i.
Proof.
  unfold array_index, canonical. destruct k as [|c r]; [discriminate|].
  destruct (all_digits (String c r)) eqn:Hd; [|discriminate]. cbn [andb].
  destruct (negb (Ascii.eqb c "0") || String.eqb r EmptyString) eqn:Hc; [|discriminate].
  fold (numeral_value (String c r)).
  destruct (numeral_value (String c r) <? 4294967295)%N; [|discriminate].
  intros H; inversion H; subst. split; [|reflexivity]. split; [reflexivity|].
  exists c, r. split; [reflexivity|].
  apply orb_prop in Hc as [Hc|Hc].
  - left. apply negb_true_iff. exact Hc.
  - right. apply String.eqb_eq. exact Hc.
Qed.

Lemma canonical_shorter (a b : string) :
  canonical a -> canonical b -> (String.length a < String.length b)%nat ->
  (numeral_value a < numeral_value b)%N.
Proof.
  intros [Ha (c & r & Ea & _)] [Hb (d & t & -> & Hd)] Hlen.
  pose proof (numeral_value_bound a Ha) as Ba.
  destruct Hd as [Hz| ->].
  - pose proof (numeral_value_lower d t Hb Hz) as Bl.
    assert (pow10 a <= pow10 t)%N by (apply pow10_mono; simpl in Hlen; lia).
    lia.
  - subst a. simpl in Hlen. lia.
Qed.

Lemma array_index_inj (a b : string) (i : N) :
  array_index a = Some i -> array_index b = Some i -> a = b.
Proof.
  intros Ha Hb.
  apply array_index_canonical in Ha as [Ca Va], Hb as [Cb Vb].
  destruct (Nat.lt_trichotomy (String.length a) (String.length b)) as [H|[H|H]].
  - pose proof (canonical_shorter a b Ca Cb H). lia.
  - apply numeral_value_inj_same_length; [apply Ca | apply Cb | exact H | congruence].
  - pose proof (canonical_shorter b a Cb Ca H). lia.
Qed.

(** ** Objects *)

Lemma get_prop_In (props : list (string * json)) (k : string) (v : json) :
  get_prop props k = Some v -> In (k, v) props.
Proof.
  induction props as [|[k' v'] r IH]; simpl; [discriminate|].
  destruct (String.eqb_spec k k') as [->|Hne].
  - intros H; inversion H; subst. left; reflexivity.
  - intros H. right. auto.
Qed.

Lemma has_prop_get (props : list (string * json)) (k : string) :
  has_prop props k = true -> exists v, get_prop props k = Some v.
Proof.
  unfold has_prop. destruct (get_prop props k) as [v|]; [eauto | discriminate].
Qed.

Lemma key_before_irrefl (k : string) : key_before k k = false.
Proof.
  unfold key_before. destruct (array_index k) as [i|].
  - apply N.ltb_irrefl.
  - rewrite String.eqb_refl. reflexivity.
Qed.

Lemma get_prop_fresh (props : list (string * json)) (k : string) :
  forallb (fun k' => key_before k' k) (map fst props) = true -> get_prop props k = None.
Proof.
  induction props as [|[k' v'] r IH]; [reflexivity|]. simpl. intros H.
  apply andb_prop in H as [Hb Hr].
  destruct (String.eqb_spec k k') as [->|_].
  - rewrite key_before_irrefl in Hb. discriminate.
  - auto.
Qed.

Lemma insert_index_last (props : list (string * json)) (i : N) (k : string) (v : json) :
  array_index k = Some i ->
  forallb (fun k' => key_before k' k) (map fst props) = true ->
  insert_index props i k v = (props ++ [(k, v)])%list.
Proof.
  intros Hk. induction props as [|[k' v'] r IH]; [reflexivity|]. simpl. intros H.
  apply andb_prop in H as [Hb Hr]. unfold key_before in Hb. rewrite Hk in Hb.
  destruct (array_index k') as [j|]; [|discriminate].
  rewrite Hb, IH by exact Hr. reflexivity.
Qed.

Lemma set_prop_fresh (props : list (string * json)) (k : string) (v : json) :
  forallb (fun k' => key_before k' k) (map fst props) = true ->
  set_prop props k v = (props ++ [(k, v)])%list.
Proof.
  intros H. unfold set_prop, has_prop. rewrite (get_prop_fresh _ _ H).
  destruct (array_index k) as [i|] eqn:E; [|reflexivity].
  apply insert_index_last; assumption.
Qed.

Lemma keys_ok_before (l1 l2 : list string) (k : string) :
  keys_ok (l1 ++ k :: l2)%list = true -> forallb (fun k' => key_before k' k) l1 = true.
Proof.
  induction l1 as [|a l1 IH]; [reflexivity|]. simpl. intros H.
  apply andb_prop in H as [Ha Hr]. rewrite forallb_app in Ha.
  apply andb_prop in Ha as [_ Ha]. simpl in Ha. apply andb_prop in Ha as [Ha _].
  rewrite Ha. simpl. auto.
Qed.

Lemma set_props_canonical (kvs acc : list (string * json)) :
  keys_ok (map fst (acc ++ kvs)%list) = true -> set_props acc kvs = (acc ++ kvs)%list.
Proof.
  revert acc. induction kvs as [|[k v] r IH]; intros acc H.
  - simpl. rewrite app_nil_r. reflexivity.
  - unfold set_props. simpl. fold (set_props (set_prop acc k v) r).
    rewrite map_app in H. simpl in H.
    rewrite (set_prop_fresh acc k v (keys_ok_before _ _ _ H)).
    rewrite IH.
    + rewrite <- app_assoc. reflexivity.
    + rewrite <- app_assoc, map_app. exact H.
Qed.

Lemma set_props_wf (props : list (string * json)) :
  keys_ok (map fst props) = true -> set_props [] props = props.
Proof. intros H. apply (set_props_canonical props []). exact H. Qed.

Lemma get_prop_replace (props : list (string * json)) (k : string) (v : json) (k' : string) :
  has_prop props k = true ->
  get_prop (replace_prop props k v) k' = if String.eqb k' k then Some v else get_prop props k'.
Proof.
  unfold has_prop. induction props as [|[k0 v0] r IH]; simpl; [discriminate|].
  destruct (String.eqb_spec k k0) as [->|Hne].
  - intros _. simpl. destruct (String.eqb k' k0); reflexivity.
  - intros H. simpl. destruct (String.eqb_spec k' k0) as [->|Hne'].
    + destruct (String.eqb_spec k0 k) as [E|_]; [congruence | reflexivity].
    + apply IH. exact H.
Qed.

Lemma get_prop_insert_index (props : list (string * json)) (i : N) (k : string) (v : json)
      (k' : string) :
  get_prop props k = None ->
  get_prop (insert_index props i k v) k' = if String.eqb k' k then Some v else get_prop props k'.
Proof.
  induction props as [|[k0 v0] r IH]; simpl.
  - intros _. destruct (String.eqb k' k); reflexivity.
  - destruct (String.eqb_spec k k0) as [->|Hne]; [discriminate|]. intros Hr.
    assert (Hhere : get_prop ((k, v) :: (k0, v0) :: r) k'
                    = if String.eqb k' k then Some v
                      else if String.eqb k' k0 then Some v0 else get_prop r k')
      by reflexivity.
    destruct (array_index k0) as [j|]; [destruct (j <? i)%N|]; try exact Hhere.
    simpl. rewrite (IH Hr).
    destruct (String.eqb_spec k' k0) as [->|_]; [|reflexivity].
    destruct (String.eqb_spec k0 k) as [E|_]; [congruence | reflexivity].
Qed.

Lemma get_prop_snoc (props : list (string * json)) (k : string) (v : json) (k' : string) :
  get_prop props k = None ->
  get_prop (props ++ [(k, v)])%list k' = if String.eqb k' k then Some v else get_prop props k'.
Proof.
  induction props as [|[k0 v0] r IH]; simpl.
  - intros _. destruct (String.eqb k' k); reflexivity.
  - destruct (String.eqb_spec k k0) as [->|Hne]; [discriminate|]. intros Hr.
    rewrite (IH Hr).
    destruct (String.eqb_spec k' k0) as [->|_]; [|reflexivity].
    destruct (String.eqb_spec k0 k) as [E|_]; [congruence | reflexivity].
Qed.

(** Defining a property changes what is read under its key and nothing
    else. *)
Lemma get_prop_set_prop (props : list (string * json)) (k : string) (v : json) (k' : string) :
  get_prop (set_prop props k v) k' = if String.eqb k' k then Some v else get_prop props k'.
Proof.
  unfold set_prop. destruct (has_prop props k) eqn:E.
  - apply get_prop_replace. exact E.
  - assert (Hn : get_prop props k = None).
    { unfold has_prop in E. destruct (get_prop props k); [discriminate | reflexivity]. }
    destruct (array_index k) as [i|].
    + apply get_prop_insert_index. exact Hn.
    + apply get_prop_snoc. exact Hn.
Qed.

Lemma get_prop_not_in (props : list (string * json)) (k : string) :
  ~ In k (map fst props) -> get_prop props k = None.
Proof.
  induction props as [|[k0 v0] r IH]; simpl; [reflexivity|]. intros H.
  destruct (String.eqb_spec k k0) as [->|_]; [exfalso; apply H; left; reflexivity|].
  apply IH. intros Hin. apply H. right. exact Hin.
Qed.

Lemma get_prop_set_props (kvs props : list (string * json)) (k : string) :
  List.NoDup (map fst kvs) ->
  get_prop (set_props props kvs) k
  = match get_prop kvs k with
    | Some v => Some v
    | None => get_prop props k
    end.
Proof.
  revert props. induction kvs as [|[k0 v0] r IH]; intros props Hnd; [reflexivity|].
  simpl in Hnd. inversion Hnd as [|? ? Hnotin Hnd']; subst.
  unfold set_props. simpl. fold (set_props (set_prop props k0 v0) r).
  rewrite (IH _ Hnd'), get_prop_set_prop.
  destruct (String.eqb_spec k k0) as [->|_]; [|reflexivity].
  rewrite (get_prop_not_in _ _ Hnotin). reflexivity.
Qed.

(** The keys of a JavaScript value are pairwise distinct. *)

Lemma keys_ok_NoDup (ks : list string) : keys_ok ks = true -> List.NoDup ks.
Proof.
  induction ks as [|k r IH]; simpl; intros H; [constructor|].
  apply andb_prop in H as [Hk Hr]. constructor; [|auto].
  intros Hin. rewrite forallb_forall in Hk. specialize (Hk k Hin).
  rewrite key_before_irrefl in Hk. discriminate.
Qed.

Lemma indexed_keys {A : Type} (l : list A) (i : N) (k : string) :
  In k (map fst (indexed i l)) -> exists j, (i <= j)%N /\ k = string_of_N j.
Proof.
  revert i. induction l as [|x l IH]; intros i; simpl; [intros []|].
  intros [<-|Hin].
  - exists i. split; [lia | reflexivity].
  - destruct (IH _ Hin) as (j & Hj & ->). exists j. split; [lia | reflexivity].
Qed.

Lemma indexed_NoDup {A : Type} (l : list A) (i : N) : List.NoDup (map fst (indexed i l)).
Proof.
  revert i. induction l as [|x l IH]; intros i; simpl; constructor; [|apply IH].
  intros Hin. destruct (indexed_keys _ _ _ Hin) as (j & Hj & E).
  apply string_of_N_inj in E. lia.
Qed.

Lemma own_props_NoDup (j : json) : js_wf j = true -> List.NoDup (map fst (own_props j)).
Proof.
  destruct j as [| | |s|items|props]; simpl; intros H; try constructor.
  - apply indexed_NoDup.
  - apply indexed_NoDup.
  - apply andb_prop in H as [H _]. apply keys_ok_NoDup. exact H.
Qed.

Lemma replace_prop_keys (props : list (string * json)) (k : string) (v : json) :
  map fst (replace_prop props k v) = map fst props.
Proof.
  induction props as [|[k0 v0] r IH]; [reflexivity|]. simpl.
  destruct (String.eqb k k0); simpl; [reflexivity | rewrite IH; reflexivity].
Qed.

Lemma insert_index_keys (props : list (string * json)) (i : N) (k : string) (v : json) (x : string) :
  In x (map fst (insert_index props i k v)) <-> x = k \/ In x (map fst props).
Proof.
  induction props as [|[k0 v0] r IH]; simpl; [intuition congruence|].
  destruct (array_index k0) as [j|]; [destruct (j <? i)%N|]; simpl; rewrite ?IH;
    intuition congruence.
Qed.

Lemma get_prop_None_not_in (props : list (string * json)) (k : string) :
  get_prop props k = None -> ~ In k (map fst props).
Proof.
  induction props as [|[k0 v0] r IH]; simpl; [intros _ []|].
  destruct (String.eqb_spec k k0) as [->|Hne]; [discriminate|].
  intros H [E|Hin]; [congruence | exact (IH H Hin)].
Qed.

Lemma js_wf_distinct (j : json) : js_wf j = true -> distinct_keys j.
Proof. apply own_props_NoDup. Qed.

(** *** Property definition keeps the enumeration order *)

Lemma keys_ok_snoc (ks : list string) (k : string) :
  keys_ok ks = true -> forallb (fun k' => key_before k' k) ks = true ->
  keys_ok (ks ++ [k])%list = true.
Proof.
  induction ks as [|a ks IH]; simpl; intros Hok Hb; [reflexivity|].
  apply andb_prop in Hok as [Ha Hks]. apply andb_prop in Hb as [Hak Hb].
  rewrite forallb_app, Ha, (IH Hks Hb). simpl. rewrite Hak. reflexivity.
Qed.

Lemma key_before_new_name (k' k : string) :
  array_index k = None -> k' <> k -> key_before k' k = true.
Proof.
  intros Hk Hne. unfold key_before. rewrite Hk.
  destruct (array_index k'); [reflexivity|].
  apply negb_true_iff, String.eqb_neq. exact Hne.
Qed.

Lemma insert_index_keys_ok (props : list (string * json)) (i : N) (k : string) (v : json) :
  array_index k = Some i -> ~ In k (map fst props) ->
  keys_ok (map fst props) = true ->
  keys_ok (map fst (insert_index props i k v)) = true.
Proof.
  intros Hk. induction props as [|[k0 v0] r IH]; intros Hnew Hok; [reflexivity|].
  cbn [map fst keys_ok] in Hok. apply andb_prop in Hok as [H0 Hr].
  rewrite forallb_forall in H0.
  assert (Hne : k0 <> k) by (intros ->; apply Hnew; left; reflexivity).
  assert (Hnr : ~ In k (map fst r)) by (intros Hin; apply Hnew; right; exact Hin).
  cbn [insert_index].
  destruct (array_index k0) as [j|] eqn:E0; [destruct (N.ltb_spec j i) as [Hlt|Hge]|].
  - cbn [map fst keys_ok]. rewrite (IH Hnr Hr), andb_true_r.
    apply forallb_forall. intros x Hx. apply insert_index_keys in Hx as [->|Hx]; [|auto].
    unfold key_before. rewrite E0, Hk. apply N.ltb_lt. exact Hlt.
  - assert (Hij : (i < j)%N).
    { destruct (N.eq_dec i j) as [->|]; [|lia].
      exfalso. apply Hne. exact (array_index_inj _ _ _ E0 Hk). }
    cbn [map fst keys_ok]. apply andb_true_intro. split.
    + cbn [forallb]. apply andb_true_intro. split.
      * unfold key_before. rewrite Hk, E0. apply N.ltb_lt. exact Hij.
      * apply forallb_forall. intros x Hx. specialize (H0 x Hx).
        unfold key_before in *. rewrite E0 in H0. rewrite Hk.
        destruct (array_index x) as [j'|]; [|reflexivity].
        apply N.ltb_lt in H0. apply N.ltb_lt. lia.
    + apply andb_true_intro. split; [apply forallb_forall; exact H0 | exact Hr].
  - cbn [map fst keys_ok]. apply andb_true_intro. split.
    + cbn [forallb]. apply andb_true_intro. split.
      * unfold key_before. rewrite Hk, E0. reflexivity.
      * apply forallb_forall. intros x Hx. specialize (H0 x Hx).
        unfold key_before in *. rewrite E0 in H0. rewrite Hk.
        destruct (array_index x) as [j'|]; [discriminate | reflexivity].
    + apply andb_true_intro. split; [apply forallb_forall; exact H0 | exact Hr].
Qed.

Lemma set_prop_keys_ok (props : list (string * json)) (k : string) (v : json) :
  keys_ok (map fst props) = true -> keys_ok (map fst (set_prop props k v)) = true.
Proof.
  intros Hok. unfold set_prop, has_prop.
  destruct (get_prop props k) eqn:E; [rewrite replace_prop_keys; exact Hok|].
  apply get_prop_None_not_in in E.
  destruct (array_index k) as [i|] eqn:Hk; [apply insert_index_keys_ok; assumption|].
  rewrite map_app. apply keys_ok_snoc; [exact Hok|].
  apply forallb_forall. intros x Hx. apply key_before_new_name; [exact Hk|].
  intros ->. contradiction.
Qed.

Lemma set_props_keys_ok (kvs props : list (string * json)) :
  keys_ok (map fst props) = true -> keys_ok (map fst (set_props props kvs)) = true.
Proof.
  revert props. induction kvs as [|[k v] r IH]; intros props Hok; [exact Hok|].
  unfold set_props. simpl. fold (set_props (set_prop props k v) r).
  apply IH, set_prop_keys_ok, Hok.
Qed.

Lemma replace_prop_values (props : list (string * json)) (k : string) (v : json) :
  values_wf props -> js_wf v = true -> values_wf (replace_prop props k v).
Proof.
  unfold values_wf. induction 1 as [|[k0 v0] r H0 Hr IH]; intros Hv; simpl; [constructor|].
  destruct (String.eqb k k0); constructor; auto.
Qed.

Lemma insert_index_values (props : list (string * json)) (i : N) (k : string) (v : json) :
  values_wf props -> js_wf v = true -> values_wf (insert_index props i k v).
Proof.
  unfold values_wf. induction 1 as [|[k0 v0] r H0 Hr IH]; intros Hv; simpl.
  - constructor; [exact Hv | constructor].
  - destruct (array_index k0) as [j|]; [destruct (j <? i)%N|];
      repeat (constructor; auto).
Qed.

Lemma set_prop_values (props : list (string * json)) (k : string) (v : json) :
  values_wf props -> js_wf v = true -> values_wf (set_prop props k v).
Proof.
  intros Hp Hv. unfold set_prop.
  destruct (has_prop props k); [apply replace_prop_values; assumption|].
  destruct (array_index k); [apply insert_index_values; assumption|].
  apply Forall_app. split; [exact Hp|]. constructor; [exact Hv | constructor].
Qed.

Lemma set_props_values (kvs props : list (string * json)) :
  values_wf props -> values_wf kvs -> values_wf (set_props props kvs).
Proof.
  revert props. induction kvs as [|[k v] r IH]; intros props Hp Hk; [exact Hp|].
  inversion Hk as [|? ? Hv Hr]; subst.
  unfold set_props. simpl. fold (set_props (set_prop props k v) r).
  apply IH; [apply set_prop_values; assumption | exact Hr].
Qed.

Lemma js_wf_object (props : list (string * json)) :
  keys_ok (map fst props) = true -> values_wf props -> js_wf (JObj props) = true.
Proof.
  intros Hk Hv. cbn [js_wf]. rewrite Hk. cbn [andb].
  apply forallb_forall. unfold values_wf in Hv. rewrite List.Forall_forall in Hv. exact Hv.
Qed.

Lemma set_props_wf_object (kvs : list (string * json)) :
  values_wf kvs -> js_wf (JObj (set_props [] kvs)) = true.
Proof.
  intros Hv. apply js_wf_object.
  - apply set_props_keys_ok. reflexivity.
  - apply set_props_values; [constructor | exact Hv].
Qed.

Lemma own_props_values (j : json) : js_wf j = true -> values_wf (own_props j).
Proof.
  destruct j as [| | |s|items|props]; cbn [own_props js_wf]; intros H;
    try (constructor; fail).
  - generalize 0%N. induction s as [|c s IH]; intros i; simpl; constructor;
      [reflexivity | apply IH].
  - rewrite forallb_forall in H. generalize 0%N.
    induction items as [|x items IH]; intros i; simpl; constructor.
    + apply H. left; reflexivity.
    + apply IH. intros y Hy. apply H. right; exact Hy.
  - apply andb_prop in H as [_ H]. rewrite forallb_forall in H.
    apply List.Forall_forall. exact H.
Qed.

(** A spread of JavaScript values is a JavaScript value. *)
Lemma spread_wf (a b : json) : js_wf a = true -> js_wf b = true -> js_wf (spread a b) = true.
Proof.
  intros Ha Hb. unfold spread. apply js_wf_object.
  - apply set_props_keys_ok, set_props_keys_ok. reflexivity.
  - apply set_props_values; [apply set_props_values; [constructor|] |];
      apply own_props_values; assumption.
Qed.

(** ** [JSON.parse] after [JSON.stringify] *)

Lemma JSON_stringify_nonempty (j : json) : JSON_stringify j <> EmptyString.
Proof.
  destruct j as [|[]|[]| | |]; simpl; try discriminate.
  apply string_of_N_nonempty.
Qed.

Lemma value_end_number (rest : string) : value_end rest = true -> number_end rest = true.
Proof.
  destruct rest as [|c r]; [reflexivity|]. simpl. intros H.
  apply orb_prop in H as [H|H]; [apply orb_prop in H as [H|H]|];
    apply Ascii.eqb_eq in H; subst c; reflexivity.
Qed.

Lemma number_start_dispatch (c : ascii) :
  number_start c = true ->
  is_ws c = false /\ Ascii.eqb c "{" = false /\ Ascii.eqb c "[" = false /\
  Ascii.eqb c dquote = false /\ Ascii.eqb c "t" = false /\ Ascii.eqb c "f" = false /\
  Ascii.eqb c "n" = false /\ Ascii.eqb c "]" = false /\ Ascii.eqb c "}" = false.
Proof.
  destruct c as [[] [] [] [] [] [] [] []]; intros H; vm_compute in H;
    try discriminate H; repeat split; reflexivity.
Qed.

Lemma string_of_Z_head (z : Z) (rest : string) :
  exists c r, (string_of_Z z ++ rest)%string = String c r /\ number_start c = true.
Proof.
  destruct z as [|p|p].
  - exists "0"%char, rest. split; reflexivity.
  - destruct (string_of_N_head (Npos p)) as (c & r & E & Hd & _).
    exists c, (r ++ rest)%string. unfold string_of_Z. rewrite E. split; [reflexivity|].
    unfold number_start. rewrite Hd. reflexivity.
  - exists "-"%char, (string_of_N (Npos p) ++ rest)%string. split; reflexivity.
Qed.

Lemma JSON_stringify_head (j : json) (rest : string) :
  exists c r, (JSON_stringify j ++ rest)%string = String c r /\
              is_ws c = false /\ Ascii.eqb c "]" = false /\ Ascii.eqb c "}" = false.
Proof.
  destruct j as [|[]|n|s|items|props]; simpl;
    try (eexists _, _; split; [reflexivity | repeat split; reflexivity]).
  destruct (string_of_Z_head n rest) as (c & r & E & Hc).
  exists c, r. split; [exact E|]. apply number_start_dispatch in Hc. tauto.
Qed.

Lemma skip_ws_head (c : ascii) (r : string) :
  is_ws c = false -> skip_ws (String c r) = String c r.
Proof. intros H. simpl. rewrite H. reflexivity. Qed.

Lemma quote_append (k rest : string) :
  (quote k ++ rest)%string = String dquote (quote_chars k ++ String dquote rest).
Proof. unfold quote. simpl. rewrite append_assoc. reflexivity. Qed.

Lemma parse_elements_ok (f : nat) (items : list json) :
  forall (x : json) (n : nat) (rest : string),
    (List.length items < n)%nat -> reads_back f x -> Forall (reads_back f) items ->
    parse_elements (parse_value f) n
      (join_comma (map JSON_stringify (x :: items)) ++ String "]" rest)%string
    = Some (map normalize (x :: items), rest).
Proof.
  induction items as [|y items IH]; intros x n rest Hn Hx Hall.
  - destruct n as [|n]; [lia|].
    change (join_comma (map JSON_stringify [x])) with (JSON_stringify x).
    cbn [parse_elements]. rewrite Hx by reflexivity.
    rewrite skip_ws_head by reflexivity. reflexivity.
  - destruct n as [|n]; [simpl in Hn; lia|].
    change (join_comma (map JSON_stringify (x :: y :: items)))
      with (JSON_stringify x ++ String "," (join_comma (map JSON_stringify (y :: items))))%string.
    rewrite append_assoc, append_cons. cbn [parse_elements].
    rewrite Hx by reflexivity. rewrite skip_ws_head by reflexivity.
    rewrite Ascii.eqb_refl.
    inversion Hall as [|? ? Hy Hrest]; subst.
    rewrite IH; [reflexivity | simpl in Hn; lia | exact Hy | exact Hrest].
Qed.

Lemma parse_member_text (k : string) (v : json) (tail : string) :
  (member_text (k, v) ++ tail)%string
  = String dquote (quote_chars k ++ String dquote (String ":" (JSON_stringify v ++ tail))).
Proof.
  unfold member_text. cbn [fst snd].
  rewrite append_assoc, quote_append, append_cons. reflexivity.
Qed.

Lemma parse_members_ok (f : nat) (props : list (string * json)) :
  forall (kv : string * json) (n : nat) (rest : string),
    (List.length props < n)%nat -> reads_back f (snd kv) ->
    Forall (fun kv => reads_back f (snd kv)) props ->
    parse_members (parse_value f) n
      (join_comma (map member_text (kv :: props)) ++ String "}" rest)%string
    = Some (map normalize_member (kv :: props), rest).
Proof.
  induction props as [|kv' props IH]; intros [k v] n rest Hn Hx Hall; cbn [snd] in Hx.
  - destruct n as [|n]; [lia|].
    change (join_comma (map member_text [(k, v)])) with (member_text (k, v)).
    rewrite parse_member_text. cbn [parse_members].
    rewrite skip_ws_head by reflexivity.
    rewrite Ascii.eqb_refl, parse_quote_chars.
    rewrite skip_ws_head by reflexivity. rewrite Ascii.eqb_refl.
    rewrite Hx by reflexivity. rewrite skip_ws_head by reflexivity. reflexivity.
  - destruct n as [|n]; [simpl in Hn; lia|].
    change (join_comma (map member_text ((k, v) :: kv' :: props)))
      with (member_text (k, v) ++ String "," (join_comma (map member_text (kv' :: props))))%string.
    rewrite append_assoc, parse_member_text, append_cons. cbn [parse_members].
    rewrite skip_ws_head by reflexivity.
    rewrite Ascii.eqb_refl, parse_quote_chars.
    rewrite skip_ws_head by reflexivity. rewrite Ascii.eqb_refl.
    rewrite Hx by reflexivity. rewrite skip_ws_head by reflexivity.
    rewrite Ascii.eqb_refl.
    inversion Hall as [|? ? Hy Hrest]; subst.
    rewrite IH; [reflexivity | simpl in Hn; lia | exact Hy | exact Hrest].
Qed.

Lemma size_pos (j : json) : (1 <= size j)%nat.
Proof. destruct j; simpl; lia. Qed.

Lemma size_not_0 (j : json) : (size j <= 0)%nat -> False.
Proof. intros H. pose proof (size_pos j). lia. Qed.

Lemma size_items (items : list json) :
  (List.length items <= list_sum (map size items))%nat /\
  forall x, In x items -> (size x <= list_sum (map size items))%nat.
Proof.
  induction items as [|y items [IHl IHs]]; simpl.
  - split; [lia | intros x []].
  - pose proof (size_pos y). split; [lia|].
    intros x [->|Hin]; [lia|]. specialize (IHs x Hin). lia.
Qed.

Lemma size_props (props : list (string * json)) :
  (List.length props <= list_sum (map (fun kv => size (snd kv)) props))%nat /\
  forall kv, In kv props ->
             (size (snd kv) <= list_sum (map (fun kv => size (snd kv)) props))%nat.
Proof.
  induction props as [|y props [IHl IHs]]; simpl.
  - split; [lia | intros x []].
  - pose proof (size_pos (snd y)). split; [lia|].
    intros x [->|Hin]; [lia|]. specialize (IHs x Hin). lia.
Qed.

Lemma join_comma_head (a : string) (l : list string) (tail : string) :
  exists tail', (join_comma (a :: l) ++ tail)%string = (a ++ tail')%string.
Proof.
  destruct l as [|b l].
  - exists tail. reflexivity.
  - exists (String "," (join_comma (b :: l) ++ tail))%string.
    change (join_comma (a :: b :: l)) with (a ++ String "," (join_comma (b :: l)))%string.
    rewrite append_assoc. reflexivity.
Qed.

Lemma parse_stringify (d : json) :
  forall (fuel : nat) (rest : string),
    (size d <= fuel)%nat -> value_end rest = true ->
    parse_value fuel (JSON_stringify d ++ rest)%string = Some (normalize d, rest).
Proof.
  induction d as [|b|n|s|items IH|props IH] using json_ind;
    intros fuel rest Hsize Hend;
    (destruct fuel as [|f]; [exfalso; exact (size_not_0 _ Hsize)|]).
  - reflexivity.
  - destruct b; reflexivity.
  - cbn [JSON_stringify parse_value normalize].
    destruct (string_of_Z_head n rest) as (c & r & E & Hc).
    destruct (number_start_dispatch c Hc) as (H1 & H2 & H3 & H4 & H5 & H6 & H7 & _).
    rewrite E, (skip_ws_head c r H1), H2, H3, H4, H5, H6, H7, <- E.
    rewrite parse_number_string_of_Z by (apply value_end_number; exact Hend).
    reflexivity.
  - cbn [JSON_stringify parse_value normalize]. rewrite quote_append.
    rewrite skip_ws_head by reflexivity. rewrite parse_quote_chars. reflexivity.
  - cbn [JSON_stringify normalize]. rewrite append_cons, append_assoc.
    change ("]" ++ rest)%string with (String "]" rest).
    cbn [parse_value]. rewrite skip_ws_head by reflexivity.
    change (Ascii.eqb "[" "{") with false. change (Ascii.eqb "[" "[") with true. cbv iota.
    destruct items as [|x items]; [reflexivity|].
    simpl in Hsize.
    destruct (size_items items) as [Hlen Hsz]. pose proof (size_pos x) as Hx1.
    inversion IH as [|? ? IHx IHr]; subst.
    assert (Hsk : exists c r,
               skip_ws (join_comma (map JSON_stringify (x :: items)) ++ String "]" rest)%string
               = String c r /\ Ascii.eqb c "]" = false).
    { cbn [map].
      destruct (join_comma_head (JSON_stringify x) (map JSON_stringify items) (String "]" rest))
        as [tail' ->].
      destruct (JSON_stringify_head x tail') as (c & r & -> & Hws & Hb & _).
      exists c, r. rewrite skip_ws_head by exact Hws. auto. }
    destruct Hsk as (c & r & -> & ->).
    rewrite parse_elements_ok; [reflexivity | lia | |].
    + intros rest' Hend'. apply IHx; [lia | exact Hend'].
    + rewrite List.Forall_forall in *.
      intros y Hy rest' Hend'. apply (IHr y Hy); [| exact Hend'].
      specialize (Hsz y Hy). lia.
  - cbn [JSON_stringify normalize]. rewrite append_cons, append_assoc.
    change ("}" ++ rest)%string with (String "}" rest).
    cbn [parse_value]. rewrite skip_ws_head by reflexivity.
    change (Ascii.eqb "{" "{") with true. cbv iota.
    destruct props as [|[k v] props]; [reflexivity|].
    simpl in Hsize.
    destruct (size_props props) as [Hlen Hsz]. pose proof (size_pos v) as Hx1.
    inversion IH as [|? ? IHx IHr]; subst. cbn [snd] in IHx.
    fold member_text. fold normalize_member.
    assert (Hsk : exists r,
               skip_ws (join_comma (map member_text ((k, v) :: props)) ++ String "}" rest)%string
               = String dquote r).
    { cbn [map].
      destruct (join_comma_head (member_text (k, v)) (map member_text props) (String "}" rest))
        as [tail' ->].
      rewrite parse_member_text. eexists. apply skip_ws_head. reflexivity. }
    destruct Hsk as (r & ->).
    change (Ascii.eqb dquote "}") with false. cbv iota.
    rewrite parse_members_ok; [reflexivity | lia | |].
    + intros rest' Hend'. apply IHx; [lia | exact Hend'].
    + rewrite List.Forall_forall in *.
      intros y Hy rest' Hend'. apply (IHr y Hy); [| exact Hend'].
      specialize (Hsz y Hy). lia.
Qed.

Lemma length_join_comma (l : list string) :
  (list_sum (map String.length l) <= String.length (join_comma l))%nat.
Proof.
  induction l as [|a l IH]; [simpl; lia|].
  destruct l as [|b l]; [simpl; lia|].
  change (join_comma (a :: b :: l)) with (a ++ String "," (join_comma (b :: l)))%string.
  rewrite length_append. simpl in *. lia.
Qed.

Lemma list_sum_le {A : Type} (g h : A -> nat) (l : list A) :
  Forall (fun x => (g x <= h x)%nat) l -> (list_sum (map g l) <= list_sum (map h l))%nat.
Proof. induction 1; simpl; lia. Qed.

Lemma size_le_length (d : json) : (size d <= String.length (JSON_stringify d))%nat.
Proof.
  induction d as [|b|n|s|items IH|props IH] using json_ind.
  - simpl. lia.
  - destruct b; simpl; lia.
  - cbn [size JSON_stringify].
    destruct (string_of_Z_head n EmptyString) as (c & r & E & _).
    rewrite append_empty_r in E. rewrite E. simpl. lia.
  - simpl. lia.
  - cbn [size JSON_stringify]. cbn [String.length]. rewrite length_append.
    pose proof (length_join_comma (map JSON_stringify items)) as Hj.
    rewrite map_map in Hj. pose proof (list_sum_le _ _ _ IH) as Hs.
    change (String.length "]") with 1%nat. lia.
  - cbn [size JSON_stringify]. cbn [String.length]. rewrite length_append.
    pose proof (length_join_comma
                  (map (fun kv => quote (fst kv) ++ String ":" (JSON_stringify (snd kv)))%string
                       props)) as Hj.
    rewrite map_map in Hj.
    assert (Hle : Forall (fun kv : string * json =>
                    (size (snd kv)
                     <= String.length (quote (fst kv) ++ String ":" (JSON_stringify (snd kv)))%string)%nat)
                    props).
    { eapply Forall_impl; [exact IH|]. intros kv H. cbv beta in H.
      rewrite length_append. cbn [String.length]. lia. }
    pose proof (list_sum_le _ _ _ Hle) as Hs. cbv beta in Hs, Hj.
    change (String.length "}") with 1%nat. lia.
Qed.

(** [JSON.parse] reads every text [JSON.stringify] writes. *)
Lemma JSON_parse_stringify_normalize (d : json) :
  JSON_parse (JSON_stringify d) = Some (normalize d).
Proof.
  unfold JSON_parse.
  pose proof (parse_stringify d (String.length (JSON_stringify d)) EmptyString
                              (size_le_length d) eq_refl) as H.
  rewrite append_empty_r in H. rewrite H. reflexivity.
Qed.

Lemma map_fixed {A : Type} (g : A -> A) (l : list A) :
  Forall (fun x => g x = x) l -> map g l = l.
Proof. induction 1 as [|x l Hx _ IH]; simpl; [reflexivity | rewrite Hx, IH; reflexivity]. Qed.

Lemma normalize_wf (d : json) : js_wf d = true -> normalize d = d.
Proof.
  induction d as [|b|n|s|items IH|props IH] using json_ind; intros Hwf; try reflexivity.
  - cbn [normalize]. f_equal. apply map_fixed.
    cbn [js_wf] in Hwf. rewrite forallb_forall in Hwf. rewrite List.Forall_forall in *.
    intros x Hx. apply IH; [exact Hx | apply Hwf; exact Hx].
  - cbn [normalize js_wf] in *. apply andb_prop in Hwf as [Hkeys Hvals]. f_equal.
    assert (E : map (fun kv : string * json => (fst kv, normalize (snd kv))) props = props).
    { apply map_fixed. rewrite forallb_forall in Hvals. rewrite List.Forall_forall in *.
      intros [k v] Hx. cbn [fst snd]. f_equal. apply (IH _ Hx). apply (Hvals _ Hx). }
    rewrite E. apply set_props_wf. exact Hkeys.
Qed.

(** [JSON.parse(JSON.stringify(d))] is [d], for every JavaScript value of the
    model. *)
Lemma JSON_parse_stringify (d : json) :
  js_wf d = true -> JSON_parse (JSON_stringify d) = Some d.
Proof.
  intros Hwf. rewrite JSON_parse_stringify_normalize, (normalize_wf d Hwf). reflexivity.
Qed.

(** ** The parser returns JavaScript values *)

Section ParserWf.

Variable pv : string -> option (json * string).
Hypothesis pv_wf : forall s v r, pv s = Some (v, r) -> js_wf v = true.

Lemma parse_elements_wf (n : nat) :
  forall s vs r, parse_elements pv n s = Some (vs, r) -> forallb js_wf vs = true.
Proof.
  induction n as [|n IH]; intros s vs r; [discriminate|]. cbn [parse_elements].
  destruct (pv s) as [[v r0]|] eqn:E; [|discriminate].
  destruct (skip_ws r0) as [|c r1]; [discriminate|].
  destruct (Ascii.eqb c ",").
  - destruct (parse_elements pv n r1) as [[vs' r2]|] eqn:E'; [|discriminate].
    intros H; inversion H; subst. cbn [forallb]. rewrite (pv_wf _ _ _ E), (IH _ _ _ E').
    reflexivity.
  - destruct (Ascii.eqb c "]"); [|discriminate].
    intros H; inversion H; subst. cbn [forallb]. rewrite (pv_wf _ _ _ E). reflexivity.
Qed.

Lemma parse_members_wf (n : nat) :
  forall s kvs r, parse_members pv n s = Some (kvs, r) -> values_wf kvs.
Proof.
  induction n as [|n IH]; intros s kvs r; [discriminate|]. cbn [parse_members].
  destruct (skip_ws s) as [|q r0]; [discriminate|].
  destruct (Ascii.eqb q dquote); [|discriminate].
  destruct (parse_chars r0) as [[k r1]|]; [|discriminate].
  destruct (skip_ws r1) as [|c r2]; [discriminate|].
  destruct (Ascii.eqb c ":"); [|discriminate].
  destruct (pv r2) as [[v r3]|] eqn:E; [|discriminate].
  destruct (skip_ws r3) as [|d r4]; [discriminate|].
  destruct (Ascii.eqb d ",").
  - destruct (parse_members pv n r4) as [[kvs' r5]|] eqn:E'; [|discriminate].
    intros H; inversion H; subst. constructor; [exact (pv_wf _ _ _ E) | exact (IH _ _ _ E')].
  - destruct (Ascii.eqb d "}"); [|discriminate].
    intros H; inversion H; subst. constructor; [exact (pv_wf _ _ _ E) | constructor].
Qed.

End ParserWf.

Lemma parse_value_wf (fuel : nat) :
  forall s v r, parse_value fuel s = Some (v, r) -> js_wf v = true.
Proof.
  induction fuel as [|f IH]; intros s v r; [discriminate|]. cbn [parse_value].
  destruct (skip_ws s) as [|c s']; [discriminate|].
  destruct (Ascii.eqb c "{").
  { destruct (skip_ws s') as [|d s'']; [discriminate|].
    destruct (Ascii.eqb d "}").
    - intros H; inversion H; subst. reflexivity.
    - destruct (parse_members (parse_value f) f s') as [[kvs r']|] eqn:E; [|discriminate].
      intros H; inversion H; subst.
      apply set_props_wf_object. exact (parse_members_wf _ IH _ _ _ _ E). }
  destruct (Ascii.eqb c "[").
  { destruct (skip_ws s') as [|d s'']; [discriminate|].
    destruct (Ascii.eqb d "]").
    - intros H; inversion H; subst. reflexivity.
    - destruct (parse_elements (parse_value f) f s') as [[vs r']|] eqn:E; [|discriminate].
      intros H; inversion H; subst. exact (parse_elements_wf _ IH _ _ _ _ E). }
  destruct (Ascii.eqb c dquote).
  { destruct (parse_chars s') as [[str r']|]; [|discriminate].
    intros H; inversion H; subst. reflexivity. }
  destruct (Ascii.eqb c "t").
  { destruct (strip_prefix "rue" s'); [|discriminate].
    intros H; inversion H; subst. reflexivity. }
  destruct (Ascii.eqb c "f").
  { destruct (strip_prefix "alse" s'); [|discriminate].
    intros H; inversion H; subst. reflexivity. }
  destruct (Ascii.eqb c "n").
  { destruct (strip_prefix "ull" s'); [|discriminate].
    intros H; inversion H; subst. reflexivity. }
  destruct (parse_number (String c s')) as [[z r']|]; [|discriminate].
  intros H; inversion H; subst. reflexivity.
Qed.

(** Every value [JSON.parse] returns is a JavaScript value of the model. *)
Lemma JSON_parse_wf (text : string) (v : json) : JSON_parse text = Some v -> js_wf v = true.
Proof.
  unfold JSON_parse.
  destruct (parse_value (String.length text) text) as [[v' r]|] eqn:E; [|discriminate].
  destruct (skip_ws r); [|discriminate].
  intros H; inversion H; subst. exact (parse_value_wf _ _ _ _ E).
Qed.

Lemma JSON_parse_distinct (text : string) (v : json) :
  JSON_parse text = Some v -> distinct_keys v.
Proof. intros H. apply js_wf_distinct. exact (JSON_parse_wf _ _ H). Qed.

(** ** The schema *)

Lemma validatePlan_key (data : json) :
  validatePlan data = true -> exists key, plan_key data = Some key.
Proof.
  unfold validatePlan, planSchema. destruct data as [| | | | |props]; try discriminate.
  cbn [validate]. intros H. apply andb_prop in H as [Hreq Hall].
  cbn [forallb] in Hreq. apply andb_prop in Hreq as [Hshares _].
  apply has_prop_get in Hshares as [shares Hget].
  rewrite forallb_forall in Hall.
  pose proof (Hall _ (get_prop_In _ _ _ Hget)) as Hs. cbn in Hs.
  destruct shares as [| | | | |sp]; try discriminate.
  apply andb_prop in Hs as [Hreq' Hall'].
  cbn [forallb] in Hreq'.
  repeat (apply andb_prop in Hreq' as [? Hreq']).
  match goal with H : has_prop sp "objectId" = true |- _ =>
    apply has_prop_get in H as [id Hid] end.
  rewrite forallb_forall in Hall'.
  pose proof (Hall' _ (get_prop_In _ _ _ Hid)) as Hi. cbn in Hi.
  destruct id as [| | |s| |]; try discriminate.
  exists s. unfold plan_key, member. rewrite Hget, Hid. reflexivity.
Qed.

(** ** The handlers, by the record they find *)

Lemma record_Some (st : store) (k plan : string) :
  record st k = Some plan <-> redis_get st k = Some plan /\ plan <> EmptyString.
Proof.
  unfold record. destruct (redis_get st k) as [s|]; [|split; [discriminate | intros [H _]; discriminate]].
  destruct (String.eqb_spec s EmptyString) as [->|Hne]; split.
  - discriminate.
  - intros [H Hp]. inversion H; subst. contradiction.
  - intros H; inversion H; subst. split; auto.
  - intros [H _]. exact H.
Qed.

Lemma record_set (st : store) (k : string) (j : json) :
  record (redis_set st k (JSON_stringify j)) k = Some (JSON_stringify j).
Proof.
  apply record_Some. split; [|apply JSON_stringify_nonempty].
  unfold redis_get, redis_set. apply lookup_insert_eq.
Qed.

Lemma record_set_other (st : store) (k k' v : string) :
  k <> k' -> record (redis_set st k v) k' = record st k'.
Proof.
  intros Hne. unfold record, redis_get, redis_set. rewrite lookup_insert_ne by exact Hne.
  reflexivity.
Qed.

Lemma record_delete (st : store) (k : string) : record (delete k st) k = None.
Proof. unfold record, redis_get. rewrite lookup_delete_eq. reflexivity. Qed.

Lemma header_is_Some (v tag : string) : header_is (Some v) tag = true <-> v = tag.
Proof. apply String.eqb_eq. Qed.

Lemma header_is_iff (h : option string) (tag : string) :
  header_is h tag = true <-> h = Some tag.
Proof.
  destruct h as [v|]; simpl.
  - rewrite String.eqb_eq. split; [intros ->; reflexivity | intros H; inversion H; reflexivity].
  - split; discriminate.
Qed.

Lemma header_is_absent (tag : string) : header_is None tag = false.
Proof. reflexivity. Qed.

(** The handlers, by the record they find. *)

Lemma put_handler_record (req : request) (st : store) :
  put_handler req st =
  if negb (validatePlan (body req)) then (Response 400 None ValidationErrors, st)
  else match record st (objectId req) with
       | None => (Response 404 None (message "Not Found: Plan does not exist"), st)
       | Some old =>
           if header_is (if_match req) (generateETag old) then
             (Response 200 (Some (generateETag (JSON_stringify (body req))))
                (message_data "Plan replaced" (body req)),
              redis_set st (objectId req) (JSON_stringify (body req)))
           else (Response 412 None (error "Precondition Failed: ETag does not match"), st)
       end.
Proof.
  unfold put_handler, record.
  destruct (negb (validatePlan (body req))); [reflexivity|].
  destruct (redis_get st (objectId req)) as [s|]; [|reflexivity].
  destruct (String.eqb s EmptyString); [reflexivity|].
  destruct (header_is (if_match req) (generateETag s)); reflexivity.
Qed.

Lemma get_handler_record (req : request) (st : store) :
  get_handler req st =
  match record st (objectId req) with
  | None => (Response 404 None (message "Not Found: Plan not found"), st)
  | Some plan =>
      if header_is (if_none_match req) (generateETag plan) then (Response 304 None NoBody, st)
      else match JSON_parse plan with
           | Some doc => (Response 200 (Some (generateETag plan)) (Json doc), st)
           | None => (Response 500 (Some (generateETag plan))
                        (error "Internal Server Error: Could not retrieve plan"), st)
           end
  end.
Proof.
  unfold get_handler, record.
  destruct (redis_get st (objectId req)) as [s|]; [|reflexivity].
  destruct (String.eqb s EmptyString); reflexivity.
Qed.

Lemma patch_handler_record (req : request) (st : store) :
  patch_handler req st =
  match record st (objectId req) with
  | None => (Response 404 None (message "Not Found: Plan does not exist"), st)
  | Some plan =>
      if header_is (if_match req) (generateETag plan) then
        match JSON_parse plan with
        | None => (Response 500 None (error "Internal Server Error: Could not update plan"), st)
        | Some planData =>
            if validatePlan (spread planData (body req)) then
              (Response 200 (Some (generateETag (JSON_stringify (spread planData (body req)))))
                 (message_data "Plan updated" (spread planData (body req))),
               redis_set st (objectId req) (JSON_stringify (spread planData (body req))))
            else (Response 400 None ValidationErrors, st)
        end
      else (Response 412 None (error "Precondition Failed: ETag does not match"), st)
  end.
Proof.
  unfold patch_handler, record.
  destruct (redis_get st (objectId req)) as [s|]; [|reflexivity].
  destruct (String.eqb s EmptyString); [reflexivity|].
  destruct (header_is (if_match req) (generateETag s)); [|reflexivity].
  cbn [negb]. destruct (JSON_parse s) as [p|]; [|reflexivity].
  destruct (validatePlan (spread p (body req))); reflexivity.
Qed.

Lemma delete_handler_record (req : request) (st : store) :
  delete_handler req st =
  match record st (objectId req) with
  | None => (Response 404 None (message "Not Found: Plan not found"), st)
  | Some plan =>
      if header_given (if_none_match req)
         && negb (header_is (if_none_match req) (generateETag plan)) then
        (Response 412 None (error "Precondition Failed: ETag does not match"), st)
      else (Response 204 None NoBody, delete (objectId req) st)
  end.
Proof.
  unfold delete_handler, record, redis_del, redis_get.
  destruct (st !! objectId req) as [s|] eqn:E; [|reflexivity].
  destruct (String.eqb s EmptyString); [reflexivity|].
  destruct (header_given (if_none_match req)
            && negb (header_is (if_none_match req) (generateETag s))); reflexivity.
Qed.

Lemma post_handler_record (req : request) (st : store) (key : string) :
  validatePlan (body req) = true ->
  plan_key (body req) = Some key ->
  post_handler req st =
  match record st key with
  | None =>
      Some (Response 201 (Some (generateETag (JSON_stringify (body req))))
              (message_data "Plan created" (body req)),
            redis_set st key (JSON_stringify (body req)))
  | Some old =>
      match JSON_parse old with
      | Some existing =>
          Some (Response 409 None (message_data "Conflict: Plan already exists" existing), st)
      | None => Some (Response 500 None (error "Internal Server Error: Could not store plan"), st)
      end
  end.
Proof.
  intros Hv Hk. unfold post_handler, record. rewrite Hv, Hk. cbn [negb].
  destruct (redis_get st key) as [s|]; [|reflexivity].
  destruct (String.eqb s EmptyString); reflexivity.
Qed.

(** The POST handler always answers. *)
Lemma post_handler_responds (req : request) (st : store) :
  exists r st', post_handler req st = Some (r, st').
Proof.
  destruct (validatePlan (body req)) eqn:Hv.
  - destruct (validatePlan_key _ Hv) as [key Hk].
    rewrite (post_handler_record _ _ _ Hv Hk).
    destruct (record st key) as [old|]; [destruct (JSON_parse old)|]; eauto.
  - unfold post_handler. rewrite Hv. eauto.
Qed.

(** A request the middleware lets through is answered by the handler; a
    request it refuses is answered 401 or 403 and the store is not
    touched. *)
Lemma route_cases (verify : string -> option string)
      (handler : request -> store -> response * store) (req : request) (st : store) :
  (verifyToken verify req = None /\ route verify handler req st = handler req st) \/
  (exists refusal, verifyToken verify req = Some refusal /\
                   route verify handler req st = (refusal, st) /\
                   (status refusal = 401 \/ status refusal = 403)).
Proof.
  unfold route. destruct (verifyToken verify req) as [r|] eqn:E.
  - right. exists r. split; [reflexivity|]. split; [reflexivity|].
    unfold verifyToken in E. destruct (authorization req) as [h|].
    + destruct (_ || _).
      * inversion E; subst. left; reflexivity.
      * destruct (verify (token_of h)); inversion E; subst. right; reflexivity.
    + inversion E; subst. left; reflexivity.
  - left. split; reflexivity.
Qed.

(** ** Stores the service has written *)

Lemma serialized_empty : serialized ∅.
Proof. intros k plan H. unfold redis_get in H. rewrite lookup_empty in H. discriminate. Qed.

Lemma serialized_set (st : store) (k : string) (d : json) :
  serialized st -> serialized (redis_set st k (JSON_stringify d)).
Proof.
  intros Hs k' plan. unfold redis_get, redis_set.
  destruct (decide (k = k')) as [->|Hne].
  - rewrite lookup_insert_eq. intros H; inversion H; subst. eauto.
  - rewrite lookup_insert_ne by exact Hne. apply Hs.
Qed.

Lemma serialized_delete (st : store) (k : string) : serialized st -> serialized (delete k st).
Proof.
  intros Hs k' plan. unfold redis_get.
  destruct (decide (k = k')) as [->|Hne].
  - rewrite lookup_delete_eq. discriminate.
  - rewrite lookup_delete_ne by exact Hne. apply Hs.
Qed.

(** The handlers keep the store serialized. *)
Lemma handlers_keep_serialized (req : request) (st : store) :
  serialized st ->
  serialized (snd (put_handler req st)) /\
  serialized (snd (patch_handler req st)) /\
  serialized (snd (get_handler req st)) /\
  serialized (snd (delete_handler req st)) /\
  (forall r st', post_handler req st = Some (r, st') -> serialized st').
Proof.
  intros Hs. repeat split.
  - rewrite put_handler_record.
    destruct (negb (validatePlan (body req))); [exact Hs|].
    destruct (record st (objectId req)) as [old|]; [|exact Hs].
    destruct (header_is _ _); [apply serialized_set|]; exact Hs.
  - rewrite patch_handler_record.
    destruct (record st (objectId req)) as [old|]; [|exact Hs].
    destruct (header_is _ _); [|exact Hs].
    destruct (JSON_parse old) as [p|]; [|exact Hs].
    destruct (validatePlan _); [apply serialized_set|]; exact Hs.
  - rewrite get_handler_record.
    destruct (record st (objectId req)) as [old|]; [|exact Hs].
    destruct (header_is _ _); [exact Hs|]. destruct (JSON_parse old); exact Hs.
  - rewrite delete_handler_record.
    destruct (record st (objectId req)) as [old|]; [|exact Hs].
    destruct (_ && _); [exact Hs | apply serialized_delete; exact Hs].
  - intros r st'. unfold post_handler.
    destruct (negb (validatePlan (body req))); [intros H; inversion H; subst; exact Hs|].
    destruct (plan_key (body req)) as [key|]; [|discriminate].
    destruct (redis_get st key) as [old|].
    + destruct (String.eqb old EmptyString).
      * intros H; inversion H; subst. apply serialized_set. exact Hs.
      * destruct (JSON_parse old); intros H; inversion H; subst; exact Hs.
    + intros H; inversion H; subst. apply serialized_set. exact Hs.
Qed.


(** ** Tags collide *)

Lemma add32_word (x y : Z) : word32 (SHA1.add32 x y).
Proof.
  unfold SHA1.add32, word32. change SHA1.mask32 with (Z.ones 32).
  rewrite Z.land_ones by lia. change (2 ^ 32) with 4294967296.
  apply Z.mod_pos_bound. lia.
Qed.

Lemma compress_ok (h : SHA1.state) (block : list Z) : state_ok (SHA1.compress h block).
Proof. unfold SHA1.compress, state_ok. cbn [SHA1.ha SHA1.hb SHA1.hc SHA1.hd SHA1.he].
  repeat split; apply add32_word. Qed.

Lemma blocks_ok (fuel : nat) (h : SHA1.state) (ws : list Z) :
  state_ok h -> state_ok (SHA1.blocks fuel h ws).
Proof.
  revert h ws. induction fuel as [|f IH]; intros h ws Hh; [exact Hh|].
  cbn [SHA1.blocks]. destruct ws as [|w ws]; [exact Hh|]. apply IH, compress_ok.
Qed.

Lemma digest_ok (msg : list Z) : state_ok (SHA1.digest msg).
Proof.
  unfold SHA1.digest. apply blocks_ok. unfold state_ok, word32, SHA1.init.
  cbn [SHA1.ha SHA1.hb SHA1.hc SHA1.hd SHA1.he]. lia.
Qed.

Lemma state_code_bound (s : SHA1.state) :
  state_ok s -> (state_code s < 1461501637330902918203684832716283019655932542976)%N.
Proof.
  unfold state_ok, word32, state_code. destruct s as [a b c d e].
  cbn [SHA1.ha SHA1.hb SHA1.hc SHA1.hd SHA1.he]. intros (Ha & Hb & Hc & Hd & He). lia.
Qed.

Lemma state_code_inj (s t : SHA1.state) :
  state_ok s -> state_ok t -> state_code s = state_code t -> s = t.
Proof.
  unfold state_ok, word32, state_code. destruct s as [a b c d e], t as [a' b' c' d' e'].
  cbn [SHA1.ha SHA1.hb SHA1.hc SHA1.hd SHA1.he].
  intros (Ha & Hb & Hc & Hd & He) (Ha' & Hb' & Hc' & Hd' & He') H.
  apply Z2N.inj in H; [|lia|lia].
  assert (a = a') by lia. assert (b = b') by lia. assert (c = c') by lia.
  assert (d = d') by lia. assert (e = e') by lia. congruence.
Qed.

(** A function from [0..n] to numbers below [n] takes some value twice. *)
Lemma pigeonhole (n : N) :
  forall g : N -> N,
    (forall i, (i <= n)%N -> (g i < n)%N) ->
    exists i j, (i < j <= n)%N /\ g i = g j.
Proof.
  induction n as [|n IH] using N.peano_ind; intros g Hg.
  - specialize (Hg 0%N ltac:(lia)). lia.
  - destruct (N.eq_dec n 0%N) as [->|Hn].
    { exists 0%N, 1%N. split; [lia|].
      pose proof (Hg 0%N ltac:(lia)). pose proof (Hg 1%N ltac:(lia)). lia. }
    pose (last := g (N.succ n)).
    pose (g' := fun i => if (g i =? n)%N then (if (last =? n)%N then 0%N else last) else g i).
    destruct (IH g') as (i & j & Hij & E).
    { intros i Hi. unfold g'. pose proof (Hg i ltac:(lia)).
      pose proof (Hg (N.succ n) ltac:(lia)). fold last in H0.
      destruct (N.eqb_spec (g i) n); [destruct (N.eqb_spec last n)|]; lia. }
    unfold g' in E.
    destruct (N.eqb_spec (g i) n) as [Ei|Ei], (N.eqb_spec (g j) n) as [Ej|Ej].
    + exists i, j. split; [lia | congruence].
    + destruct (N.eqb_spec last n) as [El|El].
      * exists i, (N.succ n). split; [lia|]. unfold last in El. congruence.
      * exists j, (N.succ n). split; [lia|]. unfold last in E. congruence.
    + destruct (N.eqb_spec last n) as [El|El].
      * exists j, (N.succ n). split; [lia|]. unfold last in El. congruence.
      * exists i, (N.succ n). split; [lia|]. unfold last in E. congruence.
    + exists i, j. split; [lia | exact E].
Qed.

Lemma numbered_plan_valid (i : N) :
  validatePlan (numbered_plan i) = true /\ js_wf (numbered_plan i) = true /\
  plan_key (numbered_plan i) = Some "k1".
Proof. repeat split; reflexivity. Qed.

Lemma numbered_plan_inj (i j : N) :
  JSON_stringify (numbered_plan i) = JSON_stringify (numbered_plan j) -> i = j.
Proof.
  intros E. apply (f_equal JSON_parse) in E.
  rewrite !JSON_parse_stringify in E by apply numbered_plan_valid.
  unfold numbered_plan, sample_plan in E. inversion E as [H].
  apply string_of_N_inj. exact H.
Qed.

(** Two plans that pass the schema, with different serializations and the
    same tag: there are more plans than digests. *)
Lemma tag_collision :
  exists old new : json,
    validatePlan old = true /\ validatePlan new = true /\
    plan_key old = Some "k1" /\ plan_key new = Some "k1" /\
    JSON_stringify new <> JSON_stringify old /\
    generateETag (JSON_stringify new) = generateETag (JSON_stringify old).
Proof.
  destruct (pigeonhole 1461501637330902918203684832716283019655932542976
              (fun i => state_code
                          (SHA1.digest (SHA1.bytes_of (JSON_stringify (numbered_plan i))))))
    as (i & j & Hij & E).
  { intros i _. apply state_code_bound, digest_ok. }
  apply state_code_inj in E; [|apply digest_ok|apply digest_ok].
  exists (numbered_plan i), (numbered_plan j).
  repeat split; try apply numbered_plan_valid.
  - intros H. apply numbered_plan_inj in H. lia.
  - unfold generateETag, SHA1.sha1_hex. rewrite E. reflexivity.
Qed.

(** ** Stores the service gets to *)

Lemma well_stored_empty : well_stored ∅.
Proof. intros k plan H. unfold redis_get in H. rewrite lookup_empty in H. discriminate. Qed.

Lemma well_stored_set (st : store) (k : string) (d : json) :
  js_wf d = true -> validatePlan d = true ->
  well_stored st -> well_stored (redis_set st k (JSON_stringify d)).
Proof.
  intros Hwf Hv Hs k' plan. unfold redis_get, redis_set.
  destruct (decide (k = k')) as [->|Hne].
  - rewrite lookup_insert_eq. intros H; inversion H; subst. exists d. auto.
  - rewrite lookup_insert_ne by exact Hne. apply Hs.
Qed.

Lemma well_stored_delete (st : store) (k : string) :
  well_stored st -> well_stored (delete k st).
Proof.
  intros Hs k' plan. unfold redis_get.
  destruct (decide (k = k')) as [->|Hne].
  - rewrite lookup_delete_eq. discriminate.
  - rewrite lookup_delete_ne by exact Hne. apply Hs.
Qed.

Lemma well_stored_record (st : store) (k plan : string) :
  well_stored st -> record st k = Some plan ->
  exists d, js_wf d = true /\ validatePlan d = true /\ plan = JSON_stringify d /\
            JSON_parse plan = Some d.
Proof.
  intros Hs Hr. apply record_Some in Hr as [Hg _].
  destruct (Hs _ _ Hg) as (d & Hwf & Hv & ->).
  exists d. repeat split; try assumption. apply JSON_parse_stringify. exact Hwf.
Qed.

Lemma step_well_stored (st st' : store) : step st st' -> well_stored st -> well_stored st'.
Proof.
  intros Hstep Hs. destruct Hstep as [req st r st' Hwf Hpost|req st Hwf|req st Hwf|req st|req st].
  - destruct (validatePlan (body req)) eqn:Hv.
    + destruct (validatePlan_key _ Hv) as [key Hk].
      rewrite (post_handler_record _ _ _ Hv Hk) in Hpost.
      destruct (record st key) as [old|].
      * destruct (JSON_parse old); inversion Hpost; subst; exact Hs.
      * inversion Hpost; subst. apply well_stored_set; assumption.
    + unfold post_handler in Hpost. rewrite Hv in Hpost. cbn in Hpost.
      inversion Hpost; subst. exact Hs.
  - rewrite put_handler_record.
    destruct (validatePlan (body req)) eqn:Hv; cbn [negb]; [|exact Hs].
    destruct (record st (objectId req)); [|exact Hs].
    destruct (header_is _ _); [|exact Hs].
    apply well_stored_set; assumption.
  - rewrite patch_handler_record.
    destruct (record st (objectId req)) as [old|] eqn:Hr; [|exact Hs].
    destruct (header_is _ _); [|exact Hs].
    destruct (JSON_parse old) as [p|] eqn:Hp; [|exact Hs].
    destruct (validatePlan (spread p (body req))) eqn:Hv; [|exact Hs].
    apply well_stored_set; [|exact Hv|exact Hs].
    apply spread_wf; [exact (JSON_parse_wf _ _ Hp) | exact Hwf].
  - rewrite get_handler_record.
    destruct (record st (objectId req)) as [old|]; [|exact Hs].
    destruct (header_is _ _); [exact Hs|]. destruct (JSON_parse old); exact Hs.
  - rewrite delete_handler_record.
    destruct (record st (objectId req)) as [old|]; [|exact Hs].
    destruct (_ && _); [exact Hs | apply well_stored_delete; exact Hs].
Qed.

Lemma reachable_well_stored (st : store) : reachable st -> well_stored st.
Proof.
  induction 1 as [|st st' _ IH Hstep]; [apply well_stored_empty|].
  exact (step_well_stored _ _ Hstep IH).
Qed.

(** ** The middleware *)

Lemma until_space_token (t rest : string) :
  no_space t = true -> (rest = EmptyString \/ exists r, rest = String " " r) ->
  until_space (t ++ rest) = t.
Proof.
  intros Ht Hrest. induction t as [|c t IH].
  - destruct Hrest as [->|[r ->]]; reflexivity.
  - cbn [no_space] in Ht. apply andb_prop in Ht as [Hc Ht].
    rewrite append_cons. cbn [until_space].
    destruct (Ascii.eqb c " "); [discriminate|]. rewrite (IH Ht). reflexivity.
Qed.

Lemma token_of_bearer (t rest : string) :
  no_space t = true -> (rest = EmptyString \/ exists r, rest = String " " r) ->
  token_of ("Bearer " ++ t ++ rest) = t.
Proof. intros Ht Hrest. unfold token_of. cbn. apply until_space_token; assumption. Qed.

(** ** The tag is forty hexadecimal digits *)

Lemma hex_digit_is_hex (x : Z) : is_hex (SHA1.hex_digit (Z.land x 15)) = true.
Proof.
  change 15 with (Z.ones 4). rewrite Z.land_ones by lia.
  pose proof (Z.mod_pos_bound x (2 ^ 4) ltac:(lia)) as Hb.
  set (d := x mod 2 ^ 4) in *.
  assert (H : d = 0 \/ d = 1 \/ d = 2 \/ d = 3 \/ d = 4 \/ d = 5 \/ d = 6 \/ d = 7 \/
              d = 8 \/ d = 9 \/ d = 10 \/ d = 11 \/ d = 12 \/ d = 13 \/ d = 14 \/ d = 15)
    by (change (2 ^ 4) with 16 in Hb; lia).
  repeat (destruct H as [->|H]; [reflexivity|]). rewrite H. reflexivity.
Qed.

Lemma hex_of_spec (n : nat) (x : Z) (acc : string) :
  String.length (SHA1.hex_of n x acc) = (n + String.length acc)%nat /\
  all_hex (SHA1.hex_of n x acc) = all_hex acc.
Proof.
  revert x acc. induction n as [|n IH]; intros x acc; [split; reflexivity|].
  cbn [SHA1.hex_of]. destruct (IH (Z.shiftr x 4) (String (SHA1.hex_digit (Z.land x 15)) acc))
    as [Hl Hh].
  rewrite Hl, Hh. cbn [String.length all_hex]. rewrite hex_digit_is_hex. split; [lia|reflexivity].
Qed.

Lemma generateETag_hex40 (data : string) : hex40 (generateETag data) = true.
Proof.
  unfold hex40, generateETag, SHA1.sha1_hex, SHA1.hex.
  set (s := SHA1.digest _).
  repeat match goal with
  | |- context [SHA1.hex_of 8 ?x ?acc] =>
      let Hl := fresh "Hl" in let Hh := fresh "Hh" in
      destruct (hex_of_spec 8 x acc) as [Hl Hh]; rewrite ?Hl, ?Hh; clear Hl Hh
  end.
  reflexivity.
Qed.

(** ** What Express sends *)

Lemma weak_etag_vectors :
  weak_etag EmptyString = "W/" ++ in_quotes "0-2jmj7l5rSw0yVb/vlWAYkK/YBwk" /\
  weak_etag "Hello World" = "W/" ++ in_quotes "b-Ck1VqNd45QIvq3AZd8XYQLvEhtA".
Proof. vm_compute. split; reflexivity. Qed.

Lemma generateETag_nonempty (data : string) : generateETag data <> EmptyString.
Proof.
  intros E. pose proof (generateETag_hex40 data) as H. rewrite E in H. discriminate.
Qed.

Lemma header_given_tag (data : string) : header_given (Some (generateETag data)) = true.
Proof.
  cbn [header_given]. destruct (String.eqb_spec (generateETag data) EmptyString) as [E|];
    [|reflexivity].
  exfalso. exact (generateETag_nonempty _ E).
Qed.



Lemma res_send_end (errors : string) (m : method) (req : request) (r : response) :
  sent r = NoBody -> res_send errors m req r = r.
Proof. intros H. unfold res_send. rewrite H. reflexivity. Qed.

Lemma req_fresh_other (m : method) (req : request) (s : Z) (etag : option string) :
  m <> GET -> req_fresh m req s etag = false.
Proof. destruct m; [contradiction| | | |]; reflexivity. Qed.

Lemma req_fresh_error (m : method) (req : request) (s : Z) (etag : option string) :
  300 <= s -> s <> 304 -> req_fresh m req s etag = false.
Proof.
  intros H1 H2. destruct m; try reflexivity. cbn [req_fresh].
  destruct (Z.ltb_spec s 300); [lia|]. destruct (Z.eqb_spec s 304); [contradiction|].
  rewrite andb_false_r. reflexivity.
Qed.

(** An answer to another method than GET keeps its status. *)
Lemma res_send_status (errors : string) (m : method) (req : request) (r : response) :
  m <> GET -> status (res_send errors m req r) = status r.
Proof.
  intros Hm. unfold res_send. destruct (sent r); [reflexivity| |];
    rewrite (req_fresh_other _ _ _ _ Hm); destruct (_ || _); reflexivity.
Qed.

(** An answer on which the handler has set the tag goes out as it is, to
    another method than GET. *)
Lemma res_send_tagged (errors : string) (m : method) (req : request) (s : Z) (t : string)
      (p : payload) :
  m <> GET -> t <> EmptyString -> s <> 204 -> s <> 304 ->
  res_send errors m req (Response s (Some t) p) = Response s (Some t) p.
Proof.
  intros Hm Ht H1 H2. unfold res_send. cbn [sent status ETag header_given].
  destruct (String.eqb_spec t EmptyString); [contradiction|]. cbn [negb].
  rewrite (req_fresh_other _ _ _ _ Hm).
  destruct (Z.eqb_spec s 204); [contradiction|]. destruct (Z.eqb_spec s 304); [contradiction|].
  destruct p; reflexivity.
Qed.

(** An answer in JSON on which the handler has set no tag leaves with the
    weak tag of its text. *)
Lemma res_send_untagged (errors : string) (m : method) (req : request) (s : Z) (j : json) :
  m <> GET -> s <> 204 -> s <> 304 ->
  res_send errors m req (Response s None (Json j))
  = Response s (Some (weak_etag (JSON_stringify j))) (Json j).
Proof.
  intros Hm H1 H2. unfold res_send. cbn [sent status ETag header_given body_text].
  rewrite (req_fresh_other _ _ _ _ Hm).
  destruct (Z.eqb_spec s 204); [contradiction|]. destruct (Z.eqb_spec s 304); [contradiction|].
  reflexivity.
Qed.

(** An error answer in JSON leaves with the weak tag of its text. *)
Lemma res_send_error (errors : string) (m : method) (req : request) (s : Z) (j : json) :
  300 <= s -> s <> 304 ->
  res_send errors m req (Response s None (Json j))
  = Response s (Some (weak_etag (JSON_stringify j))) (Json j).
Proof.
  intros H1 H2. unfold res_send. cbn [sent status ETag header_given body_text].
  rewrite (req_fresh_error _ _ _ _ H1 H2).
  destruct (Z.eqb_spec s 204); [lia|]. destruct (Z.eqb_spec s 304); [contradiction|].
  reflexivity.
Qed.

(** The answer to a GET on which the handler has set the tag. *)
Lemma res_send_get_200 (errors : string) (req : request) (t : string) (j : json) :
  t <> EmptyString ->
  res_send errors GET req (Response 200 (Some t) (Json j))
  = if fresh (if_none_match req) (Some t) then Response 304 (Some t) NoBody
    else Response 200 (Some t) (Json j).
Proof.
  intros Ht. unfold res_send. cbn [sent status ETag header_given].
  destruct (String.eqb_spec t EmptyString); [contradiction|]. cbn [negb req_fresh].
  change ((200 <=? 200) && (200 <? 300) || (200 =? 304)) with true. cbn [andb].
  destruct (fresh (if_none_match req) (Some t)); reflexivity.
Qed.

Lemma is_hex_not_separator (c : ascii) :
  is_hex c = true -> Ascii.eqb c " " = false /\ Ascii.eqb c "," = false.
Proof. destruct c as [[] [] [] [] [] [] [] []]; cbn; intros H; try discriminate; auto. Qed.

Lemma token_list_plain (s tok : string) :
  all_hex s = true -> token_list s tok EmptyString = [tok ++ s].
Proof.
  revert tok. induction s as [|c s IH]; intros tok H.
  - cbn [token_list]. rewrite append_empty_r. reflexivity.
  - cbn [all_hex] in H. apply andb_prop in H as [Hc Hs].
    destruct (is_hex_not_separator c Hc) as [H1 H2].
    cbn [token_list]. rewrite H1, H2.
    change (EmptyString ++ String c EmptyString) with (String c EmptyString).
    rewrite (IH _ Hs), append_assoc. reflexivity.
Qed.

(** The tag itself in [If-None-Match] is fresh. *)
Lemma fresh_same_tag (data : string) :
  fresh (Some (generateETag data)) (Some (generateETag data)) = true.
Proof.
  pose proof (generateETag_hex40 data) as H. unfold hex40 in H.
  apply andb_prop in H as [Hl Hh].
  unfold fresh. destruct (String.eqb_spec (generateETag data) EmptyString) as [E|_].
  { exfalso. exact (generateETag_nonempty _ E). }
  destruct (String.eqb_spec (generateETag data) "*") as [E|_].
  { reflexivity. }
  unfold parseTokenList. rewrite (token_list_plain _ _ Hh).
  change (EmptyString ++ generateETag data) with (generateETag data).
  cbn [existsb]. unfold etag_matches. rewrite String.eqb_refl. reflexivity.
Qed.

Lemma fresh_star (etag : option string) : fresh (Some "*") etag = true.
Proof. reflexivity. Qed.


(** The GET route, by the record it finds. *)
Lemma app_get_record (errors : string) (req : request) (st : store) :
  app_get errors req st =
  match record st (objectId req) with
  | None =>
      (Response 404 (Some (weak_etag (JSON_stringify
                                        (JObj [("message", JStr "Not Found: Plan not found")]))))
         (message "Not Found: Plan not found"), st)
  | Some plan =>
      if header_is (if_none_match req) (generateETag plan) then (Response 304 None NoBody, st)
      else match JSON_parse plan with
           | Some doc =>
               if fresh (if_none_match req) (Some (generateETag plan)) then
                 (Response 304 (Some (generateETag plan)) NoBody, st)
               else (Response 200 (Some (generateETag plan)) (Json doc), st)
           | None => (Response 500 (Some (generateETag plan))
                        (error "Internal Server Error: Could not retrieve plan"), st)
           end
  end.
Proof.
  unfold app_get. rewrite get_handler_record.
  destruct (record st (objectId req)) as [plan|].
  - destruct (header_is _ _); [reflexivity|].
    destruct (JSON_parse plan) as [doc|]; cbn [fst snd].
    + rewrite res_send_get_200 by apply generateETag_nonempty.
      destruct (fresh _ _); reflexivity.
    + unfold error. unfold res_send. cbn [sent status ETag].
      rewrite header_given_tag, req_fresh_error by lia. reflexivity.
  - cbn [fst snd]. unfold message. rewrite res_send_error by lia. reflexivity.
Qed.

Lemma is_success_put (req : request) (st : store) :
  status (fst (put_handler req st)) = 200 ->
  validatePlan (body req) = true /\
  (exists old, record st (objectId req) = Some old /\
               if_match req = Some (generateETag old)) /\
  put_handler req st =
    (Response 200 (Some (generateETag (JSON_stringify (body req))))
       (message_data "Plan replaced" (body req)),
     redis_set st (objectId req) (JSON_stringify (body req))).
Proof.
  rewrite put_handler_record. destruct (validatePlan (body req)); cbn [negb]; [|discriminate].
  destruct (record st (objectId req)) as [old|]; [|discriminate].
  destruct (header_is _ _) eqn:E; [|discriminate]. intros _.
  apply header_is_iff in E. split; [reflexivity|]. split; [eauto | reflexivity].
Qed.

Lemma is_success_patch (req : request) (st : store) :
  status (fst (patch_handler req st)) = 200 ->
  exists old p,
    record st (objectId req) = Some old /\ if_match req = Some (generateETag old) /\
    JSON_parse old = Some p /\ validatePlan (spread p (body req)) = true /\
    patch_handler req st =
      (Response 200 (Some (generateETag (JSON_stringify (spread p (body req)))))
         (message_data "Plan updated" (spread p (body req))),
       redis_set st (objectId req) (JSON_stringify (spread p (body req)))).
Proof.
  rewrite patch_handler_record.
  destruct (record st (objectId req)) as [old|]; [|discriminate].
  destruct (header_is _ _) eqn:E; [|discriminate].
  destruct (JSON_parse old) as [p|] eqn:Hp; [|discriminate].
  destruct (validatePlan _) eqn:Hv; [|discriminate]. intros _.
  apply header_is_iff in E. exists old, p. repeat split; auto.
Qed.

(** The routes other than GET answer with the status of the handler and
    leave the store the handler leaves; a success goes out as the handler
    has built it. *)
Lemma app_put_status (errors : string) (req : request) (st : store) :
  status (fst (app_put errors req st)) = status (fst (put_handler req st)) /\
  snd (app_put errors req st) = snd (put_handler req st).
Proof. unfold app_put. cbn [fst snd]. rewrite res_send_status by discriminate. auto. Qed.

Lemma app_patch_status (errors : string) (req : request) (st : store) :
  status (fst (app_patch errors req st)) = status (fst (patch_handler req st)) /\
  snd (app_patch errors req st) = snd (patch_handler req st).
Proof. unfold app_patch. cbn [fst snd]. rewrite res_send_status by discriminate. auto. Qed.

Lemma app_delete_handler (errors : string) (req : request) (st : store) :
  status (fst (app_delete errors req st)) = status (fst (delete_handler req st)) /\
  snd (app_delete errors req st) = snd (delete_handler req st).
Proof. unfold app_delete. cbn [fst snd]. rewrite res_send_status by discriminate. auto. Qed.

Lemma app_put_200 (errors : string) (req : request) (st : store) :
  status (fst (put_handler req st)) = 200 -> app_put errors req st = put_handler req st.
Proof.
  intros H. destruct (is_success_put _ _ H) as (_ & _ & E). unfold app_put. rewrite E.
  cbn [fst snd]. unfold message_data.
  rewrite res_send_tagged; [reflexivity | discriminate | apply generateETag_nonempty | lia | lia].
Qed.

Lemma app_patch_200 (errors : string) (req : request) (st : store) :
  status (fst (patch_handler req st)) = 200 -> app_patch errors req st = patch_handler req st.
Proof.
  intros H. destruct (is_success_patch _ _ H) as (old & p & _ & _ & _ & _ & E).
  unfold app_patch. rewrite E. cbn [fst snd]. unfold message_data.
  rewrite res_send_tagged; [reflexivity | discriminate | apply generateETag_nonempty | lia | lia].
Qed.

Lemma app_post_handler (errors : string) (req : request) (st : store) (r : response)
      (st' : store) :
  app_post errors req st = Some (r, st') ->
  exists r0, post_handler req st = Some (r0, st') /\ r = res_send errors POST req r0 /\
             status r = status r0.
Proof.
  unfold app_post. destruct (post_handler req st) as [[r0 st0]|]; [|discriminate].
  intros H. exists r0.
  assert (E1 : st0 = st') by congruence. assert (E2 : r = res_send errors POST req r0) by congruence.
  subst. split; [reflexivity|]. split; [reflexivity|]. apply res_send_status. discriminate.
Qed.

(** A POST answered 201. *)
Lemma app_post_201 (errors : string) (req : request) (st : store) (r : response) (st' : store)
      (key : string) :
  app_post errors req st = Some (r, st') -> status r = 201 ->
  plan_key (body req) = Some key ->
  validatePlan (body req) = true /\ record st key = None /\
  r = Response 201 (Some (generateETag (JSON_stringify (body req))))
        (message_data "Plan created" (body req)) /\
  st' = redis_set st key (JSON_stringify (body req)).
Proof.
  intros Hp Hs Hk. destruct (app_post_handler _ _ _ _ _ Hp) as (r0 & H0 & Hr & Hst).
  rewrite Hst in Hs. clear Hst.
  destruct (validatePlan (body req)) eqn:Hv.
  - rewrite (post_handler_record _ _ _ Hv Hk) in H0.
    destruct (record st key) as [old|].
    + exfalso. apply (f_equal (option_map (fun a => status (fst a)))) in H0.
      destruct (JSON_parse old); cbn [option_map fst status] in H0; congruence.
    + assert (E1 : r0 = Response 201 (Some (generateETag (JSON_stringify (body req))))
                          (message_data "Plan created" (body req))) by congruence.
      assert (E2 : st' = redis_set st key (JSON_stringify (body req))) by congruence.
      subst r0. split; [reflexivity|]. split; [reflexivity|]. split; [|exact E2].
      rewrite Hr. unfold message_data.
      apply res_send_tagged; [discriminate | apply generateETag_nonempty | lia | lia].
  - exfalso. unfold post_handler in H0. rewrite Hv in H0. cbn [negb] in H0.
    apply (f_equal (option_map (fun a => status (fst a)))) in H0.
    cbn [option_map fst status] in H0. congruence.
Qed.

(** The record under [k] once a route has answered 200 or 201 with an
    [ETag]. *)
Lemma answers_tag_record (errors : string) (st : store) (k : string) (r : response)
      (st' : store) (T : string) :
  answers errors st k r st' -> status r = 200 \/ status r = 201 -> ETag r = Some T ->
  exists plan, record st' k = Some plan /\ generateETag plan = T.
Proof.
  intros [req Hp Hk|req Hp Hk|req Hp Hk|req Hp Hk|req Hp Hk] Hs.
  - destruct (app_post_handler _ _ _ _ _ Hp) as (r0 & H0 & _ & Hst).
    assert (H201 : status r = 201).
    { destruct Hs as [Hs|Hs]; [|exact Hs]. exfalso. rewrite Hst in Hs.
      destruct (validatePlan (body req)) eqn:Hv.
      - rewrite (post_handler_record _ _ _ Hv Hk) in H0.
        apply (f_equal (option_map (fun a => status (fst a)))) in H0.
        destruct (record st k) as [old|]; [destruct (JSON_parse old)|];
          cbn [option_map fst status] in H0; congruence.
      - unfold post_handler in H0. rewrite Hv in H0. cbn [negb] in H0.
        apply (f_equal (option_map (fun a => status (fst a)))) in H0.
        cbn [option_map fst status] in H0. congruence. }
    destruct (app_post_201 _ _ _ _ _ _ Hp H201 Hk) as (_ & _ & -> & ->).
    cbn [ETag]. intros HT. exists (JSON_stringify (body req)).
    split; [apply record_set | congruence].
  - subst k. assert (Er : r = fst (app_put errors req st)) by (rewrite Hp; reflexivity).
    assert (Es : st' = snd (app_put errors req st)) by (rewrite Hp; reflexivity).
    assert (H200 : status (fst (put_handler req st)) = 200).
    { rewrite <- (proj1 (app_put_status errors req st)), <- Er.
      destruct Hs as [Hs|Hs]; [exact Hs|]. exfalso. rewrite Er in Hs.
      rewrite (proj1 (app_put_status errors req st)), put_handler_record in Hs.
      destruct (negb _); [discriminate|].
      destruct (record st (objectId req)); [|discriminate].
      destruct (header_is _ _); discriminate. }
    rewrite (app_put_200 _ _ _ H200) in Er, Es.
    destruct (is_success_put _ _ H200) as (_ & _ & E). rewrite E in Er, Es.
    cbn [fst snd] in Er, Es. subst r st'. cbn [ETag]. intros HT.
    exists (JSON_stringify (body req)). split; [apply record_set | congruence].
  - subst k. assert (Er : r = fst (app_patch errors req st)) by (rewrite Hp; reflexivity).
    assert (Es : st' = snd (app_patch errors req st)) by (rewrite Hp; reflexivity).
    assert (H200 : status (fst (patch_handler req st)) = 200).
    { rewrite <- (proj1 (app_patch_status errors req st)), <- Er.
      destruct Hs as [Hs|Hs]; [exact Hs|]. exfalso. rewrite Er in Hs.
      rewrite (proj1 (app_patch_status errors req st)), patch_handler_record in Hs.
      destruct (record st (objectId req)) as [old|]; [|discriminate].
      destruct (header_is _ _); [|discriminate].
      destruct (JSON_parse old); [|discriminate].
      destruct (validatePlan _); discriminate. }
    rewrite (app_patch_200 _ _ _ H200) in Er, Es.
    destruct (is_success_patch _ _ H200) as (old & p & _ & _ & _ & _ & E).
    rewrite E in Er, Es. cbn [fst snd] in Er, Es. subst r st'. cbn [ETag]. intros HT.
    exists (JSON_stringify (spread p (body req))). split; [apply record_set | congruence].
  - subst k. assert (Er : r = fst (app_get errors req st)) by (rewrite Hp; reflexivity).
    assert (Es : st' = snd (app_get errors req st)) by (rewrite Hp; reflexivity).
    subst r st'. clear Hp. revert Hs. rewrite app_get_record.
    destruct (record st (objectId req)) as [old|] eqn:Hr;
      [|cbn [fst status]; intros [H|H]; discriminate].
    destruct (header_is _ _); [cbn [fst status]; intros [H|H]; discriminate|].
    destruct (JSON_parse old);
      [destruct (fresh _ _)|]; cbn [fst snd status ETag]; intros [H|H]; try discriminate.
    intros HT. exists old. split; [exact Hr | congruence].
  - subst k. assert (Er : r = fst (app_delete errors req st)) by (rewrite Hp; reflexivity).
    subst r. exfalso. rewrite (proj1 (app_delete_handler errors req st)) in Hs.
    rewrite delete_handler_record in Hs.
    destruct (record st (objectId req)); [destruct (_ && _)|];
      cbn [fst status] in Hs; destruct Hs; discriminate.
Qed.

(** ** What the schema accepts *)

Lemma check_property (f : schema -> json -> bool) (additional : bool)
      (ps : list (string * schema)) (kv : string * json) :
  (fix check (ps : list (string * schema)) : bool :=
     match ps with
     | [] => additional
     | (k, s) :: r => if String.eqb (fst kv) k then f s (snd kv) else check r
     end) ps
  = match property_schema ps (fst kv) with
    | Some s => f s (snd kv)
    | None => additional
    end.
Proof.
  induction ps as [|[k s] r IH]; [reflexivity|]. cbn [property_schema].
  destruct (String.eqb (fst kv) k); [reflexivity | exact IH].
Qed.

Lemma property_schema_In (ps : list (string * schema)) (k : string) (s : schema) :
  property_schema ps k = Some s -> In k (map fst ps).
Proof.
  induction ps as [|[k' s'] r IH]; [discriminate|]. cbn [property_schema map fst].
  destruct (String.eqb_spec k k') as [->|Hne]; [left; reflexivity | right; auto].
Qed.

(** An object passes an object schema: the required keys are there, and
    every property passes the schema of its key, or is allowed as an
    additional one. *)
Lemma validate_object (ps : list (string * schema)) (required : list string)
      (additional : bool) (props : list (string * json)) :
  validate (SObject ps required additional) (JObj props) = true ->
  (forall k, In k required -> has_prop props k = true) /\
  (forall k v, get_prop props k = Some v ->
     match property_schema ps k with
     | Some s => validate s v = true
     | None => additional = true
     end).
Proof.
  cbn [validate]. intros H. apply andb_prop in H as [Hreq Hall].
  rewrite forallb_forall in Hreq, Hall. split; [exact Hreq|].
  intros k v Hget. pose proof (Hall _ (get_prop_In _ _ _ Hget)) as Hc.
  rewrite (check_property validate) in Hc. cbn [fst snd] in Hc.
  destruct (property_schema ps k); exact Hc.
Qed.

Lemma validatePlan_keys (props : list (string * json)) (k : string) :
  validatePlan (JObj props) = true -> (has_prop props k = true <-> In k plan_keys).
Proof.
  intros Hv. apply validate_object in Hv as [Hreq Hall]. split.
  - intros Hk. apply has_prop_get in Hk as [v Hget]. specialize (Hall k v Hget).
    destruct (property_schema _ k) as [s|] eqn:E; [|discriminate].
    exact (property_schema_In _ _ _ E).
  - apply Hreq.
Qed.

Lemma has_prop_set_props (kvs props : list (string * json)) (k : string) :
  has_prop props k = true \/ In k (map fst kvs) -> has_prop (set_props props kvs) k = true.
Proof.
  revert props. induction kvs as [|[k' v'] r IH]; intros props H.
  - destruct H as [H|[]]. exact H.
  - unfold set_props. simpl. fold (set_props (set_prop props k' v') r). apply IH.
    destruct (String.eqb_spec k k') as [->|Hne].
    + left. unfold has_prop. rewrite get_prop_set_prop, String.eqb_refl. reflexivity.
    + destruct H as [H|[E|H]]; [left | cbn in E; congruence | right; exact H].
      unfold has_prop in *. rewrite get_prop_set_prop.
      destruct (String.eqb_spec k k'); [congruence | exact H].
Qed.

(** ** Base64 is one-to-one *)

Lemma base64_vectors :
  Base64.encode "" = "" /\ Base64.encode "f" = "Zg==" /\ Base64.encode "fo" = "Zm8=" /\
  Base64.encode "foo" = "Zm9v" /\ Base64.encode "foob" = "Zm9vYg==" /\
  Base64.encode "fooba" = "Zm9vYmE=" /\ Base64.encode "foobar" = "Zm9vYmFy".
Proof. vm_compute. repeat split; reflexivity. Qed.

Lemma below_64 (i : N) : (i < 64)%N -> In i (map N.of_nat (seq 0 64)).
Proof.
  intros H. apply in_map_iff. exists (N.to_nat i). split; [lia|]. apply in_seq. lia.
Qed.

Lemma base64_digit_index (i : N) :
  (i < 64)%N -> Base64.index_in (Base64.digit i) Base64.alphabet = i.
Proof.
  intros H.
  assert (A : forallb (fun i => (Base64.index_in (Base64.digit i) Base64.alphabet =? i)%N)
                      (map N.of_nat (seq 0 64)) = true) by (vm_compute; reflexivity).
  rewrite forallb_forall in A. apply N.eqb_eq, A, below_64, H.
Qed.

Lemma base64_digit_inj (i j : N) :
  (i < 64)%N -> (j < 64)%N -> Base64.digit i = Base64.digit j -> i = j.
Proof.
  intros Hi Hj E. rewrite <- (base64_digit_index i Hi), <- (base64_digit_index j Hj), E.
  reflexivity.
Qed.

Lemma base64_digit_not_padding (i : N) : (i < 64)%N -> Base64.digit i <> Base64.padding.
Proof.
  intros H.
  assert (A : forallb (fun i => negb (Ascii.eqb (Base64.digit i) Base64.padding))
                      (map N.of_nat (seq 0 64)) = true) by (vm_compute; reflexivity).
  rewrite forallb_forall in A. specialize (A i (below_64 i H)).
  intros E. rewrite E, Ascii.eqb_refl in A. discriminate.
Qed.

Lemma code_bound (c : ascii) : (code c < 256)%N.
Proof. apply N_ascii_bounded. Qed.

Lemma code_inj (a b : ascii) : code a = code b -> a = b.
Proof.
  intros E. rewrite <- (ascii_N_embedding a), <- (ascii_N_embedding b).
  unfold code in E. rewrite E. reflexivity.
Qed.

Ltac euclid x d :=
  let q := fresh "q" in
  let r := fresh "r" in
  pose proof (N.div_mod x d ltac:(lia));
  pose proof (N.mod_lt x d ltac:(lia));
  set (q := (x / d)%N) in *; set (r := (x mod d)%N) in *; clearbody q r.

Lemma base64_encode_inj (s1 s2 : string) : Base64.encode s1 = Base64.encode s2 -> s1 = s2.
Proof.
  remember (String.length s1) as n eqn:Hn. revert s1 s2 Hn.
  induction n as [n IH] using lt_wf_ind. intros s1 s2 Hn.
  destruct s1 as [|a1 [|b1 [|c1 r1]]]; destruct s2 as [|a2 [|b2 [|c2 r2]]];
    cbn [Base64.encode]; intros E; try discriminate E; try reflexivity;
    repeat match goal with
    | H : String _ _ = String _ _ |- _ => injection H as ? ?
    end;
    repeat match goal with
    | H : context [(code ?c / ?d)%N] |- _ => pose proof (code_bound c); euclid (code c) d
    end;
    try (exfalso;
         match goal with
         | H : Base64.digit ?i = Base64.padding |- _ =>
             apply (base64_digit_not_padding i); [lia | exact H]
         | H : Base64.padding = Base64.digit ?i |- _ =>
             apply (base64_digit_not_padding i); [lia | symmetry; exact H]
         end; fail);
    repeat match goal with
    | H : Base64.digit _ = Base64.digit _ |- _ => apply base64_digit_inj in H; [|lia|lia]
    end.
  - f_equal. apply code_inj. lia.
  - assert (code a1 = code a2 /\ code b1 = code b2) as [Ea Eb] by lia.
    apply code_inj in Ea, Eb. subst. reflexivity.
  - assert (code a1 = code a2 /\ code b1 = code b2 /\ code c1 = code c2) as (Ea & Eb & Ec) by lia.
    apply code_inj in Ea, Eb, Ec. subst a2 b2 c2. f_equal. f_equal. f_equal.
    apply (IH (String.length r1)); [subst n; cbn [String.length]; lia | reflexivity | assumption].
Qed.

(** ** The earlier revisions *)

Lemma append_inj_l (s1 s2 t : string) : s1 ++ t = s2 ++ t -> s1 = s2.
Proof.
  revert s2. induction s1 as [|c s1 IH]; intros [|c2 s2] E.
  - reflexivity.
  - exfalso. apply (f_equal String.length) in E.
    rewrite !length_append in E. cbn [String.length] in E. lia.
  - exfalso. apply (f_equal String.length) in E.
    rewrite !length_append in E. cbn [String.length] in E. lia.
  - rewrite !append_cons in E. injection E as -> E. f_equal. exact (IH _ E).
Qed.

Lemma in_quotes_inj (a b : string) : in_quotes a = in_quotes b -> a = b.
Proof. unfold in_quotes. intros E. injection E as E. exact (append_inj_l _ _ _ E). Qed.

Lemma part000_etag_inj (plan1 plan2 : string) :
  Part000.etag_of plan1 = Part000.etag_of plan2 -> plan1 = plan2.
Proof. intros E. apply base64_encode_inj, in_quotes_inj, E. Qed.

Lemma JSON_stringify_inj (d1 d2 : json) :
  js_wf d1 = true -> js_wf d2 = true -> JSON_stringify d1 = JSON_stringify d2 -> d1 = d2.
Proof.
  intros H1 H2 E. pose proof (JSON_parse_stringify d1 H1) as P1.
  rewrite E, (JSON_parse_stringify d2 H2) in P1. congruence.
Qed.

Lemma part000_get_record (req : request) (st : store) :
  Part000.get_handler req st =
  match record st (objectId req) with
  | None => (Response 404 None (message "Not Found: Plan not found"), st)
  | Some plan =>
      if header_is (if_none_match req) (Part000.etag_of plan) then (Response 304 None NoBody, st)
      else match JSON_parse plan with
           | Some doc => (Response 200 (Some (Part000.etag_of plan)) (Json doc), st)
           | None => (Response 500 (Some (Part000.etag_of plan))
                        (error "Internal Server Error: Could not retrieve plan"), st)
           end
  end.
Proof.
  unfold Part000.get_handler, record. destruct (redis_get st (objectId req)) as [plan|];
    [|reflexivity].
  destruct (String.eqb plan EmptyString); reflexivity.
Qed.

Lemma part000_patch_record (req : request) (st : store) :
  Part000.patch_handler req st =
  match record st (objectId req) with
  | None => (Response 404 None (message "Not Found: Plan does not exist"), st)
  | Some plan =>
      match JSON_parse plan with
      | None => (Response 500 None (error "Internal Server Error: Could not update plan"), st)
      | Some planData =>
          if validatePlan (spread planData (body req)) then
            (Response 200 None (message_data "Plan updated" (spread planData (body req))),
             redis_set st (objectId req) (JSON_stringify (spread planData (body req))))
          else (Response 400 None ValidationErrors, st)
      end
  end.
Proof.
  unfold Part000.patch_handler, record. destruct (redis_get st (objectId req)) as [plan|];
    [|reflexivity].
  destruct (String.eqb plan EmptyString); [reflexivity|].
  destruct (JSON_parse plan) as [p|]; [|reflexivity].
  destruct (validatePlan (spread p (body req))); reflexivity.
Qed.

Lemma part000_post_record (req : request) (st : store) (key : string) :
  validatePlan (body req) = true ->
  plan_key (body req) = Some key ->
  Part000.post_handler req st =
  match record st key with
  | None =>
      Some (Response 201 None (message_data "Plan created" (body req)),
            redis_set st key (JSON_stringify (body req)))
  | Some old =>
      match JSON_parse old with
      | Some existing =>
          Some (Response 409 None (message_data "Conflict: Plan already exists" existing), st)
      | None => Some (Response 500 None (error "Internal Server Error: Could not store plan"), st)
      end
  end.
Proof.
  intros Hv Hk. unfold Part000.post_handler, record. rewrite Hv, Hk. cbn [negb].
  destruct (redis_get st key) as [plan|]; [|reflexivity].
  destruct (String.eqb plan EmptyString); reflexivity.
Qed.

(** The documents of the revision of 31 October carry their tag. *)
Lemma with_etag_wf (data : json) (etag : string) :
  js_wf data = true -> js_wf (Rev20241031.with_etag data etag) = true.
Proof.
  intros Hwf. unfold Rev20241031.with_etag. apply js_wf_object.
  - apply set_prop_keys_ok, set_props_keys_ok. reflexivity.
  - apply set_prop_values; [|reflexivity].
    apply set_props_values; [constructor | apply own_props_values; exact Hwf].
Qed.

Lemma with_etag_member (data : json) (etag : string) :
  member (Rev20241031.with_etag data etag) "etag" = Some (JStr etag).
Proof.
  unfold Rev20241031.with_etag, member. rewrite get_prop_set_prop, String.eqb_refl.
  reflexivity.
Qed.

Lemma has_prop_In (props : list (string * json)) (k : string) :
  has_prop props k = true -> In k (map fst props).
Proof.
  intros H. apply has_prop_get in H as [v Hv]. apply get_prop_In in Hv.
  apply in_map_iff. exists (k, v). split; [reflexivity | exact Hv].
Qed.

(** A document with an [etag] member does not pass the schema, whatever is
    merged into it. *)
Lemma spread_with_etag_invalid (data updates : json) (etag : string) :
  validatePlan (spread (Rev20241031.with_etag data etag) updates) = false.
Proof.
  destruct (validatePlan _) eqn:Hv; [|reflexivity]. exfalso.
  unfold spread in Hv.
  assert (Hin : In "etag" plan_keys).
  { apply (validatePlan_keys _ "etag" Hv). apply has_prop_set_props. left.
    apply has_prop_set_props. right. apply has_prop_In.
    pose proof (with_etag_member data etag) as Hm. unfold member, Rev20241031.with_etag in Hm.
    cbn [own_props]. unfold Rev20241031.with_etag, has_prop.
    cbn [own_props]. rewrite Hm. reflexivity. }
  cbn in Hin. repeat (destruct Hin as [Hin|Hin]; [discriminate|]). exact Hin.
Qed.

Lemma rev1031_patch_record (req : request) (st : store) :
  Rev20241031.patch_handler req st =
  match record st (objectId req) with
  | None => (Response 404 None (message "Not Found: Plan does not exist"), st)
  | Some plan =>
      match JSON_parse plan with
      | None => (Response 500 None (error "Internal Server Error: Could not update plan"), st)
      | Some parsedPlan =>
          if validatePlan (spread parsedPlan (body req)) then
            (Response 200 (Some (Rev20241031.generateETag (spread parsedPlan (body req))))
               (Rev20241031.message_data_etag "Plan updated" (spread parsedPlan (body req))
                  (Rev20241031.generateETag (spread parsedPlan (body req)))),
             redis_set st (objectId req)
               (JSON_stringify
                  (Rev20241031.with_etag (spread parsedPlan (body req))
                     (Rev20241031.generateETag (spread parsedPlan (body req))))))
          else (Response 400 None ValidationErrors, st)
      end
  end.
Proof.
  unfold Rev20241031.patch_handler, record. destruct (redis_get st (objectId req)) as [plan|];
    [|reflexivity].
  destruct (String.eqb plan EmptyString); [reflexivity|].
  destruct (JSON_parse plan) as [p|]; [|reflexivity].
  destruct (validatePlan (spread p (body req))); reflexivity.
Qed.

Lemma rev1031_put_record (req : request) (st : store) :
  Rev20241031.put_handler req st =
  if negb (validatePlan (body req)) then (Response 400 None ValidationErrors, st)
  else match record st (objectId req) with
       | None => (Response 404 None (message "Not Found: Plan does not exist"), st)
       | Some _ =>
           (Response 200 (Some (Rev20241031.generateETag (body req)))
              (Rev20241031.message_data_etag "Plan replaced" (body req)
                 (Rev20241031.generateETag (body req))),
            redis_set st (objectId req)
              (JSON_stringify (Rev20241031.with_etag (body req)
                                 (Rev20241031.generateETag (body req)))))
       end.
Proof.
  unfold Rev20241031.put_handler, record. destruct (negb _); [reflexivity|].
  destruct (redis_get st (objectId req)) as [plan|]; [|reflexivity].
  destruct (String.eqb plan EmptyString); reflexivity.
Qed.

Lemma rev1031_post_record (req : request) (st : store) (key : string) :
  validatePlan (body req) = true ->
  plan_key (body req) = Some key ->
  Rev20241031.post_handler req st =
  match record st key with
  | None =>
      Some (Response 201 (Some (Rev20241031.generateETag (body req)))
              (Rev20241031.message_data_etag "Plan created" (body req)
                 (Rev20241031.generateETag (body req))),
            redis_set st key
              (JSON_stringify (Rev20241031.with_etag (body req)
                                 (Rev20241031.generateETag (body req)))))
  | Some old =>
      match JSON_parse old with
      | Some existing =>
          Some (Response 409 None (message_data "Conflict: Plan already exists" existing), st)
      | None => Some (Response 500 None (error "Internal Server Error: Could not store plan"), st)
      end
  end.
Proof.
  intros Hv Hk. unfold Rev20241031.post_handler, record. rewrite Hv, Hk. cbn [negb].
  destruct (redis_get st key) as [plan|]; [|reflexivity].
  destruct (String.eqb plan EmptyString); reflexivity.
Qed.

Lemma rev1031_delete_record (req : request) (st : store) (data : json) (etag : string) :
  record st (objectId req) = Some (JSON_stringify (Rev20241031.with_etag data etag)) ->
  js_wf data = true ->
  Rev20241031.delete_handler req st =
  if header_given (if_match req) && negb (header_is (if_match req) etag) then
    (Response 412 None (message "Precondition Failed: ETag does not match"), st)
  else (Response 204 None NoBody, delete (objectId req) st).
Proof.
  intros Hr Hwf. apply record_Some in Hr as [Hg Hne].
  unfold Rev20241031.delete_handler. rewrite Hg.
  destruct (String.eqb_spec (JSON_stringify (Rev20241031.with_etag data etag)) EmptyString)
    as [E|_]; [contradiction|].
  rewrite (JSON_parse_stringify _ (with_etag_wf data etag Hwf)).
  change (match Rev20241031.with_etag data etag with JNull => ?a | _ => ?b end) with b.
  rewrite with_etag_member. cbn [Rev20241031.header_differs].
  destruct (header_given (if_match req) && negb (header_is (if_match req) etag));
    [reflexivity|].
  unfold redis_del. unfold redis_get in Hg. rewrite Hg. reflexivity.
Qed.

Lemma rev1102_key (data : json) :
  validatePlan data = true -> exists key, Rev20241102.plan_key data = Some key.
Proof.
  intros Hv. destruct data as [| | | | |props]; try discriminate.
  apply validate_object in Hv as [Hreq Hall].
  destruct (has_prop_get _ _ (Hreq "objectId" ltac:(cbn; tauto))) as [id Hid].
  specialize (Hall _ _ Hid). cbn in Hall. destruct id as [| | |id| |]; try discriminate.
  exists id. unfold Rev20241102.plan_key, member. rewrite Hid. reflexivity.
Qed.

(** * The conditional-request protocol *)

(** ** The tag generator *)

(** The tag generator is SHA-1 in hexadecimal: it takes the published
    values on the standard test messages. *)
Lemma generateETag_test_vectors :
  generateETag EmptyString = "da39a3ee5e6b4b0d3255bfef95601890afd80709" /\
  generateETag "abc" = "a9993e364706816aba3e25717850c26c9cd0d89d" /\
  generateETag "abcdbcdecdefdefgefghfghighijhijkijkljklmklmnlmnomnopnopq"
  = "84983e441c3bd26ebaae4aa1f95129e5e54670f1".
Proof. vm_compute. repeat split; reflexivity. Qed.

(** Every [ETag] a handler sets is the tag of the bytes stored under the
    key once the request is served. *)
Lemma sent_tag_is_tag_of_stored_bytes (req : request) (st : store) (T : string) :
  (ETag (fst (put_handler req st)) = Some T ->
   exists plan, redis_get (snd (put_handler req st)) (objectId req) = Some plan /\
                T = generateETag plan) /\
  (ETag (fst (patch_handler req st)) = Some T ->
   exists plan, redis_get (snd (patch_handler req st)) (objectId req) = Some plan /\
                T = generateETag plan) /\
  (ETag (fst (get_handler req st)) = Some T ->
   exists plan, redis_get (snd (get_handler req st)) (objectId req) = Some plan /\
                T = generateETag plan) /\
  ETag (fst (delete_handler req st)) = None /\
  (forall r st' key,
      post_handler req st = Some (r, st') -> ETag r = Some T ->
      plan_key (body req) = Some key ->
      exists plan, redis_get st' key = Some plan /\ T = generateETag plan).
Proof.
  repeat split.
  - rewrite put_handler_record.
    destruct (negb (validatePlan (body req))); [discriminate|].
    destruct (record st (objectId req)) as [old|]; [|discriminate].
    destruct (header_is _ _); [|discriminate].
    cbn [fst snd ETag]. intros H; inversion H; subst.
    eexists. split; [apply lookup_insert_eq | reflexivity].
  - rewrite patch_handler_record.
    destruct (record st (objectId req)) as [old|]; [|discriminate].
    destruct (header_is _ _); [|discriminate].
    destruct (JSON_parse old) as [p|]; [|discriminate].
    destruct (validatePlan _); [|discriminate].
    cbn [fst snd ETag]. intros H; inversion H; subst.
    eexists. split; [apply lookup_insert_eq | reflexivity].
  - rewrite get_handler_record.
    destruct (record st (objectId req)) as [old|] eqn:Hrec; [|discriminate].
    apply record_Some in Hrec as [Hget _].
    destruct (header_is _ _); [discriminate|].
    destruct (JSON_parse old); cbn [fst snd ETag]; intros H; inversion H; subst; eauto.
  - rewrite delete_handler_record.
    destruct (record st (objectId req)) as [old|]; [|reflexivity].
    destruct (_ && _); reflexivity.
  - intros r st' key Hpost HT Hkey.
    assert (Hv : validatePlan (body req) = true).
    { destruct (validatePlan (body req)) eqn:E; [reflexivity|].
      unfold post_handler in Hpost. rewrite E in Hpost. cbn [negb] in Hpost.
      inversion Hpost; subst. discriminate HT. }
    rewrite (post_handler_record _ _ _ Hv Hkey) in Hpost.
    destruct (record st key) as [old|].
    + destruct (JSON_parse old); inversion Hpost; subst; discriminate HT.
    + inversion Hpost; subst. cbn [ETag] in HT. inversion HT; subst.
      eexists. split; [apply lookup_insert_eq | reflexivity].
Qed.

(** ** Create *)




(** ** Read *)




(** C6.  After a POST of a document [D] has been answered 201 with tag [T],
    a GET on the key derived from [D] that is not fresh for [T] (one without
    [If-None-Match], in particular) is answered 200 with [D] as the body
    and [T] in [ETag]. *)
Theorem create_then_read (errors : string) (req read : request) (st st1 : store)
        (created : response) (key : string) :
  js_wf (body req) = true ->
  app_post errors req st = Some (created, st1) ->
  status created = 201 ->
  plan_key (body req) = Some key ->
  objectId read = key ->
  fresh (if_none_match read) (ETag created) = false ->
  exists T, ETag created = Some T /\
            app_get errors read st1 = (Response 200 (Some T) (Json (body req)), st1).
Proof.
  intros Hwf Hpost Hstatus Hkey Hread Hfresh.
  destruct (app_post_201 _ _ _ _ _ _ Hpost Hstatus Hkey) as (_ & _ & -> & ->).
  cbn [ETag] in Hfresh. exists (generateETag (JSON_stringify (body req))).
  split; [reflexivity|].
  rewrite app_get_record, Hread, record_set.
  destruct (header_is _ _) eqn:Hh.
  { apply header_is_iff in Hh. rewrite Hh, fresh_same_tag in Hfresh. discriminate. }
  rewrite (JSON_parse_stringify _ Hwf), Hfresh. reflexivity.
Qed.

Lemma create_then_read_witness :
  js_wf (body post_v1) = true /\
  app_post EmptyString post_v1 ∅ =
    Some (Response 201 (Some tag_v1) (message_data "Plan created" plan_v1), sample_store) /\
  status (Response 201 (Some tag_v1) (message_data "Plan created" plan_v1)) = 201 /\
  plan_key (body post_v1) = Some "k1" /\
  objectId get_fresh = "k1" /\
  fresh (if_none_match get_fresh)
        (ETag (Response 201 (Some tag_v1) (message_data "Plan created" plan_v1))) = false /\
  exists T, ETag (Response 201 (Some tag_v1) (message_data "Plan created" plan_v1)) = Some T /\
            app_get EmptyString get_fresh sample_store
            = (Response 200 (Some T) (Json (body post_v1)), sample_store).
Proof.
  assert (P : app_post EmptyString post_v1 ∅ =
    Some (Response 201 (Some tag_v1) (message_data "Plan created" plan_v1), sample_store))
    by (vm_compute; reflexivity).
  refine (conj eq_refl (conj P (conj eq_refl (conj eq_refl (conj eq_refl (conj eq_refl _)))))).
  exact (create_then_read EmptyString post_v1 get_fresh ∅ sample_store _ "k1"
           eq_refl P eq_refl eq_refl eq_refl eq_refl).
Defined.

(** ** Replace *)




(** C10 (amended).  A request on a stored record that carries no [If-Match]
    header: a PATCH, and a PUT whose body passes the schema, are answered
    412 and the store is unchanged, because the absent header is not equal
    to the stored record's tag; a PUT whose body fails the schema is
    answered 400, the store unchanged as well. *)
Theorem missing_if_match_is_412 (req : request) (st : store) (old : string) :
  if_match req = None ->
  record st (objectId req) = Some old ->
  header_is (if_match req) (generateETag old) = false /\
  (status (fst (patch_handler req st)) = 412 /\ snd (patch_handler req st) = st) /\
  (validatePlan (body req) = true ->
   status (fst (put_handler req st)) = 412 /\ snd (put_handler req st) = st) /\
  (validatePlan (body req) = false ->
   status (fst (put_handler req st)) = 400 /\ snd (put_handler req st) = st).
Proof.
  intros Hm Hrec. rewrite patch_handler_record, put_handler_record, Hrec, Hm.
  cbn [header_is]. split; [reflexivity|]. split; [split; reflexivity|].
  split; intros ->; split; reflexivity.
Qed.

Lemma missing_if_match_is_412_witness :
  if_match (put_no_header plan_v2) = None /\
  record sample_store (objectId (put_no_header plan_v2)) = Some (JSON_stringify plan_v1) /\
  validatePlan (body (put_no_header plan_v2)) = true /\
  (status (fst (patch_handler (put_no_header plan_v2) sample_store)) = 412 /\
   snd (patch_handler (put_no_header plan_v2) sample_store) = sample_store) /\
  (status (fst (put_handler (put_no_header plan_v2) sample_store)) = 412 /\
   snd (put_handler (put_no_header plan_v2) sample_store) = sample_store).
Proof.
  assert (Hm : if_match (put_no_header plan_v2) = None) by reflexivity.
  assert (Hr : record sample_store (objectId (put_no_header plan_v2))
               = Some (JSON_stringify plan_v1)) by (vm_compute; reflexivity).
  assert (Hv : validatePlan (body (put_no_header plan_v2)) = true) by (vm_compute; reflexivity).
  destruct (missing_if_match_is_412 (put_no_header plan_v2) sample_store _ Hm Hr)
    as (_ & Hpatch & Hput & _).
  exact (conj Hm (conj Hr (conj Hv (conj Hpatch (Hput Hv))))).
Defined.

(** C10, as stated, fails for a PUT whose body does not pass the schema:
    the record exists, no [If-Match] is sent, and the answer is 400. *)
Lemma put_no_header_invalid_body_is_400 :
  if_match (put_no_header (JObj [])) = None /\
  record sample_store (objectId (put_no_header (JObj []))) = Some (JSON_stringify plan_v1) /\
  status (fst (put_handler (put_no_header (JObj [])) sample_store)) = 400.
Proof. vm_compute. repeat split; reflexivity. Qed.

(** ** Partial update *)

(** C3.  A PATCH on a stored record with the matching [If-Match] tag whose
    merged document fails the schema is answered 400 and leaves the store
    as it was: the only write of the handler comes after the validation. *)
Theorem patch_invalid_merge_leaves_store (req : request) (st : store) (old : string)
        (planData : json) :
  record st (objectId req) = Some old ->
  if_match req = Some (generateETag old) ->
  JSON_parse old = Some planData ->
  validatePlan (spread planData (body req)) = false ->
  status (fst (patch_handler req st)) = 400 /\
  snd (patch_handler req st) = st /\
  redis_get (snd (patch_handler req st)) (objectId req) = Some old.
Proof.
  intros Hrec Hm Hp Hv. rewrite patch_handler_record, Hrec, Hm, Hp, Hv.
  assert (E : header_is (Some (generateETag old)) (generateETag old) = true)
    by (apply header_is_Some; reflexivity).
  rewrite E. cbn [fst snd status]. repeat split.
  apply record_Some in Hrec. tauto.
Qed.

Lemma patch_invalid_merge_leaves_store_witness :
  record sample_store (objectId patch_bad_type) = Some (JSON_stringify plan_v1) /\
  if_match patch_bad_type = Some (generateETag (JSON_stringify plan_v1)) /\
  JSON_parse (JSON_stringify plan_v1) = Some plan_v1 /\
  validatePlan (spread plan_v1 (body patch_bad_type)) = false /\
  status (fst (patch_handler patch_bad_type sample_store)) = 400 /\
  snd (patch_handler patch_bad_type sample_store) = sample_store /\
  redis_get (snd (patch_handler patch_bad_type sample_store)) (objectId patch_bad_type)
  = Some (JSON_stringify plan_v1).
Proof.
  assert (Hr : record sample_store (objectId patch_bad_type) = Some (JSON_stringify plan_v1))
    by (vm_compute; reflexivity).
  assert (Hm : if_match patch_bad_type = Some (generateETag (JSON_stringify plan_v1)))
    by reflexivity.
  assert (Hp : JSON_parse (JSON_stringify plan_v1) = Some plan_v1) by (vm_compute; reflexivity).
  assert (Hv : validatePlan (spread plan_v1 (body patch_bad_type)) = false)
    by (vm_compute; reflexivity).
  exact (conj Hr (conj Hm (conj Hp (conj Hv
           (patch_invalid_merge_leaves_store patch_bad_type sample_store _ _ Hr Hm Hp Hv))))).
Defined.

(** A PATCH writes only when it answers 200. *)
Lemma patch_writes_only_on_200 (req : request) (st : store) :
  status (fst (patch_handler req st)) <> 200 -> snd (patch_handler req st) = st.
Proof.
  rewrite patch_handler_record.
  destruct (record st (objectId req)) as [old|]; [|reflexivity].
  destruct (header_is (if_match req) (generateETag old)); [|reflexivity].
  destruct (JSON_parse old) as [p|]; [|reflexivity].
  destruct (validatePlan (spread p (body req))); [|reflexivity].
  cbn [fst status]. intros H. exfalso. apply H. reflexivity.
Qed.

(** C7.  [{ ...P, ...U }] is a shallow merge: under every top-level key the
    merged document holds what the update holds there, whole, and what the
    stored document holds when the update has no such key.  A PATCH answered
    200 stores this document, serialized, and sends it back.  ([P] and [U]
    are JavaScript values: no key twice at the top level, as [JSON.parse]
    returns them.) *)
Theorem patch_shallow_merge (P U : json) :
  distinct_keys P -> distinct_keys U ->
  (forall k,
      member (spread P U) k
      = match get_prop (own_props U) k with
        | Some v => Some v
        | None => get_prop (own_props P) k
        end) /\
  (forall req st old,
      record st (objectId req) = Some old -> JSON_parse old = Some P -> body req = U ->
      status (fst (patch_handler req st)) = 200 ->
      redis_get (snd (patch_handler req st)) (objectId req) = Some (JSON_stringify (spread P U))
      /\ sent (fst (patch_handler req st)) = message_data "Plan updated" (spread P U)).
Proof.
  intros HP HU. split.
  - intros k. unfold spread, member.
    rewrite (get_prop_set_props _ _ _ HU), (get_prop_set_props _ _ _ HP).
    destruct (get_prop (own_props U) k); [reflexivity|].
    destruct (get_prop (own_props P) k); reflexivity.
  - intros req st old Hrec Hp <-. rewrite patch_handler_record, Hrec.
    destruct (header_is (if_match req) (generateETag old)); [|discriminate].
    rewrite Hp. destruct (validatePlan (spread P (body req))); [|discriminate].
    intros _. cbn [fst snd sent]. split; [|reflexivity].
    unfold redis_get, redis_set. apply lookup_insert_eq.
Qed.

Lemma patch_shallow_merge_witness :
  (distinct_keys nested_before /\ distinct_keys nested_update /\
   member (spread nested_before nested_update) "a" = Some (JObj [("x", JNum 5)]) /\
   member (spread nested_before nested_update) "b" = Some (JNum 3)) /\
  (record sample_store (objectId patch_type) = Some (JSON_stringify plan_v1) /\
   JSON_parse (JSON_stringify plan_v1) = Some plan_v1 /\
   status (fst (patch_handler patch_type sample_store)) = 200 /\
   redis_get (snd (patch_handler patch_type sample_store)) (objectId patch_type)
   = Some (JSON_stringify (spread plan_v1 (body patch_type)))).
Proof.
  assert (H1 : distinct_keys nested_before) by (apply js_wf_distinct; reflexivity).
  assert (H2 : distinct_keys nested_update) by (apply js_wf_distinct; reflexivity).
  assert (Hp : JSON_parse (JSON_stringify plan_v1) = Some plan_v1) by (vm_compute; reflexivity).
  assert (H3 : distinct_keys plan_v1) by (apply (JSON_parse_distinct _ _ Hp)).
  assert (H4 : distinct_keys (body patch_type)) by (apply js_wf_distinct; reflexivity).
  assert (Hr : record sample_store (objectId patch_type) = Some (JSON_stringify plan_v1))
    by (vm_compute; reflexivity).
  assert (H200 : status (fst (patch_handler patch_type sample_store)) = 200)
    by (vm_compute; reflexivity).
  destruct (patch_shallow_merge nested_before nested_update H1 H2) as [Hm _].
  destruct (patch_shallow_merge plan_v1 (body patch_type) H3 H4) as [_ Hh].
  exact (conj (conj H1 (conj H2 (conj (Hm "a") (Hm "b"))))
              (conj Hr (conj Hp (conj H200
                 (proj1 (Hh patch_type sample_store _ Hr Hp eq_refl H200)))))).
Defined.

(** ** Delete *)

(** C9.  A DELETE on a key with no record is answered 404 and changes
    nothing, on the empty store in particular; an answer 204 means a record
    was there; and once a DELETE has been answered 204, a DELETE on the same
    key is answered 404. *)
Theorem delete_absent_is_404 (req : request) (st : store) :
  (record st (objectId req) = None ->
   status (fst (delete_handler req st)) = 404 /\ snd (delete_handler req st) = st) /\
  status (fst (delete_handler req ∅)) = 404 /\
  (status (fst (delete_handler req st)) = 204 ->
   (exists plan, record st (objectId req) = Some plan) /\
   forall again, objectId again = objectId req ->
     status (fst (delete_handler again (snd (delete_handler req st)))) = 404).
Proof.
  split; [|split].
  - intros Hrec. rewrite delete_handler_record, Hrec. split; reflexivity.
  - reflexivity.
  - rewrite (delete_handler_record req st).
    destruct (record st (objectId req)) as [plan|]; [|discriminate].
    destruct (header_given (if_none_match req)
              && negb (header_is (if_none_match req) (generateETag plan))); [discriminate|].
    intros _. split; [eauto|]. intros again Hk. cbn [snd].
    rewrite delete_handler_record, Hk, record_delete. reflexivity.
Qed.

Lemma delete_absent_is_404_witness :
  record ∅ (objectId delete_plain) = None /\
  status (fst (delete_handler delete_plain ∅)) = 404 /\
  status (fst (delete_handler delete_plain sample_store)) = 204 /\
  status (fst (delete_handler delete_plain (snd (delete_handler delete_plain sample_store))))
  = 404.
Proof.
  assert (Hr : record ∅ (objectId delete_plain) = None) by reflexivity.
  assert (H204 : status (fst (delete_handler delete_plain sample_store)) = 204)
    by (vm_compute; reflexivity).
  destruct (delete_absent_is_404 delete_plain ∅) as (Habs & _ & _).
  destruct (delete_absent_is_404 delete_plain sample_store) as (_ & _ & Hdel).
  exact (conj Hr (conj (proj1 (Habs Hr)) (conj H204 (proj2 (Hdel H204) _ eq_refl)))).
Defined.

(** C2.  The DELETE handler reads its precondition from [If-None-Match];
    [If-Match] is not consulted.  A DELETE that carries a stale [If-Match]
    tag is answered 204 and removes the record. *)
Theorem delete_does_not_read_if_match :
  (forall h req st, delete_handler (with_if_match h req) st = delete_handler req st) /\
  record sample_store "k1" = Some (JSON_stringify plan_v1) /\
  generateETag (JSON_stringify plan_v1) = "bcbfa31b16e01d2b4335f3ded0ed274a28b6df3d" /\
  delete_handler (Request None (Some "stale") None "k1" JNull) sample_store
  = (Response 204 None NoBody, ∅).
Proof.
  split; [intros h req st; reflexivity|]. vm_compute. repeat split; reflexivity.
Qed.

(** On [If-None-Match] the handler does what the protocol asks of
    [If-Match]. *)
Lemma delete_if_none_match (req : request) (st : store) (plan T : string) :
  record st (objectId req) = Some plan ->
  if_none_match req = Some T -> T <> EmptyString ->
  (generateETag plan <> T ->
   status (fst (delete_handler req st)) = 412 /\ snd (delete_handler req st) = st) /\
  (generateETag plan = T ->
   delete_handler req st = (Response 204 None NoBody, delete (objectId req) st)).
Proof.
  intros Hrec Hm Hne. rewrite delete_handler_record, Hrec, Hm. cbn [header_given header_is].
  apply String.eqb_neq in Hne. rewrite Hne. cbn [negb andb]. split.
  - intros Hd. assert (E : String.eqb T (generateETag plan) = false)
      by (apply String.eqb_neq; congruence).
    rewrite E. split; reflexivity.
  - intros <-. rewrite String.eqb_refl. reflexivity.
Qed.

(** * Further properties of the current revision *)

(** ** The store over a run of requests *)

(** X1.  Whatever requests the service has served since the database was
    empty, every record it holds is the serialization of a plan the schema
    accepts.  So no handler gets to its 500 answer on an unreadable record,
    a GET answered 200 sends a plan the schema accepts, and so does the 409
    answer of a POST. *)
Theorem reachable_store_holds_valid_plans (st : store) (req : request) :
  reachable st ->
  well_stored st /\
  status (fst (get_handler req st)) <> 500 /\
  status (fst (patch_handler req st)) <> 500 /\
  status (fst (put_handler req st)) <> 500 /\
  status (fst (delete_handler req st)) <> 500 /\
  (forall r st', post_handler req st = Some (r, st') -> status r <> 500) /\
  (forall T doc, fst (get_handler req st) = Response 200 T (Json doc) ->
                 validatePlan doc = true) /\
  (forall r st' existing,
      post_handler req st = Some (r, st') ->
      r = Response 409 None (message_data "Conflict: Plan already exists" existing) ->
      validatePlan existing = true).
Proof.
  intros Hreach. pose proof (reachable_well_stored _ Hreach) as Hs.
  split; [exact Hs|].
  assert (Hpost : forall r st', post_handler req st = Some (r, st') ->
            status r <> 500 /\
            forall existing,
              r = Response 409 None (message_data "Conflict: Plan already exists" existing) ->
              validatePlan existing = true).
  { intros r st' Hp. destruct (validatePlan (body req)) eqn:Hv.
    - destruct (validatePlan_key _ Hv) as [key Hk].
      rewrite (post_handler_record _ _ _ Hv Hk) in Hp.
      destruct (record st key) as [old|] eqn:Hr.
      + destruct (well_stored_record _ _ _ Hs Hr) as (d & Hwf & Hvd & -> & Hparse).
        rewrite Hparse in Hp. inversion Hp; subst. split; [discriminate|].
        intros existing E. inversion E; subst. exact Hvd.
      + inversion Hp; subst. split; [discriminate|]. intros existing E. discriminate.
    - unfold post_handler in Hp. rewrite Hv in Hp. cbn in Hp. inversion Hp; subst.
      split; [discriminate|]. intros existing E. discriminate. }
  repeat split.
  - rewrite get_handler_record.
    destruct (record st (objectId req)) as [old|] eqn:Hr; [|discriminate].
    destruct (header_is _ _); [discriminate|].
    destruct (well_stored_record _ _ _ Hs Hr) as (d & _ & _ & _ & ->). discriminate.
  - rewrite patch_handler_record.
    destruct (record st (objectId req)) as [old|] eqn:Hr; [|discriminate].
    destruct (header_is _ _); [|discriminate].
    destruct (well_stored_record _ _ _ Hs Hr) as (d & _ & _ & _ & ->).
    destruct (validatePlan _); discriminate.
  - rewrite put_handler_record.
    destruct (negb _); [discriminate|].
    destruct (record st (objectId req)); [|discriminate].
    destruct (header_is _ _); discriminate.
  - rewrite delete_handler_record.
    destruct (record st (objectId req)); [|discriminate].
    destruct (_ && _); discriminate.
  - intros r st' Hp. exact (proj1 (Hpost r st' Hp)).
  - intros T doc. rewrite get_handler_record.
    destruct (record st (objectId req)) as [old|] eqn:Hr; [|discriminate].
    destruct (header_is _ _); [discriminate|].
    destruct (well_stored_record _ _ _ Hs Hr) as (d & _ & Hvd & _ & ->).
    cbn [fst]. intros E. inversion E; subst. exact Hvd.
  - intros r st' existing Hp. exact (proj2 (Hpost r st' Hp) existing).
Qed.

Lemma reachable_store_holds_valid_plans_witness :
  reachable sample_store /\
  status (fst (get_handler get_fresh sample_store)) <> 500.
Proof.
  assert (R : reachable sample_store).
  { apply (reachable_step ∅ sample_store reachable_empty).
    apply (step_post post_v1 ∅
             (Response 201 (Some tag_v1) (message_data "Plan created" plan_v1)) sample_store).
    - reflexivity.
    - vm_compute. reflexivity. }
  split; [exact R|].
  exact (proj1 (proj2 (reachable_store_holds_valid_plans sample_store get_fresh R))).
Defined.

(** X2.  Only a success writes: a PUT or PATCH that is not answered 200, a
    POST that is not answered 201 and a DELETE that is not answered 204
    leave the store as it was, and so does every GET. *)
Theorem only_success_writes (req : request) (st : store) :
  (status (fst (put_handler req st)) <> 200 -> snd (put_handler req st) = st) /\
  (status (fst (patch_handler req st)) <> 200 -> snd (patch_handler req st) = st) /\
  (status (fst (delete_handler req st)) <> 204 -> snd (delete_handler req st) = st) /\
  snd (get_handler req st) = st /\
  (forall r st', post_handler req st = Some (r, st') -> status r <> 201 -> st' = st).
Proof.
  repeat split.
  - rewrite put_handler_record. destruct (negb _); [reflexivity|].
    destruct (record st (objectId req)); [|reflexivity].
    destruct (header_is _ _); [|reflexivity]. intros H. exfalso. apply H. reflexivity.
  - rewrite patch_handler_record.
    destruct (record st (objectId req)) as [old|]; [|reflexivity].
    destruct (header_is _ _); [|reflexivity].
    destruct (JSON_parse old); [|reflexivity].
    destruct (validatePlan _); [|reflexivity]. intros H. exfalso. apply H. reflexivity.
  - rewrite delete_handler_record.
    destruct (record st (objectId req)); [|reflexivity].
    destruct (_ && _); [reflexivity|]. intros H. exfalso. apply H. reflexivity.
  - rewrite get_handler_record.
    destruct (record st (objectId req)) as [old|]; [|reflexivity].
    destruct (header_is _ _); [reflexivity|]. destruct (JSON_parse old); reflexivity.
  - intros r st' Hp Hs. destruct (validatePlan (body req)) eqn:Hv.
    + destruct (validatePlan_key _ Hv) as [key Hk].
      rewrite (post_handler_record _ _ _ Hv Hk) in Hp.
      destruct (record st key) as [old|].
      * destruct (JSON_parse old); inversion Hp; subst; reflexivity.
      * inversion Hp; subst. exfalso. apply Hs. reflexivity.
    + unfold post_handler in Hp. rewrite Hv in Hp. cbn in Hp. inversion Hp; subst.
      reflexivity.
Qed.

(** X3.  A request touches the record under its own key only (the URL key;
    for a POST the key read from the body): every other key holds
    afterwards what it held before.  And the answer depends on the store
    through that record alone: two stores that agree on the key get the
    same answer. *)
Theorem handlers_are_local (req : request) (st : store) :
  (forall k, k <> objectId req ->
     redis_get (snd (put_handler req st)) k = redis_get st k /\
     redis_get (snd (patch_handler req st)) k = redis_get st k /\
     redis_get (snd (delete_handler req st)) k = redis_get st k) /\
  (forall r st' key k,
     post_handler req st = Some (r, st') -> plan_key (body req) = Some key -> k <> key ->
     redis_get st' k = redis_get st k) /\
  (forall st2, redis_get st2 (objectId req) = redis_get st (objectId req) ->
     fst (put_handler req st2) = fst (put_handler req st) /\
     fst (patch_handler req st2) = fst (patch_handler req st) /\
     fst (get_handler req st2) = fst (get_handler req st) /\
     fst (delete_handler req st2) = fst (delete_handler req st)) /\
  (forall st2 key,
     plan_key (body req) = Some key -> redis_get st2 key = redis_get st key ->
     option_map fst (post_handler req st2) = option_map fst (post_handler req st)).
Proof.
  assert (Hset : forall k v k', k' <> k -> redis_get (redis_set st k v) k' = redis_get st k').
  { intros k v k' Hne. unfold redis_get, redis_set. apply lookup_insert_ne. congruence. }
  assert (Hdel : forall k k', k' <> k -> redis_get (delete k st) k' = redis_get st k').
  { intros k k' Hne. unfold redis_get. apply lookup_delete_ne. congruence. }
  split; [|split; [|split]].
  - intros k Hne. repeat split.
    + rewrite put_handler_record. destruct (negb _); [reflexivity|].
      destruct (record st (objectId req)); [|reflexivity].
      destruct (header_is _ _); [|reflexivity]. apply Hset, Hne.
    + rewrite patch_handler_record.
      destruct (record st (objectId req)) as [old|]; [|reflexivity].
      destruct (header_is _ _); [|reflexivity].
      destruct (JSON_parse old); [|reflexivity].
      destruct (validatePlan _); [|reflexivity]. apply Hset, Hne.
    + rewrite delete_handler_record.
      destruct (record st (objectId req)); [|reflexivity].
      destruct (_ && _); [reflexivity|]. apply Hdel, Hne.
  - intros r st' key k Hp Hk Hne. destruct (validatePlan (body req)) eqn:Hv.
    + rewrite (post_handler_record _ _ _ Hv Hk) in Hp.
      destruct (record st key) as [old|].
      * destruct (JSON_parse old); inversion Hp; subst; reflexivity.
      * inversion Hp; subst. apply Hset, Hne.
    + unfold post_handler in Hp. rewrite Hv in Hp. cbn in Hp. inversion Hp; subst.
      reflexivity.
  - intros st2 Heq.
    assert (Hr : record st2 (objectId req) = record st (objectId req)).
    { unfold record. rewrite Heq. reflexivity. }
    rewrite !put_handler_record, !patch_handler_record, !get_handler_record,
      !delete_handler_record, Hr.
    repeat split.
    + destruct (negb _); [reflexivity|].
      destruct (record st (objectId req)); [|reflexivity].
      destruct (header_is _ _); reflexivity.
    + destruct (record st (objectId req)) as [old|]; [|reflexivity].
      destruct (header_is _ _); [|reflexivity].
      destruct (JSON_parse old); [|reflexivity].
      destruct (validatePlan _); reflexivity.
    + destruct (record st (objectId req)) as [old|]; [|reflexivity].
      destruct (header_is _ _); [reflexivity|]. destruct (JSON_parse old); reflexivity.
    + destruct (record st (objectId req)); [|reflexivity].
      destruct (_ && _); reflexivity.
  - intros st2 key Hk Heq.
    assert (Hr : record st2 key = record st key).
    { unfold record. rewrite Heq. reflexivity. }
    destruct (validatePlan (body req)) eqn:Hv.
    + rewrite !(post_handler_record _ _ _ Hv Hk), Hr.
      destruct (record st key) as [old|]; [|reflexivity].
      destruct (JSON_parse old); reflexivity.
    + unfold post_handler. rewrite Hv. reflexivity.
Qed.

(** ** Tags handed out and tags sent back *)

(** X4.  The tag that comes with a success is the one the conditional
    routes accept next.  When a POST has been answered 201, or a PUT, PATCH
    or GET has been answered 200, with [ETag: T], then on the store it
    leaves: a GET with [If-None-Match: T] is answered 304; a PUT with
    [If-Match: T] and a body the schema accepts is answered 200 and stores
    the body; a PATCH with [If-Match: T] gets past the precondition (not
    404, not 412); a DELETE with [If-None-Match: T] is answered 204. *)
Theorem sent_tag_is_accepted (errors : string) (st : store) (k : string) (r : response)
        (st' : store) (T : string) (next : request) :
  answers errors st k r st' -> status r = 200 \/ status r = 201 ->
  ETag r = Some T -> objectId next = k ->
  (if_none_match next = Some T ->
   app_get errors next st' = (Response 304 None NoBody, st')) /\
  (if_match next = Some T -> validatePlan (body next) = true ->
   status (fst (app_put errors next st')) = 200 /\
   redis_get (snd (app_put errors next st')) k = Some (JSON_stringify (body next))) /\
  (if_match next = Some T ->
   status (fst (app_patch errors next st')) <> 404 /\
   status (fst (app_patch errors next st')) <> 412) /\
  (if_none_match next = Some T ->
   app_delete errors next st' = (Response 204 None NoBody, delete k st')).
Proof.
  intros Ha Hs HT Hk. destruct (answers_tag_record _ _ _ _ _ _ Ha Hs HT) as (plan & Hr & Htag).
  subst k T. split; [|split; [|split]].
  - intros Hh. rewrite app_get_record, Hr, Hh. cbn [header_is].
    rewrite String.eqb_refl. reflexivity.
  - intros Hm Hv. destruct (app_put_status errors next st') as [-> ->].
    rewrite put_handler_record, Hv, Hr, Hm. cbn [negb header_is].
    rewrite String.eqb_refl. cbn [fst snd status]. split; [reflexivity|].
    unfold redis_get, redis_set. apply lookup_insert_eq.
  - intros Hm. destruct (app_patch_status errors next st') as [-> _].
    rewrite patch_handler_record, Hr, Hm. cbn [header_is]. rewrite String.eqb_refl.
    destruct (JSON_parse plan); [destruct (validatePlan _)|]; split; discriminate.
  - intros Hh. unfold app_delete. rewrite delete_handler_record, Hr, Hh. cbn [header_is].
    rewrite String.eqb_refl. cbn [negb]. rewrite andb_false_r. cbn [fst snd].
    rewrite res_send_end by reflexivity. reflexivity.
Qed.

Lemma sent_tag_is_accepted_witness :
  answers EmptyString ∅ "k1" (Response 201 (Some tag_v1) (message_data "Plan created" plan_v1))
          sample_store /\
  (status (Response 201 (Some tag_v1) (message_data "Plan created" plan_v1)) = 200 \/
   status (Response 201 (Some tag_v1) (message_data "Plan created" plan_v1)) = 201) /\
  ETag (Response 201 (Some tag_v1) (message_data "Plan created" plan_v1)) = Some tag_v1 /\
  objectId put_v2 = "k1" /\
  status (fst (app_put EmptyString put_v2 sample_store)) = 200.
Proof.
  assert (A : answers EmptyString ∅ "k1"
                      (Response 201 (Some tag_v1) (message_data "Plan created" plan_v1))
                      sample_store).
  { apply (answers_post _ _ _ _ _ post_v1); vm_compute; reflexivity. }
  refine (conj A (conj (or_intror eq_refl) (conj eq_refl (conj eq_refl _)))).
  exact (proj1 (proj1 (proj2 (sent_tag_is_accepted EmptyString _ _ _ _ tag_v1 put_v2 A
                                (or_intror eq_refl) eq_refl eq_refl))
                 eq_refl eq_refl)).
Defined.

(** X5.  A tag other than the current one does not open the record: once
    a POST has been answered 201, or a PUT, PATCH or GET 200, with
    [ETag: T], a PUT with a valid body or a PATCH whose [If-Match] is absent
    or not [T] is answered 412 and the store keeps its content.  So of two
    clients that hold the same tag, the second to write is refused whenever
    the first write was answered with another tag. *)
Theorem other_tag_is_refused (errors : string) (st : store) (k : string) (r : response)
        (st' : store) (T : string) (next : request) :
  answers errors st k r st' -> status r = 200 \/ status r = 201 ->
  ETag r = Some T -> objectId next = k ->
  if_match next <> Some T ->
  (validatePlan (body next) = true ->
   status (fst (app_put errors next st')) = 412 /\ snd (app_put errors next st') = st') /\
  status (fst (app_patch errors next st')) = 412 /\ snd (app_patch errors next st') = st'.
Proof.
  intros Ha Hs HT Hk Hne.
  destruct (answers_tag_record _ _ _ _ _ _ Ha Hs HT) as (plan & Hr & Htag).
  subst k T.
  assert (Hh : header_is (if_match next) (generateETag plan) = false).
  { destruct (header_is _ _) eqn:E; [|reflexivity].
    apply header_is_iff in E. contradiction. }
  split.
  - intros Hv. destruct (app_put_status errors next st') as [-> ->].
    rewrite put_handler_record, Hv, Hr, Hh. split; reflexivity.
  - destruct (app_patch_status errors next st') as [-> ->].
    rewrite patch_handler_record, Hr, Hh. split; reflexivity.
Qed.

Lemma other_tag_is_refused_witness :
  answers EmptyString ∅ "k1" (Response 201 (Some tag_v1) (message_data "Plan created" plan_v1))
          sample_store /\
  (status (Response 201 (Some tag_v1) (message_data "Plan created" plan_v1)) = 200 \/
   status (Response 201 (Some tag_v1) (message_data "Plan created" plan_v1)) = 201) /\
  ETag (Response 201 (Some tag_v1) (message_data "Plan created" plan_v1)) = Some tag_v1 /\
  objectId (put_no_header plan_v2) = "k1" /\
  if_match (put_no_header plan_v2) <> Some tag_v1 /\
  status (fst (app_patch EmptyString (put_no_header plan_v2) sample_store)) = 412.
Proof.
  assert (A : answers EmptyString ∅ "k1"
                      (Response 201 (Some tag_v1) (message_data "Plan created" plan_v1))
                      sample_store).
  { apply (answers_post _ _ _ _ _ post_v1); vm_compute; reflexivity. }
  assert (N : if_match (put_no_header plan_v2) <> Some tag_v1) by discriminate.
  refine (conj A (conj (or_intror eq_refl) (conj eq_refl (conj eq_refl (conj N _))))).
  exact (proj1 (proj2 (other_tag_is_refused EmptyString _ _ _ _ tag_v1 (put_no_header plan_v2) A
                         (or_intror eq_refl) eq_refl eq_refl N))).
Defined.

(** ** How the operations compose *)

(** X6.  Read your writes: after a PUT or a PATCH has been answered 200, a
    GET on the same key that is not fresh for the new tag (one without
    [If-None-Match], in particular) is answered 200 with the document the
    write sent back under [data] and with the tag the write sent in
    [ETag]. *)
Theorem write_then_read (errors : string) (req read : request) (st : store) :
  js_wf (body req) = true ->
  objectId read = objectId req ->
  (status (fst (app_put errors req st)) = 200 ->
   fresh (if_none_match read) (ETag (fst (app_put errors req st))) = false ->
   fst (app_put errors req st) =
     Response 200 (Some (generateETag (JSON_stringify (body req))))
       (message_data "Plan replaced" (body req)) /\
   app_get errors read (snd (app_put errors req st)) =
     (Response 200 (Some (generateETag (JSON_stringify (body req)))) (Json (body req)),
      snd (app_put errors req st))) /\
  (status (fst (app_patch errors req st)) = 200 ->
   fresh (if_none_match read) (ETag (fst (app_patch errors req st))) = false ->
   exists merged,
     fst (app_patch errors req st) =
       Response 200 (Some (generateETag (JSON_stringify merged)))
         (message_data "Plan updated" merged) /\
     app_get errors read (snd (app_patch errors req st)) =
       (Response 200 (Some (generateETag (JSON_stringify merged))) (Json merged),
        snd (app_patch errors req st))).
Proof.
  intros Hwf Hk.
  assert (G : forall st0 d, js_wf d = true ->
            fresh (if_none_match read) (Some (generateETag (JSON_stringify d))) = false ->
            app_get errors read (redis_set st0 (objectId req) (JSON_stringify d))
            = (Response 200 (Some (generateETag (JSON_stringify d))) (Json d),
               redis_set st0 (objectId req) (JSON_stringify d))).
  { intros st0 d Hd Hf. rewrite app_get_record, Hk, record_set.
    destruct (header_is _ _) eqn:Hh.
    { apply header_is_iff in Hh. rewrite Hh, fresh_same_tag in Hf. discriminate. }
    rewrite (JSON_parse_stringify _ Hd), Hf. reflexivity. }
  split.
  - intros Hs. rewrite (proj1 (app_put_status errors req st)) in Hs.
    rewrite (app_put_200 _ _ _ Hs). destruct (is_success_put _ _ Hs) as (_ & _ & ->).
    cbn [fst snd ETag]. intros Hf. split; [reflexivity|]. apply G; assumption.
  - intros Hs. rewrite (proj1 (app_patch_status errors req st)) in Hs.
    rewrite (app_patch_200 _ _ _ Hs).
    destruct (is_success_patch _ _ Hs) as (old & p & _ & _ & Hp & _ & ->).
    cbn [fst snd ETag]. intros Hf. exists (spread p (body req)). split; [reflexivity|].
    apply G; [|exact Hf]. apply spread_wf; [exact (JSON_parse_wf _ _ Hp) | exact Hwf].
Qed.

Lemma write_then_read_witness :
  js_wf (body put_v2) = true /\
  objectId get_fresh = objectId put_v2 /\
  status (fst (app_put EmptyString put_v2 sample_store)) = 200 /\
  fresh (if_none_match get_fresh) (ETag (fst (app_put EmptyString put_v2 sample_store)))
  = false /\
  app_get EmptyString get_fresh (snd (app_put EmptyString put_v2 sample_store)) =
    (Response 200 (Some (generateETag (JSON_stringify (body put_v2)))) (Json (body put_v2)),
     snd (app_put EmptyString put_v2 sample_store)).
Proof.
  assert (S : status (fst (app_put EmptyString put_v2 sample_store)) = 200)
    by (vm_compute; reflexivity).
  refine (conj eq_refl (conj eq_refl (conj S (conj eq_refl _)))).
  exact (proj2 (proj1 (write_then_read EmptyString put_v2 get_fresh sample_store
                         eq_refl eq_refl) S eq_refl)).
Defined.

(** X7.  Once a DELETE has been answered 204 the key is free: a GET, a
    PATCH and a PUT with a valid body on it are answered 404, and a POST
    of a valid document with that key is answered 201 and stores it. *)
Theorem delete_frees_the_key (req next : request) (st : store) :
  status (fst (delete_handler req st)) = 204 ->
  objectId next = objectId req ->
  status (fst (get_handler next (snd (delete_handler req st)))) = 404 /\
  status (fst (patch_handler next (snd (delete_handler req st)))) = 404 /\
  (validatePlan (body next) = true ->
   status (fst (put_handler next (snd (delete_handler req st)))) = 404) /\
  (validatePlan (body next) = true -> plan_key (body next) = Some (objectId req) ->
   post_handler next (snd (delete_handler req st)) =
     Some (Response 201 (Some (generateETag (JSON_stringify (body next))))
             (message_data "Plan created" (body next)),
           redis_set (snd (delete_handler req st)) (objectId req)
                     (JSON_stringify (body next)))).
Proof.
  intros Hs Hk.
  assert (Hst : snd (delete_handler req st) = delete (objectId req) st).
  { revert Hs. rewrite delete_handler_record.
    destruct (record st (objectId req)); [|discriminate].
    destruct (_ && _); [discriminate | reflexivity]. }
  rewrite Hst. repeat split.
  - rewrite get_handler_record, Hk, record_delete. reflexivity.
  - rewrite patch_handler_record, Hk, record_delete. reflexivity.
  - intros Hv. rewrite put_handler_record, Hv, Hk, record_delete. reflexivity.
  - intros Hv Hkey. rewrite (post_handler_record _ _ _ Hv Hkey), record_delete. reflexivity.
Qed.

Lemma delete_frees_the_key_witness :
  status (fst (delete_handler delete_plain sample_store)) = 204 /\
  objectId get_fresh = objectId delete_plain /\
  status (fst (get_handler get_fresh (snd (delete_handler delete_plain sample_store)))) = 404.
Proof.
  assert (S : status (fst (delete_handler delete_plain sample_store)) = 204)
    by (vm_compute; reflexivity).
  refine (conj S (conj eq_refl _)).
  exact (proj1 (delete_frees_the_key delete_plain get_fresh sample_store S eq_refl)).
Defined.

(** X8.  A second create does not overwrite: after a POST of [D1] has been
    answered 201, a POST of any valid document with the same key is
    answered 409 with [D1] as the existing record, and the store stays as
    the first POST left it. *)
Theorem duplicate_create_returns_original (first second : request) (st st1 : store)
        (created : response) (key : string) :
  js_wf (body first) = true ->
  post_handler first st = Some (created, st1) ->
  status created = 201 ->
  plan_key (body first) = Some key ->
  validatePlan (body second) = true ->
  plan_key (body second) = Some key ->
  post_handler second st1 =
    Some (Response 409 None (message_data "Conflict: Plan already exists" (body first)), st1) /\
  redis_get st1 key = Some (JSON_stringify (body first)).
Proof.
  intros Hwf Hp Hs Hk Hv2 Hk2.
  assert (Hst : st1 = redis_set st key (JSON_stringify (body first))).
  { destruct (validatePlan (body first)) eqn:Hv.
    - rewrite (post_handler_record _ _ _ Hv Hk) in Hp.
      destruct (record st key) as [old|].
      + exfalso. apply (f_equal (option_map (fun a => status (fst a)))) in Hp.
        destruct (JSON_parse old); cbn [option_map fst status] in Hp; congruence.
      + congruence.
    - exfalso. unfold post_handler in Hp. rewrite Hv in Hp. cbn [negb] in Hp.
      apply (f_equal (option_map (fun a => status (fst a)))) in Hp.
      cbn [option_map fst status] in Hp. congruence. }
  subst st1. split.
  - rewrite (post_handler_record _ _ _ Hv2 Hk2), record_set, (JSON_parse_stringify _ Hwf).
    reflexivity.
  - unfold redis_get, redis_set. apply lookup_insert_eq.
Qed.

Lemma duplicate_create_returns_original_witness :
  js_wf (body post_v1) = true /\
  post_handler post_v1 ∅ =
    Some (Response 201 (Some tag_v1) (message_data "Plan created" plan_v1), sample_store) /\
  status (Response 201 (Some tag_v1) (message_data "Plan created" plan_v1)) = 201 /\
  plan_key (body post_v1) = Some "k1" /\
  validatePlan (body post_v2) = true /\
  plan_key (body post_v2) = Some "k1" /\
  post_handler post_v2 sample_store =
    Some (Response 409 None (message_data "Conflict: Plan already exists" (body post_v1)),
          sample_store).
Proof.
  assert (P : post_handler post_v1 ∅ =
    Some (Response 201 (Some tag_v1) (message_data "Plan created" plan_v1), sample_store))
    by (vm_compute; reflexivity).
  refine (conj eq_refl (conj P (conj eq_refl (conj eq_refl (conj eq_refl (conj eq_refl _)))))).
  exact (proj1 (duplicate_create_returns_original post_v1 post_v2 ∅ sample_store _ "k1"
                  eq_refl P eq_refl eq_refl eq_refl eq_refl)).
Defined.

(** X23.  A PUT does not compare the key in the URL with the key in the
    document.  When a PUT is answered 200 and its body carries another
    [planCostShares.objectId] than the URL, the body is stored under the
    URL key and read back from there, the record under the document's own
    key is not touched, and when there is none a POST of the same document
    is answered 201: the document is then stored under both keys. *)
Theorem put_does_not_check_the_key (req : request) (st : store) (id : string) :
  js_wf (body req) = true ->
  status (fst (put_handler req st)) = 200 ->
  plan_key (body req) = Some id -> id <> objectId req ->
  (forall read, objectId read = objectId req -> if_none_match read = None ->
     sent (fst (get_handler read (snd (put_handler req st)))) = Json (body req)) /\
  redis_get (snd (put_handler req st)) id = redis_get st id /\
  (forall post, body post = body req -> record st id = None ->
     exists created st2,
       post_handler post (snd (put_handler req st)) = Some (created, st2) /\
       status created = 201 /\
       redis_get st2 id = Some (JSON_stringify (body req)) /\
       redis_get st2 (objectId req) = Some (JSON_stringify (body req))).
Proof.
  intros Hwf Hs Hk Hne.
  assert (H : validatePlan (body req) = true /\
              snd (put_handler req st) = redis_set st (objectId req) (JSON_stringify (body req))).
  { revert Hs. rewrite put_handler_record.
    destruct (validatePlan (body req)); cbn [negb]; [|discriminate].
    destruct (record st (objectId req)); [|discriminate].
    destruct (header_is _ _); [|discriminate]. intros _. split; reflexivity. }
  destruct H as [Hv ->]. repeat split.
  - intros read Hread Hh. rewrite get_handler_record, Hread, record_set, Hh.
    cbn [header_is]. rewrite (JSON_parse_stringify _ Hwf). reflexivity.
  - unfold redis_get, redis_set. apply lookup_insert_ne. congruence.
  - intros post Hb Hr.
    assert (Hr' : record (redis_set st (objectId req) (JSON_stringify (body req))) id = None).
    { rewrite record_set_other; [exact Hr | congruence]. }
    rewrite <- Hb in Hv, Hk.
    rewrite (post_handler_record post _ id Hv Hk), Hr'. rewrite Hb.
    eexists _, _. split; [reflexivity|]. split; [reflexivity|].
    unfold redis_get, redis_set. split.
    + apply lookup_insert_eq.
    + rewrite lookup_insert_ne by congruence. apply lookup_insert_eq.
Qed.

Lemma put_does_not_check_the_key_witness :
  js_wf (body put_other_key) = true /\
  status (fst (put_handler put_other_key sample_store)) = 200 /\
  plan_key (body put_other_key) = Some "k2" /\
  "k2" <> objectId put_other_key /\
  redis_get (snd (put_handler put_other_key sample_store)) "k2" = redis_get sample_store "k2".
Proof.
  assert (S : status (fst (put_handler put_other_key sample_store)) = 200)
    by (vm_compute; reflexivity).
  assert (N : "k2" <> objectId put_other_key) by discriminate.
  refine (conj eq_refl (conj S (conj eq_refl (conj N _)))).
  exact (proj1 (proj2 (put_does_not_check_the_key put_other_key sample_store "k2"
                         eq_refl S eq_refl N))).
Defined.

(** ** The middleware and the form of the tag *)

(** X9.  The middleware's verdict.  A request with no [Authorization]
    header, or one that does not start with [Bearer ], is answered 401
    whatever the identity provider would say.  On a header [Bearer t],
    possibly followed by a space and more text, the provider is asked about
    [t] alone: when it accepts the handler answers, when it throws the
    answer is 403 with its message.  A refusal leaves the store untouched. *)
Theorem verifyToken_verdict (verify : string -> option string)
        (handler : request -> store -> response * store) (req : request) (st : store) :
  ((forall h, authorization req = Some h -> starts_with "Bearer " h = false) ->
   route verify handler req st =
     (Response 401 None (error "Unauthorized: Missing or invalid Authorization header"), st) /\
   post_route verify req st =
     Some (Response 401 None (error "Unauthorized: Missing or invalid Authorization header"),
           st)) /\
  (forall t rest,
     authorization req = Some ("Bearer " ++ t ++ rest) ->
     no_space t = true ->
     (rest = EmptyString \/ exists r, rest = String " " r) ->
     (verify t = None ->
      route verify handler req st = handler req st /\
      post_route verify req st = post_handler req st) /\
     (forall msg, verify t = Some msg ->
        route verify handler req st = (Response 403 None (error ("Forbidden: " ++ msg)), st) /\
        post_route verify req st =
          Some (Response 403 None (error ("Forbidden: " ++ msg)), st))).
Proof.
  split.
  - intros Hh. unfold route, post_route, verifyToken.
    destruct (authorization req) as [h|]; [|split; reflexivity].
    rewrite (Hh h eq_refl). cbn [negb]. rewrite orb_true_r. split; reflexivity.
  - intros t rest Ha Ht Hrest. unfold route, post_route, verifyToken. rewrite Ha.
    rewrite (token_of_bearer t rest Ht Hrest).
    change (String.eqb ("Bearer " ++ t ++ rest) EmptyString
            || negb (starts_with "Bearer " ("Bearer " ++ t ++ rest))) with false.
    cbv iota. split.
    + intros ->. split; reflexivity.
    + intros msg ->. split; reflexivity.
Qed.

(** X10.  The tag is always forty lowercase hexadecimal digits.  So a
    header value of any other form (a [*], a quoted or a weak tag) is never
    the tag of a record: sent in [If-Match] it never lets a PUT or PATCH
    through (no 200), and sent in [If-None-Match] it never gets a 204 from
    DELETE.  A GET is different: Express's freshness check answers 304 to
    such a value when it is fresh, and that 304, unlike the handler's own,
    carries the record's tag. *)
Theorem tag_is_hex40 (errors : string) (T : string) (req : request) (st : store) :
  (forall data, hex40 (generateETag data) = true) /\
  (hex40 T = false ->
   (if_match req = Some T ->
    status (fst (app_put errors req st)) <> 200 /\
    status (fst (app_patch errors req st)) <> 200) /\
   (if_none_match req = Some T -> T <> EmptyString ->
    status (fst (app_delete errors req st)) <> 204) /\
   (if_none_match req = Some T ->
    status (fst (app_get errors req st)) = 304 ->
    exists plan, record st (objectId req) = Some plan /\
                 fresh (Some T) (Some (generateETag plan)) = true /\
                 fst (app_get errors req st) = Response 304 (Some (generateETag plan)) NoBody)).
Proof.
  split; [exact generateETag_hex40|]. intros HT.
  assert (Hne : forall h plan, h = Some T -> header_is h (generateETag plan) = false).
  { intros h plan ->. cbn [header_is]. destruct (String.eqb_spec T (generateETag plan)) as [E|];
      [|reflexivity].
    rewrite E, generateETag_hex40 in HT. discriminate. }
  split; [|split].
  - intros Hm. split.
    + rewrite (proj1 (app_put_status errors req st)), put_handler_record.
      destruct (negb _); [discriminate|].
      destruct (record st (objectId req)) as [old|]; [|discriminate].
      rewrite (Hne _ old Hm). discriminate.
    + rewrite (proj1 (app_patch_status errors req st)), patch_handler_record.
      destruct (record st (objectId req)) as [old|]; [|discriminate].
      rewrite (Hne _ old Hm). discriminate.
  - intros Hm Hemp. rewrite (proj1 (app_delete_handler errors req st)), delete_handler_record.
    destruct (record st (objectId req)) as [old|]; [|discriminate].
    rewrite (Hne _ old Hm), Hm. cbn [header_given negb].
    destruct (String.eqb_spec T EmptyString); [contradiction|]. discriminate.
  - intros Hm. rewrite app_get_record.
    destruct (record st (objectId req)) as [old|]; [|discriminate].
    rewrite (Hne _ old Hm).
    destruct (JSON_parse old); [|discriminate].
    rewrite Hm. destruct (fresh (Some T) _) eqn:Hf; [|discriminate].
    intros _. exists old. auto.
Qed.

(** ** The schema and the shape of a plan *)

(** X11.  What the schema accepts at the top level: an object with exactly
    the seven keys of a plan, no other; [planCostShares] is an object with
    a string [objectId], [linkedPlanServices] is an array (it may be
    empty), and the five other members are strings. *)
Theorem validated_plan_shape (d : json) :
  validatePlan d = true ->
  exists props shares services,
    d = JObj props /\
    (forall k, has_prop props k = true <-> In k plan_keys) /\
    get_prop props "planCostShares" = Some (JObj shares) /\
    (exists id, get_prop shares "objectId" = Some (JStr id)) /\
    get_prop props "linkedPlanServices" = Some (JArr services) /\
    (forall k, In k ["_org"; "objectId"; "objectType"; "planType"; "creationDate"] ->
       exists s, get_prop props k = Some (JStr s)).
Proof.
  intros Hv. destruct d as [| | | | |props]; try discriminate.
  pose proof (validatePlan_keys props) as Hkeys.
  pose proof Hv as Hv'. apply validate_object in Hv' as [Hreq Hall].
  assert (Hmem : forall k, In k plan_keys ->
            exists v s, get_prop props k = Some v /\
                        property_schema
                          [("planCostShares", costSharesSchema);
                           ("linkedPlanServices",
                            SArray (SObject [("linkedService", linkedServiceSchema);
                                             ("planserviceCostShares", costSharesSchema);
                                             ("_org", SString); ("objectId", SString);
                                             ("objectType", SString)]
                                            ["linkedService"; "planserviceCostShares"; "_org";
                                             "objectId"; "objectType"] false));
                           ("_org", SString); ("objectId", SString); ("objectType", SString);
                           ("planType", SString); ("creationDate", SString)] k = Some s /\
                        validate s v = true).
  { intros k Hk. destruct (has_prop_get _ _ (Hreq k Hk)) as [v Hget].
    specialize (Hall k v Hget). destruct (property_schema _ k) as [s|]; [|discriminate].
    exists v, s. auto. }
  destruct (Hmem "planCostShares") as (v1 & s1 & Hg1 & Hs1 & Hv1); [cbn; tauto|].
  destruct (Hmem "linkedPlanServices") as (v2 & s2 & Hg2 & Hs2 & Hv2); [cbn; tauto|].
  cbn in Hs1, Hs2. inversion Hs1; subst s1. inversion Hs2; subst s2. clear Hs1 Hs2.
  destruct v1 as [| | | | |shares]; try discriminate.
  destruct v2 as [| | | |services|]; try discriminate.
  exists props, shares, services. repeat split.
  - apply Hkeys, Hv.
  - apply Hkeys, Hv.
  - exact Hg1.
  - apply validate_object in Hv1 as [Hreq1 Hall1].
    destruct (has_prop_get _ _ (Hreq1 "objectId" ltac:(cbn; tauto))) as [id Hid].
    specialize (Hall1 _ _ Hid). cbn in Hall1.
    destruct id as [| | |id| |]; try discriminate. exists id. exact Hid.
  - exact Hg2.
  - intros k Hk.
    destruct (Hmem k) as (v & s & Hg & Hs & Hvs).
    { cbn in Hk |- *. tauto. }
    cbn in Hk. assert (s = SString).
    { destruct Hk as [<-|[<-|[<-|[<-|[<-|[]]]]]]; cbn in Hs; congruence. }
    subst s. destruct v as [| | |str| |]; try discriminate. exists str. exact Hg.
Qed.

Lemma validated_plan_shape_witness :
  validatePlan plan_v1 = true /\
  exists props shares services,
    plan_v1 = JObj props /\
    (forall k, has_prop props k = true <-> In k plan_keys) /\
    get_prop props "planCostShares" = Some (JObj shares) /\
    (exists id, get_prop shares "objectId" = Some (JStr id)) /\
    get_prop props "linkedPlanServices" = Some (JArr services) /\
    (forall k, In k ["_org"; "objectId"; "objectType"; "planType"; "creationDate"] ->
       exists s, get_prop props k = Some (JStr s)).
Proof. split; [reflexivity | apply (validated_plan_shape plan_v1); reflexivity]. Defined.

(** X12.  A PATCH cannot change the shape of a plan: when it is answered
    200 every key of its body is one of the seven keys of a plan, and the
    document it stores passes the schema and has exactly those keys.  A
    body with any other key (a non-empty array or string among them) is
    never answered 200. *)
Theorem patch_keeps_the_shape (req : request) (st : store) :
  status (fst (patch_handler req st)) = 200 ->
  (forall k, In k (map fst (own_props (body req))) -> In k plan_keys) /\
  exists merged,
    redis_get (snd (patch_handler req st)) (objectId req)
    = Some (JSON_stringify (JObj merged)) /\
    validatePlan (JObj merged) = true /\
    (forall k, has_prop merged k = true <-> In k plan_keys).
Proof.
  rewrite patch_handler_record.
  destruct (record st (objectId req)) as [old|]; [|discriminate].
  destruct (header_is _ _); [|discriminate].
  destruct (JSON_parse old) as [p|]; [|discriminate].
  destruct (validatePlan (spread p (body req))) eqn:Hv; [|discriminate].
  intros _. cbn [fst snd]. unfold spread in *. split.
  - intros k Hk. apply (validatePlan_keys _ k Hv). apply has_prop_set_props. right. exact Hk.
  - eexists. split; [|split; [exact Hv|]].
    + unfold redis_get, redis_set. apply lookup_insert_eq.
    + intros k. apply validatePlan_keys. exact Hv.
Qed.

Lemma patch_keeps_the_shape_witness :
  status (fst (patch_handler patch_type sample_store)) = 200 /\
  (forall k, In k (map fst (own_props (body patch_type))) -> In k plan_keys).
Proof.
  assert (S : status (fst (patch_handler patch_type sample_store)) = 200)
    by (vm_compute; reflexivity).
  exact (conj S (proj1 (patch_keeps_the_shape patch_type sample_store S))).
Defined.

(** X13.  A PATCH with nothing in its body (an empty object or array) on a
    record the service has written, sent with the record's tag, is answered
    200 with the stored document and the same tag, and the store is as it
    was. *)
Theorem patch_empty_body_changes_nothing (req : request) (st : store) (d : json) :
  record st (objectId req) = Some (JSON_stringify d) ->
  js_wf d = true -> validatePlan d = true ->
  if_match req = Some (generateETag (JSON_stringify d)) ->
  own_props (body req) = [] ->
  patch_handler req st =
    (Response 200 (Some (generateETag (JSON_stringify d))) (message_data "Plan updated" d), st).
Proof.
  intros Hr Hwf Hv Hm Hb.
  assert (Hs : spread d (body req) = d).
  { unfold spread. rewrite Hb. destruct d as [| | | | |props]; try discriminate.
    cbn [own_props set_props fold_left]. f_equal. apply set_props_wf.
    cbn [js_wf] in Hwf. apply andb_prop in Hwf as [Hk _]. exact Hk. }
  rewrite patch_handler_record, Hr, Hm. cbn [header_is]. rewrite String.eqb_refl.
  rewrite (JSON_parse_stringify d Hwf), Hs, Hv. f_equal.
  apply record_Some in Hr as [Hg _]. unfold redis_get in Hg. unfold redis_set.
  apply insert_id. exact Hg.
Qed.

Lemma patch_empty_body_changes_nothing_witness :
  record sample_store (objectId (Request None (Some tag_v1) None "k1" (JObj [])))
  = Some (JSON_stringify plan_v1) /\
  js_wf plan_v1 = true /\ validatePlan plan_v1 = true /\
  if_match (Request None (Some tag_v1) None "k1" (JObj []))
  = Some (generateETag (JSON_stringify plan_v1)) /\
  own_props (body (Request None (Some tag_v1) None "k1" (JObj []))) = [] /\
  patch_handler (Request None (Some tag_v1) None "k1" (JObj [])) sample_store =
    (Response 200 (Some (generateETag (JSON_stringify plan_v1)))
       (message_data "Plan updated" plan_v1), sample_store).
Proof.
  assert (R : record sample_store (objectId (Request None (Some tag_v1) None "k1" (JObj [])))
              = Some (JSON_stringify plan_v1)) by (vm_compute; reflexivity).
  refine (conj R (conj eq_refl (conj eq_refl (conj eq_refl (conj eq_refl _))))).
  exact (patch_empty_body_changes_nothing (Request None (Some tag_v1) None "k1" (JObj []))
           sample_store plan_v1 R eq_refl eq_refl eq_refl eq_refl).
Defined.

(** * Properties of the earlier revisions *)

(** ** The first Redis revision *)

(** X14.  In the first Redis revision the tag of a GET is the Base64 text
    of the stored bytes in quotes, and that is one-to-one: two byte strings
    with the same tag are equal.  So a GET that carries the tag of the
    client's copy in [If-None-Match] is answered 304 exactly when the
    record holds the bytes of that copy. *)
Theorem part000_not_modified_means_same_bytes (req : request) (st : store) (cached : string) :
  (forall plan1 plan2, Part000.etag_of plan1 = Part000.etag_of plan2 -> plan1 = plan2) /\
  (if_none_match req = Some (Part000.etag_of cached) ->
   (status (fst (Part000.get_handler req st)) = 304 <->
    record st (objectId req) = Some cached)).
Proof.
  split; [exact part000_etag_inj|]. intros Hh. rewrite part000_get_record. split.
  - destruct (record st (objectId req)) as [plan|]; [|discriminate].
    destruct (header_is _ _) eqn:E.
    + intros _. apply header_is_iff in E. rewrite Hh in E.
      assert (E' : Part000.etag_of cached = Part000.etag_of plan) by congruence.
      apply part000_etag_inj in E'. congruence.
    + destruct (JSON_parse plan); discriminate.
  - intros ->. rewrite Hh. cbn [header_is]. rewrite String.eqb_refl. reflexivity.
Qed.

(** X15.  In the first Redis revision a PATCH has no precondition: two
    PATCHes served one after the other on a record are both answered 200
    when their merges pass the schema, whatever headers they carry, and the
    record ends as the second merged into the first merged into the stored
    document. *)
Theorem part000_patches_compose (first second : request) (st : store) (d : json) :
  record st (objectId first) = Some (JSON_stringify d) ->
  js_wf d = true -> js_wf (body first) = true ->
  objectId second = objectId first ->
  validatePlan (spread d (body first)) = true ->
  validatePlan (spread (spread d (body first)) (body second)) = true ->
  fst (Part000.patch_handler first st) =
    Response 200 None (message_data "Plan updated" (spread d (body first))) /\
  fst (Part000.patch_handler second (snd (Part000.patch_handler first st))) =
    Response 200 None
      (message_data "Plan updated" (spread (spread d (body first)) (body second))) /\
  redis_get (snd (Part000.patch_handler second (snd (Part000.patch_handler first st))))
            (objectId first)
  = Some (JSON_stringify (spread (spread d (body first)) (body second))).
Proof.
  intros Hr Hwf Hwf1 Hk Hv1 Hv2.
  assert (H1 : Part000.patch_handler first st =
               (Response 200 None (message_data "Plan updated" (spread d (body first))),
                redis_set st (objectId first) (JSON_stringify (spread d (body first))))).
  { rewrite part000_patch_record, Hr, (JSON_parse_stringify d Hwf), Hv1. reflexivity. }
  rewrite H1. cbn [fst snd]. split; [reflexivity|].
  rewrite part000_patch_record, Hk, record_set.
  rewrite (JSON_parse_stringify (spread d (body first)));
    [|apply spread_wf; assumption].
  rewrite Hv2. cbn [fst snd]. split; [reflexivity|].
  unfold redis_get, redis_set. apply lookup_insert_eq.
Qed.

Lemma part000_patches_compose_witness :
  record sample_store (objectId patch_type) = Some (JSON_stringify plan_v1) /\
  js_wf plan_v1 = true /\ js_wf (body patch_type) = true /\
  objectId (put_no_header (JObj [("planType", JStr "PPO")])) = objectId patch_type /\
  validatePlan (spread plan_v1 (body patch_type)) = true /\
  validatePlan (spread (spread plan_v1 (body patch_type))
                       (body (put_no_header (JObj [("planType", JStr "PPO")])))) = true /\
  redis_get (snd (Part000.patch_handler (put_no_header (JObj [("planType", JStr "PPO")]))
                    (snd (Part000.patch_handler patch_type sample_store))))
            (objectId patch_type)
  = Some (JSON_stringify (spread (spread plan_v1 (body patch_type))
                                 (body (put_no_header (JObj [("planType", JStr "PPO")]))))).
Proof.
  assert (R : record sample_store (objectId patch_type) = Some (JSON_stringify plan_v1))
    by (vm_compute; reflexivity).
  refine (conj R (conj eq_refl (conj eq_refl (conj eq_refl (conj eq_refl (conj eq_refl _)))))).
  exact (proj2 (proj2 (part000_patches_compose patch_type
                         (put_no_header (JObj [("planType", JStr "PPO")]))
                         sample_store plan_v1 R eq_refl eq_refl eq_refl eq_refl eq_refl))).
Defined.

(** X16.  In the first Redis revision a DELETE answers by the count [DEL]
    returns: 404 with the store unchanged when the key is not there, 204
    with the key removed when it is, whatever the headers; and a DELETE
    that follows a DELETE on the same key is answered 404. *)
Theorem part000_delete_by_count (req again : request) (st : store) :
  (redis_get st (objectId req) = None ->
   Part000.delete_handler req st =
     (Response 404 None (message "Not Found: Plan not found"), st)) /\
  (forall plan, redis_get st (objectId req) = Some plan ->
   Part000.delete_handler req st = (Response 204 None NoBody, delete (objectId req) st)) /\
  (objectId again = objectId req ->
   status (fst (Part000.delete_handler again (snd (Part000.delete_handler req st)))) = 404).
Proof.
  unfold Part000.delete_handler, redis_del, redis_get. repeat split.
  - intros H. rewrite H. cbn. f_equal. apply delete_id. exact H.
  - intros plan H. rewrite H. reflexivity.
  - intros ->. destruct (st !! objectId req); cbn [Z.eqb fst snd];
      rewrite lookup_delete_eq; reflexivity.
Qed.

(** X17.  In the first Redis revision the handler of POST sets no tag: the
    [ETag] of its 201 answer is the weak tag Express computes of the
    answer's body, which is not the tag of the record.  A following GET on
    the key that is neither a match nor fresh is answered 200 with the
    created document and the Base64 tag of its serialization, and a GET
    that carries this tag in [If-None-Match] is answered 304. *)
Theorem part000_create_then_read (errors : string) (req read : request) (st st1 : store)
        (created : response) (key : string) :
  js_wf (body req) = true ->
  Part000.app_post errors req st = Some (created, st1) ->
  status created = 201 -> plan_key (body req) = Some key -> objectId read = key ->
  ETag created
  = Some (weak_etag (JSON_stringify
                       (JObj [("message", JStr "Plan created"); ("data", body req)]))) /\
  ETag created <> Some (Part000.etag_of (JSON_stringify (body req))) /\
  (if_none_match read <> Some (Part000.etag_of (JSON_stringify (body req))) ->
   fresh (if_none_match read) (Some (Part000.etag_of (JSON_stringify (body req)))) = false ->
   Part000.app_get errors read st1 =
     (Response 200 (Some (Part000.etag_of (JSON_stringify (body req)))) (Json (body req)),
      st1)) /\
  (if_none_match read = Some (Part000.etag_of (JSON_stringify (body req))) ->
   Part000.app_get errors read st1 = (Response 304 None NoBody, st1)).
Proof.
  intros Hwf Hp Hs Hk Hread. unfold Part000.app_post in Hp.
  destruct (Part000.post_handler req st) as [[r0 st0]|] eqn:H0; [|discriminate].
  assert (Er : created = res_send errors POST req r0) by congruence.
  assert (Es : st1 = st0) by congruence. subst created st1. clear Hp.
  rewrite res_send_status in Hs by discriminate.
  assert (H : r0 = Response 201 None (message_data "Plan created" (body req)) /\
              st0 = redis_set st key (JSON_stringify (body req))).
  { destruct (validatePlan (body req)) eqn:Hv.
    - rewrite (part000_post_record _ _ _ Hv Hk) in H0.
      destruct (record st key) as [old|].
      + exfalso. apply (f_equal (option_map (fun a => status (fst a)))) in H0.
        destruct (JSON_parse old); cbn [option_map fst status] in H0; congruence.
      + split; congruence.
    - exfalso. unfold Part000.post_handler in H0. rewrite Hv in H0. cbn [negb] in H0.
      apply (f_equal (option_map (fun a => status (fst a)))) in H0.
      cbn [option_map fst status] in H0. congruence. }
  destruct H as [-> ->]. clear H0 Hs. unfold message_data.
  rewrite res_send_untagged; [|discriminate|lia|lia]. cbn [ETag].
  split; [reflexivity|]. split.
  { unfold weak_etag, Part000.etag_of, in_quotes.
    change ("W/" ++ ?x) with (String "W" (String "/" x)). discriminate. }
  unfold Part000.app_get. rewrite part000_get_record, Hread, record_set. split.
  - intros Hne Hf. destruct (header_is _ _) eqn:E.
    { apply header_is_iff in E. contradiction. }
    rewrite (JSON_parse_stringify _ Hwf). cbn [fst snd].
    rewrite res_send_get_200, Hf; [reflexivity|]. unfold Part000.etag_of, in_quotes.
    discriminate.
  - intros ->. cbn [header_is]. rewrite String.eqb_refl. reflexivity.
Qed.

Lemma part000_create_then_read_witness :
  js_wf (body post_v1) = true /\
  Part000.app_post EmptyString post_v1 ∅ =
    Some (Response 201
            (Some (weak_etag (JSON_stringify
                                (JObj [("message", JStr "Plan created"); ("data", plan_v1)]))))
            (message_data "Plan created" plan_v1), sample_store) /\
  status (Response 201
            (Some (weak_etag (JSON_stringify
                                (JObj [("message", JStr "Plan created"); ("data", plan_v1)]))))
            (message_data "Plan created" plan_v1)) = 201 /\
  plan_key (body post_v1) = Some "k1" /\ objectId get_fresh = "k1" /\
  Part000.app_get EmptyString get_fresh sample_store =
    (Response 200 (Some (Part000.etag_of (JSON_stringify (body post_v1))))
       (Json (body post_v1)), sample_store).
Proof.
  assert (P : Part000.app_post EmptyString post_v1 ∅ =
    Some (Response 201
            (Some (weak_etag (JSON_stringify
                                (JObj [("message", JStr "Plan created"); ("data", plan_v1)]))))
            (message_data "Plan created" plan_v1), sample_store))
    by (vm_compute; reflexivity).
  assert (N : if_none_match get_fresh <> Some (Part000.etag_of (JSON_stringify (body post_v1))))
    by discriminate.
  refine (conj eq_refl (conj P (conj eq_refl (conj eq_refl (conj eq_refl _))))).
  exact (proj1 (proj2 (proj2 (part000_create_then_read EmptyString post_v1 get_fresh ∅
                                sample_store _ "k1" eq_refl P eq_refl eq_refl eq_refl)))
           N eq_refl).
Defined.

(** ** The revision of 31 October 2024 *)

(** X18.  In the revision of 31 October the tag of a document is the
    Base64 text of its serialization in quotes, and it is one-to-one: equal
    tags mean equal serializations, and equal documents for JavaScript
    values.  Two PUTs answered 200 with the same [ETag] carry the same
    body. *)
Theorem rev1031_tag_is_one_to_one (d1 d2 : json) :
  (Rev20241031.generateETag d1 = Rev20241031.generateETag d2 ->
   JSON_stringify d1 = JSON_stringify d2) /\
  (js_wf d1 = true -> js_wf d2 = true ->
   Rev20241031.generateETag d1 = Rev20241031.generateETag d2 -> d1 = d2) /\
  (forall req1 req2 st1 st2,
     body req1 = d1 -> body req2 = d2 -> js_wf d1 = true -> js_wf d2 = true ->
     status (fst (Rev20241031.put_handler req1 st1)) = 200 ->
     status (fst (Rev20241031.put_handler req2 st2)) = 200 ->
     ETag (fst (Rev20241031.put_handler req1 st1)) = ETag (fst (Rev20241031.put_handler req2 st2)) ->
     d1 = d2).
Proof.
  assert (A : Rev20241031.generateETag d1 = Rev20241031.generateETag d2 ->
              JSON_stringify d1 = JSON_stringify d2).
  { intros E. apply base64_encode_inj, in_quotes_inj, E. }
  assert (B : js_wf d1 = true -> js_wf d2 = true ->
              Rev20241031.generateETag d1 = Rev20241031.generateETag d2 -> d1 = d2).
  { intros H1 H2 E. apply JSON_stringify_inj; auto. }
  split; [exact A|]. split; [exact B|].
  intros req1 req2 st1 st2 E1 E2 H1 H2. rewrite !rev1031_put_record.
  destruct (negb (validatePlan (body req1))); [discriminate|].
  destruct (negb (validatePlan (body req2))); [intros _; discriminate|].
  destruct (record st1 (objectId req1)); [|discriminate].
  destruct (record st2 (objectId req2)); [|intros _; discriminate].
  cbn [fst ETag]. rewrite E1, E2. intros _ _ E. apply B; congruence.
Qed.

(** X19.  In the revision of 31 October a record the service has written
    cannot be patched.  POST and PUT store the document with an [etag]
    member; PATCH merges the body into that stored document and validates
    the result, which the schema rejects for the extra member: after a POST
    answered 201 or a PUT answered 200, every PATCH on the key is answered
    400 and changes nothing. *)
Theorem rev1031_patch_is_always_400 (req next : request) (st : store) :
  js_wf (body req) = true ->
  (forall created st1 key,
     Rev20241031.post_handler req st = Some (created, st1) ->
     status created = 201 -> plan_key (body req) = Some key -> objectId next = key ->
     Rev20241031.patch_handler next st1 = (Response 400 None ValidationErrors, st1)) /\
  (status (fst (Rev20241031.put_handler req st)) = 200 ->
   objectId next = objectId req ->
   Rev20241031.patch_handler next (snd (Rev20241031.put_handler req st)) =
     (Response 400 None ValidationErrors, snd (Rev20241031.put_handler req st))).
Proof.
  intros Hwf.
  assert (P : forall st0 k data etag,
            js_wf data = true -> objectId next = k ->
            Rev20241031.patch_handler next
              (redis_set st0 k (JSON_stringify (Rev20241031.with_etag data etag)))
            = (Response 400 None ValidationErrors,
               redis_set st0 k (JSON_stringify (Rev20241031.with_etag data etag)))).
  { intros st0 k data etag Hd Hk. rewrite rev1031_patch_record, Hk, record_set.
    rewrite (JSON_parse_stringify _ (with_etag_wf data etag Hd)).
    rewrite spread_with_etag_invalid. reflexivity. }
  split.
  - intros created st1 key Hp Hs Hk Hn.
    assert (Hst : st1 = redis_set st key
                          (JSON_stringify (Rev20241031.with_etag (body req)
                                             (Rev20241031.generateETag (body req))))).
    { destruct (validatePlan (body req)) eqn:Hv.
      - rewrite (rev1031_post_record _ _ _ Hv Hk) in Hp.
        destruct (record st key) as [old|].
        + exfalso. apply (f_equal (option_map (fun a => status (fst a)))) in Hp.
          destruct (JSON_parse old); cbn [option_map fst status] in Hp; congruence.
        + congruence.
      - exfalso. unfold Rev20241031.post_handler in Hp. rewrite Hv in Hp. cbn [negb] in Hp.
        apply (f_equal (option_map (fun a => status (fst a)))) in Hp.
        cbn [option_map fst status] in Hp. congruence. }
    rewrite Hst. apply P; assumption.
  - rewrite rev1031_put_record. destruct (negb _); [discriminate|].
    destruct (record st (objectId req)); [|discriminate].
    cbn [fst snd]. intros _ Hn. apply P; assumption.
Qed.

Lemma rev1031_patch_is_always_400_witness :
  js_wf (body put_v2) = true /\
  status (fst (Rev20241031.put_handler put_v2 sample_store)) = 200 /\
  objectId patch_type = objectId put_v2 /\
  Rev20241031.patch_handler patch_type (snd (Rev20241031.put_handler put_v2 sample_store)) =
    (Response 400 None ValidationErrors, snd (Rev20241031.put_handler put_v2 sample_store)).
Proof.
  assert (S : status (fst (Rev20241031.put_handler put_v2 sample_store)) = 200)
    by (vm_compute; reflexivity).
  refine (conj eq_refl (conj S (conj eq_refl _))).
  exact (proj2 (rev1031_patch_is_always_400 put_v2 patch_type sample_store eq_refl)
           S eq_refl).
Defined.

(** X20.  In the revision of 31 October a DELETE reads its precondition
    from [If-Match] and compares it with the tag stored in the document.
    After a POST answered 201 with [ETag: T], a DELETE on the key with
    [If-Match: T], or with no [If-Match] (or an empty one), is answered 204
    and removes the record; with any other [If-Match] it is answered 412
    and the record stays. *)
Theorem rev1031_delete_honours_if_match (req del : request) (st st1 : store)
        (created : response) (key T : string) :
  js_wf (body req) = true ->
  Rev20241031.post_handler req st = Some (created, st1) ->
  status created = 201 -> ETag created = Some T ->
  plan_key (body req) = Some key -> objectId del = key ->
  (if_match del = Some T \/ header_given (if_match del) = false ->
   Rev20241031.delete_handler del st1 = (Response 204 None NoBody, delete key st1)) /\
  (forall h, if_match del = Some h -> h <> EmptyString -> h <> T ->
   Rev20241031.delete_handler del st1 =
     (Response 412 None (message "Precondition Failed: ETag does not match"), st1)).
Proof.
  intros Hwf Hp Hs HT Hk Hd.
  assert (Hst : st1 = redis_set st key
                        (JSON_stringify (Rev20241031.with_etag (body req)
                                           (Rev20241031.generateETag (body req)))) /\
                T = Rev20241031.generateETag (body req)).
  { destruct (validatePlan (body req)) eqn:Hv.
    - rewrite (rev1031_post_record _ _ _ Hv Hk) in Hp.
      destruct (record st key) as [old|].
      + exfalso. apply (f_equal (option_map (fun a => status (fst a)))) in Hp.
        destruct (JSON_parse old); cbn [option_map fst status] in Hp; congruence.
      + split; [congruence|].
        apply (f_equal (option_map (fun a => ETag (fst a)))) in Hp.
        cbn [option_map fst ETag] in Hp. congruence.
    - exfalso. unfold Rev20241031.post_handler in Hp. rewrite Hv in Hp. cbn [negb] in Hp.
      apply (f_equal (option_map (fun a => status (fst a)))) in Hp.
      cbn [option_map fst status] in Hp. congruence. }
  destruct Hst as [Hst HT']. clear Hp.
  assert (Hr : record st1 (objectId del)
               = Some (JSON_stringify (Rev20241031.with_etag (body req) T))).
  { rewrite Hd, Hst, HT'. apply record_set. }
  rewrite (rev1031_delete_record del st1 (body req) T Hr Hwf), Hd. split.
  - intros [Hm|Hm].
    + rewrite Hm. cbn [header_is]. rewrite String.eqb_refl. cbn [negb].
      rewrite andb_false_r. reflexivity.
    + rewrite Hm. reflexivity.
  - intros h Hm Hne HneT. rewrite Hm. cbn [header_given header_is].
    destruct (String.eqb_spec h EmptyString); [contradiction|].
    destruct (String.eqb_spec h T); [contradiction|]. reflexivity.
Qed.

Lemma rev1031_delete_honours_if_match_witness :
  js_wf (body post_v1) = true /\
  Rev20241031.post_handler post_v1 ∅ = Some (created_1031, store_1031) /\
  status created_1031 = 201 /\ ETag created_1031 = Some tag_1031 /\
  plan_key (body post_v1) = Some "k1" /\ objectId delete_1031 = "k1" /\
  Rev20241031.delete_handler delete_1031 store_1031
  = (Response 204 None NoBody, delete "k1" store_1031).
Proof.
  assert (P : Rev20241031.post_handler post_v1 ∅ = Some (created_1031, store_1031))
    by (vm_compute; reflexivity).
  refine (conj eq_refl (conj P (conj eq_refl (conj eq_refl (conj eq_refl (conj eq_refl _)))))).
  exact (proj1 (rev1031_delete_honours_if_match post_v1 delete_1031 ∅ store_1031 created_1031
                  "k1" tag_1031 eq_refl P eq_refl eq_refl eq_refl eq_refl)
           (or_introl eq_refl)).
Defined.

(** ** The revision of 2 November 2024 *)

(** X21.  In the revision of 2 November a POST is keyed by the top-level
    [objectId] of the document, and a conflict is answered with the tag of
    the existing record: for a body that passes the schema, 409 with the
    stored document and the tag of the stored bytes in [ETag], the store
    unchanged, when a record is there; 201 with the tag of the new content
    when none is. *)
Theorem rev1102_conflict_carries_tag (req : request) (st : store) :
  validatePlan (body req) = true ->
  exists key,
    Rev20241102.plan_key (body req) = Some key /\
    (forall old existing,
        record st key = Some old -> JSON_parse old = Some existing ->
        Rev20241102.post_handler req st =
          Some (Response 409 (Some (generateETag old))
                  (message_data "Conflict: Plan already exists" existing), st)) /\
    (record st key = None ->
     Rev20241102.post_handler req st =
       Some (Response 201 (Some (generateETag (JSON_stringify (body req))))
               (message_data "Plan created" (body req)),
             redis_set st key (JSON_stringify (body req)))).
Proof.
  intros Hv. destruct (rev1102_key _ Hv) as [key Hk]. exists key. split; [exact Hk|].
  unfold Rev20241102.post_handler, record. rewrite Hv, Hk. cbn [negb]. split.
  - intros old existing Hr Hparse. destruct (redis_get st key) as [plan|]; [|discriminate].
    destruct (String.eqb plan EmptyString); [discriminate|].
    inversion Hr; subst. rewrite Hparse. reflexivity.
  - intros Hr. destruct (redis_get st key) as [plan|]; [|reflexivity].
    destruct (String.eqb plan EmptyString); [reflexivity | discriminate].
Qed.

Lemma rev1102_conflict_carries_tag_witness :
  validatePlan (body post_v2) = true /\
  exists key,
    Rev20241102.plan_key (body post_v2) = Some key /\
    (forall old existing,
        record (redis_set ∅ "12xvxc345ssdsds-508" (JSON_stringify plan_v1)) key = Some old ->
        JSON_parse old = Some existing ->
        Rev20241102.post_handler post_v2
          (redis_set ∅ "12xvxc345ssdsds-508" (JSON_stringify plan_v1)) =
          Some (Response 409 (Some (generateETag old))
                  (message_data "Conflict: Plan already exists" existing),
                redis_set ∅ "12xvxc345ssdsds-508" (JSON_stringify plan_v1))) /\
    (record (redis_set ∅ "12xvxc345ssdsds-508" (JSON_stringify plan_v1)) key = None ->
     Rev20241102.post_handler post_v2
       (redis_set ∅ "12xvxc345ssdsds-508" (JSON_stringify plan_v1)) =
       Some (Response 201 (Some (generateETag (JSON_stringify (body post_v2))))
               (message_data "Plan created" (body post_v2)),
             redis_set (redis_set ∅ "12xvxc345ssdsds-508" (JSON_stringify plan_v1)) key
                       (JSON_stringify (body post_v2)))).
Proof.
  split; [reflexivity|].
  exact (rev1102_conflict_carries_tag post_v2
           (redis_set ∅ "12xvxc345ssdsds-508" (JSON_stringify plan_v1)) eq_refl).
Defined.

(** X22.  In the revision of 2 November a GET sets the [ETag] header
    before it compares: every answer on a stored record carries the
    record's tag, the 304 as well.  And a DELETE has no precondition: on a
    stored record it is answered 204 and removes it, whatever the headers
    say. *)
Theorem rev1102_get_tags_and_delete_is_unconditional (req : request) (st : store)
        (plan : string) :
  record st (objectId req) = Some plan ->
  ETag (fst (Rev20241102.get_handler req st)) = Some (generateETag plan) /\
  (if_none_match req = Some (generateETag plan) ->
   Rev20241102.get_handler req st = (Response 304 (Some (generateETag plan)) NoBody, st)) /\
  Rev20241102.delete_handler req st = (Response 204 None NoBody, delete (objectId req) st).
Proof.
  intros Hr. apply record_Some in Hr as [Hg Hne].
  unfold Rev20241102.get_handler, Rev20241102.delete_handler, redis_del. rewrite Hg.
  unfold redis_get in Hg. rewrite Hg.
  destruct (String.eqb_spec plan EmptyString) as [E|_]; [contradiction|].
  repeat split.
  - destruct (header_is _ _); [reflexivity|]. destruct (JSON_parse plan); reflexivity.
  - intros Hh. rewrite Hh. cbn [header_is]. rewrite String.eqb_refl. reflexivity.
Qed.

Lemma rev1102_get_tags_and_delete_is_unconditional_witness :
  record sample_store (objectId get_cached) = Some (JSON_stringify plan_v1) /\
  Rev20241102.delete_handler get_cached sample_store
  = (Response 204 None NoBody, delete (objectId get_cached) sample_store).
Proof.
  assert (R : record sample_store (objectId get_cached) = Some (JSON_stringify plan_v1))
    by (vm_compute; reflexivity).
  exact (conj R (proj2 (proj2 (rev1102_get_tags_and_delete_is_unconditional get_cached
                                 sample_store (JSON_stringify plan_v1) R)))).
Defined.
